(** * Conversation state, cleaning and dispatch of the fact-checking chatbot

    A shallow embedding of the Python webhook handlers of the chatbot:
    the message normaliser, the per-user conversation context, the
    reply-routing and button-to-claim tables, the fact-check result
    cleaner [clean_facts], the intent detector and the dispatcher
    [handle_message_with_intent].

    Conventions of the model:
    - a Python [str] is its list of Unicode code points ([pystr]);
    - a JSON value produced by [json.loads] is a [pyval]; Python numbers
      (int and float) are rationals [Q];
    - a Python exception is [None] in the [option] monad;
    - calls to external HTTP services are section variables (oracles)
      that return [None] when the call raises. *)

From Stdlib Require Import QArith Strings.String Strings.Ascii ZArith.
From stdpp Require Import base gmap strings list.

Set Warnings "-register-all".

(** ** Python strings *)

Definition pystr := list N.

(** A Python string literal written in ASCII. *)
Definition lit (s : string) : pystr := map N_of_ascii (list_ascii_of_string s).

Definition pystr_eqb (a b : pystr) : bool := bool_decide (a = b).

(** [str.isspace] for one code point (the characters Python strips). *)
Definition is_space (c : N) : bool :=
  ((9 <=? c) && (c <=? 13))%N || ((28 <=? c) && (c <=? 32))%N
  || (c =? 133)%N || (c =? 160)%N || (c =? 5760)%N
  || ((8192 <=? c) && (c <=? 8202))%N
  || (c =? 8232)%N || (c =? 8233)%N || (c =? 8239)%N || (c =? 8287)%N
  || (c =? 12288)%N.

Fixpoint drop_space (s : pystr) : pystr :=
  match s with
  | [] => []
  | c :: r => if is_space c then drop_space r else s
  end.

(** [s.strip()] *)
Definition py_strip (s : pystr) : pystr := rev (drop_space (rev (drop_space s))).

(** [sep.join(l)] *)
Definition py_join (sep : pystr) (l : list pystr) : pystr :=
  match l with
  | [] => []
  | x :: xs => x ++ concat (map (fun y => sep ++ y) xs)
  end.

(** [l[:-1]] *)
Definition drop_last {A} (l : list A) : list A := firstn (length l - 1) l.

(** [s.replace(old, new)] for a one-character [old]. *)
Definition py_replace_char (old : N) (new : pystr) (s : pystr) : pystr :=
  flat_map (fun c => if (c =? old)%N then new else [c]) s.

(** [s.split()] without arguments: the maximal runs of non-space. *)
Fixpoint py_split_go (s : pystr) (cur : pystr) : list pystr :=
  match s with
  | [] => match cur with [] => [] | _ => [rev cur] end
  | c :: r =>
      if is_space c then
        match cur with
        | [] => py_split_go r []
        | _ => rev cur :: py_split_go r []
        end
      else py_split_go r (c :: cur)
  end.

Definition py_split (s : pystr) : list pystr := py_split_go s [].

(** [d[k] = v] on a Python dict (an association list in insertion
    order): an existing key keeps its place and takes the new value. *)
Fixpoint dict_set {A} (d : list (pystr * A)) (k : pystr) (v : A) : list (pystr * A) :=
  match d with
  | [] => [(k, v)]
  | (k', v') :: r => if pystr_eqb k k' then (k', v) :: r else (k', v') :: dict_set r k v
  end.

(** [s.startswith(p)] *)
Fixpoint py_startswith (p s : pystr) : bool :=
  match p, s with
  | [], _ => true
  | a :: p', b :: s' => (a =? b)%N && py_startswith p' s'
  | _ :: _, [] => false
  end.

(** ** Python values produced by [json.loads] *)

Inductive pyval : Type :=
  | PNone
  | PBool (b : bool)
  | PNum (q : Q)
  | PStr (s : pystr)
  | PList (l : list pyval)
  | PDict (d : list (pystr * pyval)).

Module Py.

(** [d.get(k)] on a dict: the value of the key, [None] when absent. *)
Fixpoint dict_get (d : list (pystr * pyval)) (k : pystr) : option pyval :=
  match d with
  | [] => None
  | (k', v) :: r => if pystr_eqb k k' then Some v else dict_get r k
  end.

(** [x.get(k, default)]: raises [AttributeError] unless [x] is a dict. *)
Definition get (x : pyval) (k : pystr) (default : pyval) : option pyval :=
  match x with
  | PDict d => Some (match dict_get d k with Some v => v | None => default end)
  | _ => None
  end.

(** [bool(x)] *)
Definition truthy (x : pyval) : bool :=
  match x with
  | PNone => false
  | PBool b => b
  | PNum q => negb (Qeq_bool q 0)
  | PStr s => negb (pystr_eqb s [])
  | PList l => match l with [] => false | _ => true end
  | PDict d => match d with [] => false | _ => true end
  end.

(** [x == "s"] *)
Definition is_str (x : pyval) (s : pystr) : bool :=
  match x with PStr t => pystr_eqb t s | _ => false end.

(** [x == 0]: [0], [0.0] and [False] compare equal to [0]. *)
Definition eq_zero (x : pyval) : bool :=
  match x with
  | PNum q => Qeq_bool q 0
  | PBool b => negb b
  | _ => false
  end.

(** The numeric value of an [int], [float] or [bool] operand; any other
    operand makes the arithmetic or the comparison raise [TypeError]. *)
Definition num (x : pyval) : option Q :=
  match x with
  | PNum q => Some q
  | PBool b => Some (if b then 1%Q else 0%Q)
  | _ => None
  end.

(** [for x in v]: lists yield their items, dicts their keys, strings
    their characters; numbers, booleans and [None] raise [TypeError]. *)
Definition iter (v : pyval) : option (list pyval) :=
  match v with
  | PList l => Some l
  | PDict d => Some (map (fun kv => PStr (fst kv)) d)
  | PStr s => Some (map (fun c => PStr [c]) s)
  | _ => None
  end.

Fixpoint is_infix (p s : pystr) : bool :=
  match s with
  | [] => py_startswith p []
  | _ :: r => py_startswith p s || is_infix p r
  end.

(** [k in v] for a string [k]. *)
Definition contains (v : pyval) (k : pystr) : option bool :=
  match v with
  | PDict d => Some (match dict_get d k with Some _ => true | None => false end)
  | PList l => Some (existsb (fun x => is_str x k) l)
  | PStr s => Some (is_infix k s)
  | _ => None
  end.

(** [len(v)] *)
Definition len (v : pyval) : option nat :=
  match v with
  | PStr s => Some (length s)
  | PList l => Some (length l)
  | PDict d => Some (length d)
  | _ => None
  end.

(** [v.replace] of the double quote (code point 34) by the single quote
    (code point 39): only strings have [replace]. *)
Definition replace_dq (v : pyval) : option pyval :=
  match v with
  | PStr s => Some (PStr (py_replace_char 34 [39%N] s))
  | _ => None
  end.

End Py.

(** ** Outbound length cap ([send_whatsapp_message])

    The same lines are in [src/whatsapp/utils.py] and in
    [src/platform/whatsapp/utils.py]. *)

Module Outbound.

Definition MAX_WHATSAPP_LENGTH : nat := 4096.

(** The [text.body] of the payload that is posted. *)
Definition send_whatsapp_message_body (message : pystr) : pystr :=
  if MAX_WHATSAPP_LENGTH <? length message
  then firstn (MAX_WHATSAPP_LENGTH - 3) message ++ lit "..."
  else message.

End Outbound.

(** ** The reply-routing table [message_id_to_bot_message] *)

Module Routing.

Abbreviation table := (gmap pystr pystr).

(** [message_id_to_bot_message[bot_message_id] = response] *)
Definition record (t : table) (bot_message_id response : pystr) : table :=
  <[bot_message_id := response]> t.

(** The step after a send:
    [if sent_message and "messages" in sent_message:
       bot_message_id = sent_message["messages"][0]["id"]; ...] *)
Definition record_sent (t : table) (sent_message : pyval) (response : pystr)
    : option table :=
  if negb (Py.truthy sent_message) then Some t else
  match Py.contains sent_message (lit "messages") with
  | None => None
  | Some false => Some t
  | Some true =>
      match sent_message with
      | PDict d =>
          match Py.dict_get d (lit "messages") with
          | Some (PList (PDict m0 :: _)) =>
              match Py.dict_get m0 (lit "id") with
              | Some (PStr bot_message_id) => Some (record t bot_message_id response)
              (* the platform ids are strings; any other shape is left out
                 of the model as a failed send *)
              | _ => None
              end
          | _ => None
          end
      | _ => None
      end
  end.

(** Reply path: [if replied_to_id in message_id_to_bot_message:
    message_id_to_bot_message[replied_to_id]]; the id read from the
    payload may be [None]. *)
Definition resolve (t : table) (replied_to_id : option pystr) : option pystr :=
  match replied_to_id with
  | Some id => t !! id
  | None => None
  end.

(** Reaction path: [message_id_to_bot_message.get(id_reacted_to, <empty str>)]. *)
Definition resolve_get (t : table) (id_reacted_to : option pystr) : pystr :=
  match resolve t id_reacted_to with
  | Some text => text
  | None => []
  end.

(** The table after a sequence of records, from the empty table. *)
Definition replay (ops : list (pystr * pystr)) : table :=
  fold_left (fun t op => record t (fst op) (snd op)) ops ∅.

End Routing.

(** ** The conversation context store [message_context] *)

Module Context.

Abbreviation store := (gmap pystr (list pystr)).

(** [if phone_number not in message_context: message_context[phone_number] = []] *)
Definition ensure_user (st : store) (u : pystr) : store :=
  match st !! u with
  | Some _ => st
  | None => <[u := []]> st
  end.

(** [message_context[u].append(line)]: [KeyError] for an unknown key. *)
Definition append_line (st : store) (u line : pystr) : option store :=
  match st !! u with
  | Some l => Some (<[u := l ++ [line]]> st)
  | None => None
  end.

(** Any handler that adds a line for [u] creates its list first. *)
Definition add_line (st : store) (u line : pystr) : store :=
  match append_line (ensure_user st u) u line with
  | Some st' => st'
  | None => st
  end.

Definition user_line (message_text : pystr) : pystr :=
  lit "User: " ++ message_text ++ lit (String (Ascii.ascii_of_nat 10) EmptyString).

(** The text branch of [receive_message] (WhatsApp, lines 81-82 and
    139-142) and of [telegram_webhook] (lines 123-129): append the user
    line, then [context = "\n".join(message_context[u][:-1])]. *)
Definition receive_text (st : store) (u message_text : pystr)
    : option (store * pystr) :=
  match append_line (ensure_user st u) u (user_line message_text) with
  | None => None
  | Some st2 =>
      match st2 !! u with
      | Some l => Some (st2, py_join [10%N] (drop_last l))
      | None => None
      end
  end.

(** The store after a sequence of appended lines, from the empty store. *)
Definition replay (ops : list (pystr * pystr)) : store :=
  fold_left (fun st op => add_line st (fst op) (snd op)) ops ∅.

(** The lines of [u] among the operations, in order. *)
Definition lines_of (u : pystr) (ops : list (pystr * pystr)) : list pystr :=
  map snd (List.filter (fun op => bool_decide (fst op = u)) ops).

End Context.

(** ** The message normaliser

    [receive_message] (WhatsApp, lines 87-107) and [telegram_webhook]
    (Telegram, lines 103-121) run the same code on the raw text. *)

Module Normalize.

(** The [replacements] dict, in its insertion order. *)
Definition replacements : list (N * pystr) :=
  [ (160%N, [32%N])          (* non-breaking space *)
  ; (8216%N, [39%N])         (* left single quote *)
  ; (8217%N, [39%N])         (* right single quote *)
  ; (8220%N, [34%N])         (* left double quote *)
  ; (8221%N, [34%N])         (* right double quote *)
  ; (8211%N, [45%N])         (* en dash *)
  ; (8212%N, [45%N; 45%N])   (* em dash *)
  ; (8230%N, [46%N; 46%N; 46%N]) (* ellipsis *) ].

(** [for char, replacement in replacements.items():
       message_text = message_text.replace(char, replacement)] *)
Definition apply_replacements (message_text : pystr) : pystr :=
  fold_left (fun acc cr => py_replace_char (fst cr) (snd cr) acc)
    replacements message_text.

Section WithNFKD.

(** [unicodedata.normalize("NFKD", _)], the Unicode library function. *)
Variable nfkd : pystr -> pystr.

(** [unicodedata.normalize("NFKD", raw_text).replace(dq, sq).strip()]
    followed by the replacement loop. *)
Definition normalize (raw_text : pystr) : pystr :=
  apply_replacements (py_strip (py_replace_char 34 [39%N] (nfkd raw_text))).

End WithNFKD.

(** The table applied to one character. *)
Definition table_char (c : N) : pystr := apply_replacements [c].

End Normalize.

(** ** [clean_facts] ([src/core/utils/cleaner.py])

    Lines 52-64 are the same in [src/fact_checker/utils.py]. *)

Module Cleaner.

(** One entry of [supporting_evidence] or [refuting_evidence]. *)
Record evidence_entry := {
  labelDescription : pyval;
  domain_name : pyval;
  domainReliability : pyval;
  url : pyval;
  evidenceSnippet : pyval
}.

(** One element of [cleaned_results]. [CStrict] is the dict whose only
    key [strict_formatting] holds the f-string; the constructor keeps the
    values interpolated into it. [CFull] is the dict with seven keys. *)
Inductive cleaned :=
  | CStrict (claim : pyval) (verdict : pystr) (confidence : Q)
      (supporting refuting : list evidence_entry)
  | CFull (claim : pyval) (verdict : pystr) (confidence : Q)
      (summary fix_ : pyval) (supporting refuting : list evidence_entry).

Definition entry_verdict (c : cleaned) : pystr :=
  match c with CStrict _ v _ _ _ | CFull _ v _ _ _ _ _ => v end.

Definition entry_confidence (c : cleaned) : Q :=
  match c with CStrict _ _ q _ _ | CFull _ _ q _ _ _ _ => q end.

Section WithBuiltins.

(** [round(x, 2)] on the number [x]. *)
Variable round2 : Q -> Q.
(** [str(s)] of a JSON value (never raises). *)
Variable py_str : pyval -> pystr.

(** Lines 52-58: [final_verdict] from [item.get("finalPrediction")]. *)
Definition final_verdict (finalPrediction : pyval) : pystr :=
  match finalPrediction with
  | PNone => lit "Uncertain"
  | v => if Py.eq_zero v then lit "Incorrect" else lit "Correct"
  end.

(** Lines 60-64, with [finalScore = item.get("finalScore")]:
    [(finalScore or 0)] then the arithmetic and [round]. *)
Definition confidence (final_verdict : pystr) (finalScore : pyval) : option Q :=
  let s := if Py.truthy finalScore then finalScore else PNum 0 in
  x ← Py.num s;
  if pystr_eqb final_verdict (lit "Incorrect")
  then Some (round2 ((1 - x) * 100))
  else Some (round2 (x * 100)).

(** Lines 39-46: the [summary] field. *)
Definition clean_summary (summary : pyval) : option pyval :=
  match summary with
  | PNone => Some PNone
  | PList l =>
      let joined :=
        py_join [32%N] (map py_str (List.filter (fun s => match s with PNone => false | _ => true end) l)) in
      match joined with
      | [] => Some (PStr [])
      | _ => Py.replace_dq (PStr joined)
      end
  | PStr _ => Py.replace_dq summary
  | _ => Some summary
  end.

(** [x if x is None else x.replace(dq, sq)] *)
Definition replace_unless_none (x : pyval) : option pyval :=
  match x with PNone => Some PNone | _ => Py.replace_dq x end.

(** Lines 69-106, one [evidence]: [Some None] is [continue]. *)
Definition clean_evidence (evidence : pyval) : option (option evidence_entry) :=
  match evidence with
  | PNone => Some None
  | _ =>
    label ← Py.get evidence (lit "labelDescription") (PStr []);
    if negb (Py.is_str label (lit "SUPPORTS") || Py.is_str label (lit "REFUTES"))
    then Some None else
    sim_score ← Py.get evidence (lit "simScore") (PNum 0);
    s ← Py.num sim_score;
    evidence_snippet ←
      (if negb (Qle_bool s (1 # 2)) then
         snippet ← Py.get evidence (lit "evidenceSnippet") (PStr []);
         match snippet with
         | PNone => Some (PStr [])
         | _ =>
           n ← Py.len snippet;
           if 1000 <? n then
             match snippet with
             | PStr t => Some (PStr (firstn 1000 t ++ lit "..."))
             | _ => None
             end
           else Some snippet
         end
       else Some (PStr []));
    dro ← Py.get evidence (lit "domain_reliability") (PDict []);
    let domain_reliability_obj := if Py.truthy dro then dro else PDict [] in
    reliability ← Py.get domain_reliability_obj (lit "Reliability") (PStr (lit "Unknown"));
    domain ← Py.get evidence (lit "domainName") (PStr []);
    u ← Py.get evidence (lit "url") (PStr []);
    Some (Some {| labelDescription := label; domain_name := domain;
                  domainReliability := reliability; url := u;
                  evidenceSnippet := evidence_snippet |})
  end.

Fixpoint clean_evidence_list (l : list pyval) (supporting refuting : list evidence_entry)
    : option (list evidence_entry * list evidence_entry) :=
  match l with
  | [] => Some (supporting, refuting)
  | ev :: r =>
      o ← clean_evidence ev;
      match o with
      | None => clean_evidence_list r supporting refuting
      | Some e =>
          if Py.is_str (labelDescription e) (lit "SUPPORTS")
          then clean_evidence_list r (supporting ++ [e]) refuting
          else clean_evidence_list r supporting (refuting ++ [e])
      end
  end.

(** Lines 28-143, one [item]: [Some None] is [continue]. *)
Definition clean_item (item : pyval) : option (option cleaned) :=
  match item with
  | PNone => Some None
  | _ =>
    evidence_list ← Py.get item (lit "evidence") (PList []);
    if negb (Py.truthy evidence_list) then Some None else
    claim0 ← Py.get item (lit "claim") (PStr []);
    claim_text ← replace_unless_none claim0;
    summary0 ← Py.get item (lit "summary") (PStr []);
    summary ← clean_summary summary0;
    fix0 ← Py.get item (lit "fix") (PStr []);
    fix_ ← replace_unless_none fix0;
    fp ← Py.get item (lit "finalPrediction") PNone;
    let v := final_verdict fp in
    fs ← Py.get item (lit "finalScore") PNone;
    conf ← confidence v fs;
    evs ← Py.iter evidence_list;
    sr ← clean_evidence_list evs [] [];
    if negb (Py.truthy summary) && negb (Py.truthy fix_)
    then Some (Some (CStrict claim_text v conf (fst sr) (snd sr)))
    else Some (Some (CFull claim_text v conf summary fix_ (fst sr) (snd sr)))
  end.

Fixpoint clean_items (l : list pyval) (acc : list cleaned) : option (list cleaned) :=
  match l with
  | [] => Some acc
  | item :: r =>
      o ← clean_item item;
      clean_items r (match o with Some c => acc ++ [c] | None => acc end)
  end.

(** Lines 16-25: [items_to_process]; a [None] text field returns the
    empty [cleaned_results] at once, that is, no item is processed. *)
Definition items_to_process (json_data : pyval) : option (list pyval) :=
  has_collection ← Py.contains json_data (lit "collection");
  is_stance ←
    match has_collection with
    | true =>
        c ← Py.get json_data (lit "collection") PNone;
        Some (Py.is_str c (lit "stance_detection"))
    | false => Some false
    end;
  match is_stance with
  | true => Some [json_data]
  | false =>
      items ← Py.get json_data (lit "text") (PList []);
      match items with
      | PNone => Some []
      | _ => Py.iter items
      end
  end.

(** The body of the [try] block; [None] is an exception. *)
Definition clean_facts_body (json_data : pyval) : option (list cleaned) :=
  items ← items_to_process json_data;
  clean_items items [].

Definition clean_facts (json_data : pyval) : list cleaned :=
  match json_data with
  | PNone => []
  | _ =>
      match clean_facts_body json_data with
      | Some cleaned_results => cleaned_results
      | None => []   (* except Exception: return [] *)
      end
  end.

End WithBuiltins.

End Cleaner.

(** ** [json.loads]

    A parser for the JSON text grammar, on code points. It returns
    [None] where [json.loads] raises [JSONDecodeError]. Python's
    extensions [NaN], [Infinity] and [-Infinity] are not accepted, and
    a [\u] escape is kept as one code point. *)

Module Json.

Definition is_json_ws (c : N) : bool :=
  (c =? 32)%N || (c =? 9)%N || (c =? 10)%N || (c =? 13)%N.

Fixpoint skip_ws (s : pystr) : pystr :=
  match s with
  | c :: r => if is_json_ws c then skip_ws r else s
  | [] => []
  end.

Fixpoint strip_prefix (p s : pystr) : option pystr :=
  match p, s with
  | [], _ => Some s
  | a :: p', b :: s' => if (a =? b)%N then strip_prefix p' s' else None
  | _ :: _, [] => None
  end.

Definition is_digit (c : N) : bool := (48 <=? c)%N && (c <=? 57)%N.

(** The leading decimal digits, as a value and a count. *)
Fixpoint digits (s : pystr) (acc : Z) (k : nat) : Z * nat * pystr :=
  match s with
  | c :: r => if is_digit c then digits r (acc * 10 + Z.of_N (c - 48))%Z (S k) else (acc, k, s)
  | [] => (acc, k, s)
  end.

Definition hex_val (c : N) : option N :=
  if is_digit c then Some (c - 48)%N
  else if (97 <=? c)%N && (c <=? 102)%N then Some (c - 87)%N
  else if (65 <=? c)%N && (c <=? 70)%N then Some (c - 55)%N
  else None.

(** The body of a string literal after its opening quote. *)
Fixpoint parse_string (s : pystr) (acc : pystr) : option (pystr * pystr) :=
  match s with
  | [] => None
  | 34%N :: r => Some (rev acc, r)
  | 92%N :: e :: r =>
      match e with
      | 34%N | 92%N | 47%N => parse_string r (e :: acc)
      | 98%N => parse_string r (8%N :: acc)
      | 102%N => parse_string r (12%N :: acc)
      | 110%N => parse_string r (10%N :: acc)
      | 114%N => parse_string r (13%N :: acc)
      | 116%N => parse_string r (9%N :: acc)
      | 117%N =>
          match r with
          | a :: b :: c :: d :: r' =>
              match hex_val a, hex_val b, hex_val c, hex_val d with
              | Some a, Some b, Some c, Some d =>
                  parse_string r' ((((a * 16 + b) * 16 + c) * 16 + d)%N :: acc)
              | _, _, _, _ => None
              end
          | _ => None
          end
      | _ => None
      end
  | c :: r => if (c <? 32)%N then None else parse_string r (c :: acc)
  end.

Definition pow10 (n : nat) : Z := (10 ^ Z.of_nat n)%Z.

(** A JSON number: optional minus, integer part without leading zeros,
    optional fraction, optional exponent. *)
Definition parse_number (s : pystr) : option (pyval * pystr) :=
  let '(neg, s1) := match s with 45%N :: r => (true, r) | _ => (false, s) end in
  match s1 with
  | c :: _ =>
      if negb (is_digit c) then None else
      let '(ip, ki, s2) := if (c =? 48)%N then (0%Z, 1%nat, tl s1) else digits s1 0%Z 0%nat in
      let frac :=
        match s2 with
        | 46%N :: r => let '(fp, kf, s3) := digits r 0%Z 0%nat in
                       if (kf =? 0)%nat then None else Some (fp, kf, s3)
        | _ => Some (0%Z, 0%nat, s2)
        end in
      match frac with
      | None => None
      | Some (fp, kf, s3) =>
          let ex :=
            match s3 with
            | e :: r =>
                if (e =? 101)%N || (e =? 69)%N then
                  let '(eneg, r1) :=
                    match r with
                    | 45%N :: r' => (true, r') | 43%N :: r' => (false, r') | _ => (false, r)
                    end in
                  let '(ev, ke, s4) := digits r1 0%Z 0%nat in
                  if (ke =? 0)%nat then None else Some ((if eneg then - ev else ev)%Z, s4)
                else Some (0%Z, s3)
            | [] => Some (0%Z, s3)
            end in
          match ex with
          | None => None
          | Some (e, s4) =>
              let m := (ip * pow10 kf + fp)%Z in
              let m := if neg then (- m)%Z else m in
              let sc := (e - Z.of_nat kf)%Z in
              let q := if (0 <=? sc)%Z then inject_Z (m * 10 ^ sc)
                       else (m # Z.to_pos (10 ^ (- sc)))%Q in
              Some (PNum q, s4)
          end
      end
  | [] => None
  end.

Fixpoint parse_value (n : nat) (s : pystr) : option (pyval * pystr) :=
  match n with
  | O => None
  | S n' =>
    match skip_ws s with
    | 110%N :: r => r' ← strip_prefix (lit "ull") r; Some (PNone, r')
    | 116%N :: r => r' ← strip_prefix (lit "rue") r; Some (PBool true, r')
    | 102%N :: r => r' ← strip_prefix (lit "alse") r; Some (PBool false, r')
    | 34%N :: r => sr ← parse_string r []; Some (PStr (fst sr), snd sr)
    | 91%N :: r =>
        match skip_ws r with
        | 93%N :: r' => Some (PList [], r')
        | r' => parse_array n' r' []
        end
    | 123%N :: r =>
        match skip_ws r with
        | 125%N :: r' => Some (PDict [], r')
        | r' => parse_object n' r' []
        end
    | s' => parse_number s'
    end
  end
with parse_array (n : nat) (s : pystr) (acc : list pyval) : option (pyval * pystr) :=
  match n with
  | O => None
  | S n' =>
    vr ← parse_value n' s;
    match skip_ws (snd vr) with
    | 44%N :: r => parse_array n' r (acc ++ [fst vr])
    | 93%N :: r => Some (PList (acc ++ [fst vr]), r)
    | _ => None
    end
  end
with parse_object (n : nat) (s : pystr) (acc : list (pystr * pyval)) : option (pyval * pystr) :=
  match n with
  | O => None
  | S n' =>
    match skip_ws s with
    | 34%N :: r =>
        kr ← parse_string r [];
        match skip_ws (snd kr) with
        | 58%N :: r1 =>
            vr ← parse_value n' r1;
            let acc' := dict_set acc (fst kr) (fst vr) in
            match skip_ws (snd vr) with
            | 44%N :: r2 => parse_object n' r2 acc'
            | 125%N :: r2 => Some (PDict acc', r2)
            | _ => None
            end
        | _ => None
        end
    | _ => None
    end
  end.

Definition json_loads (s : pystr) : option pyval :=
  vr ← parse_value (2 * length s + 2) s;
  match skip_ws (snd vr) with
  | [] => Some (fst vr)
  | _ => None
  end.

End Json.

(** The apology text: U+26A0 U+FE0F followed by the ASCII sentence. *)
Definition temp_issue : pystr :=
  [9888%N; 65039%N] ++ lit " Temporary service issue. Please try again!".

(** ** [detect_intent]

    Two revisions: [src/intent/utils.py] and [src/core/utils/intent.py]. *)

Module Intent.

Section WithServices.

(** [get_prompt(key, message_text=..., context=...)]: the template of
    [prompts.json] formatted with the fields. *)
Variable get_prompt : pystr -> pystr -> pystr -> pystr.
(** [await generate(prompt, text)]; [None] when the call raises. *)
Variable generate : pystr -> pystr -> option pystr.
(** [json.loads]; [None] when it raises [JSONDecodeError]. *)
Variable json_loads : pystr -> option pyval.

Definition intent_fallback_fact_check : pyval :=
  PDict [ (lit "intent_type", PStr (lit "fact_check"))
        ; (lit "confidence", PNum (7 # 10))
        ; (lit "sentiment", PStr (lit "neutral"))
        ; (lit "context_reference", PBool false)
        ; (lit "url_present", PBool false) ].

Definition intent_fallback_general : pyval :=
  PDict [ (lit "intent_type", PStr (lit "general")) ].

(** [src/intent/utils.py], lines 19-44. *)
Definition detect_intent (message_text context : pystr) : option pyval :=
  intent_response ← generate (get_prompt (lit "intent_detection") message_text context) message_text;
  match json_loads intent_response with
  | Some intent_data => Some intent_data
  | None => Some intent_fallback_fact_check
  end.

(** [src/core/utils/intent.py], lines 14-35. *)
Definition detect_intent_core (message_text context : pystr) : option pyval :=
  intent_response ← generate (get_prompt (lit "intent_detection") message_text context) message_text;
  match json_loads intent_response with
  | Some intent_data => Some intent_data
  | None => Some intent_fallback_general
  end.

End WithServices.

End Intent.

(** ** The dispatcher of [src/core/handlers/handlers.py] *)

Module Dispatch.

(** [re.findall(r"https?://\S+", message_text)] *)
Fixpoint span_nonspace (s : pystr) : pystr * pystr :=
  match s with
  | c :: r =>
      if is_space c then ([], s)
      else let '(w, rest) := span_nonspace r in (c :: w, rest)
  | [] => ([], [])
  end.

Definition match_url_at (s : pystr) : option (pystr * pystr) :=
  let tail (sch r1 : pystr) :=
    let '(w, rest) := span_nonspace r1 in
    match w with
    | [] => None
    | _ => Some (lit "http" ++ sch ++ lit "://" ++ w, rest)
    end in
  match Json.strip_prefix (lit "http") s with
  | None => None
  | Some r =>
      match Json.strip_prefix (lit "s://") r with
      | Some r1 => tail (lit "s") r1
      | None =>
          match Json.strip_prefix (lit "://") r with
          | Some r1 => tail [] r1
          | None => None
          end
      end
  end.

Fixpoint findall_go (fuel : nat) (s : pystr) : list pystr :=
  match fuel with
  | O => []
  | S f =>
      match s with
      | [] => []
      | _ :: r =>
          match match_url_at s with
          | Some (m, rest) => m :: findall_go f rest
          | None => findall_go f r
          end
      end
  end.

Definition findall_urls (message_text : pystr) : list pystr :=
  findall_go (length message_text) message_text.

(** [line.split("\n")] *)
Fixpoint split_lines_go (s cur : pystr) : list pystr :=
  match s with
  | [] => [rev cur]
  | c :: r => if (c =? 10)%N then rev cur :: split_lines_go r [] else split_lines_go r (c :: cur)
  end.

Definition split_lines (s : pystr) : list pystr := split_lines_go s [].

(** The code points matched by [\d] in a [str] pattern: the decimal
    digits (category [Nd]) of the Unicode database of Python 3.11
    (Unicode 14.0), as runs [(first, count)]. *)
Definition decimal_runs : list (N * N) :=
  [ (48, 10); (1632, 10); (1776, 10); (1984, 10); (2406, 10); (2534, 10); (2662, 10);
    (2790, 10); (2918, 10); (3046, 10); (3174, 10); (3302, 10); (3430, 10); (3558, 10);
    (3664, 10); (3792, 10); (3872, 10); (4160, 10); (4240, 10); (6112, 10); (6160, 10);
    (6470, 10); (6608, 10); (6784, 10); (6800, 10); (6992, 10); (7088, 10); (7232, 10);
    (7248, 10); (42528, 10); (43216, 10); (43264, 10); (43472, 10); (43504, 10); (43600, 10);
    (44016, 10); (65296, 10); (66720, 10); (68912, 10); (69734, 10); (69872, 10); (69942, 10);
    (70096, 10); (70384, 10); (70736, 10); (70864, 10); (71248, 10); (71360, 10); (71472, 10);
    (71904, 10); (72016, 10); (72784, 10); (73040, 10); (73120, 10); (92768, 10); (92864, 10);
    (93008, 10); (120782, 50); (123200, 10); (123632, 10); (125264, 10); (130032, 10) ]%N.

Definition is_decimal_digit (c : N) : bool :=
  existsb (fun run => ((fst run <=? c) && (c <? fst run + snd run))%N) decimal_runs.

(** [\d+], greedy: the number of digits read and the rest. *)
Fixpoint decimal_prefix (s : pystr) : nat * pystr :=
  match s with
  | [] => (0%nat, [])
  | c :: r =>
      if is_decimal_digit c then let '(k, r') := decimal_prefix r in (S k, r') else (0%nat, s)
  end.

(** [re.search] of the pattern: the text [Claim ], one or more digits
    ([\d+]; no backtracking into the digits can help, [:] is not one),
    [: ], then the rest of the line as group 1, on a line without a
    line break. *)
Definition claim_match_at (s : pystr) : option pystr :=
  r ← Json.strip_prefix (lit "Claim ") s;
  let '(k, r') := decimal_prefix r in
  if (k =? 0)%nat then None else Json.strip_prefix (lit ": ") r'.

Fixpoint claim_search (s : pystr) : option pystr :=
  match claim_match_at s with
  | Some g => Some g
  | None => match s with [] => None | _ :: r => claim_search r end
  end.

(** The [claims] list of [handle_claim_suggestions], lines 222-227. *)
Definition extract_claims (response : pystr) : list pystr :=
  flat_map (fun line =>
      if py_startswith (lit "Claim ") line then
        match claim_search line with
        | Some g => [py_strip g]
        | None => []
        end
      else []) (split_lines response).

(** [string.ascii_letters + string.digits] *)
Definition id_alphabet : pystr :=
  lit "abcdefghijklmnopqrstuvwxyzABCDEFGHIJKLMNOPQRSTUVWXYZ0123456789".

(** Decimal digits of a natural number, for [f"Claim {idx}"]. *)
Fixpoint dec_go (fuel n : nat) (acc : pystr) : pystr :=
  match fuel with
  | O => acc
  | S f =>
      let acc' := N.of_nat (48 + n mod 10) :: acc in
      if (n <? 10)%nat then acc' else dec_go f (n / 10) acc'
  end.

Definition dec (n : nat) : pystr := dec_go (S n) n [].

Record button := { btn_id : pystr; btn_title : pystr }.

Inductive outcome :=
  | OSuggest (buttons : list button) (btn_id_to_claim : list (pystr * pystr)) (response : pystr)
  | OText (response : pystr).

Section WithServices.

Variable get_prompt : pystr -> pystr -> pystr -> pystr.
Variable generate : pystr -> pystr -> option pystr.
Variable json_loads : pystr -> option pyval.
(** [await fact_check(url)] *)
Variable fact_check : pystr -> option pyval.
(** [await stance_detection(claim)] *)
Variable stance_detection : pyval -> option pyval.
(** [await detect_claims(text)] *)
Variable detect_claims : pystr -> option (list pystr).
(** [random.choices(alphabet, k=5)] in the suggestion of index [idx]:
    the alphabet position drawn for character [p]. *)
Variable rand_index : nat -> nat -> nat.
Variable round2 : Q -> Q.
Variable py_str : pyval -> pystr.
(** [repr] of one cleaned dict: the text between its braces. *)
Variable dict_body : Cleaner.cleaned -> pystr.

Definition clean_facts := Cleaner.clean_facts round2 py_str.

(** [f"{evidence}"] for the list [evidence = clean_facts(...)]. *)
Definition evidence_repr (l : list Cleaner.cleaned) : pystr :=
  lit "[" ++ py_join (lit ", ") (map (fun e => lit "{" ++ dict_body e ++ lit "}") l) ++ lit "]".

Definition newline : pystr := [10%N].

(** [button_id = "".join(random.choices(..., k=5))] *)
Definition random_id (idx : nat) : pystr :=
  map (fun p => nth (rand_index idx p mod 62) id_alphabet 0%N) (seq 0 5).

(** Lines 229-238: [for idx, suggestion in enumerate(claims, 1)]. *)
Fixpoint suggestion_buttons (idx : nat) (claims : list pystr)
    (buttons : list button) (btn_id_to_claim : list (pystr * pystr))
    : list button * list (pystr * pystr) :=
  match claims with
  | [] => (buttons, btn_id_to_claim)
  | suggestion :: r =>
      let button_id := random_id idx in
      suggestion_buttons (S idx) r
        (buttons ++ [{| btn_id := button_id; btn_title := lit "Claim " ++ dec idx |}])
        (dict_set btn_id_to_claim button_id suggestion)
  end.

(** [handle_claim_suggestions], lines 200-243. *)
Definition handle_claim_suggestions (message_text context : pystr)
    : list button * list (pystr * pystr) * pystr :=
  match generate (get_prompt (lit "claim_suggestion") message_text context) message_text with
  | None => ([], [], temp_issue)
  | Some response =>
      let '(buttons, btn_id_to_claim) := suggestion_buttons 1 (extract_claims response) [] [] in
      (buttons, btn_id_to_claim, response)
  end.

(** Lines 262-267: one [fact_check] call per URL, not guarded. *)
Fixpoint url_evidence (urls : list pystr) (final_evidence_text : pystr) : option pystr :=
  match urls with
  | [] => Some final_evidence_text
  | u :: r =>
      fact_results ← fact_check u;
      url_evidence r (final_evidence_text ++ evidence_repr (clean_facts fact_results) ++ newline)
  end.

(** Lines 279-288: the results of [asyncio.gather(..., return_exceptions=True)],
    in the order of the claims; [None] is a returned exception. *)
Fixpoint gathered_evidence (fact_results_list : list (option pyval)) (final_evidence_text : pystr)
    : pystr :=
  match fact_results_list with
  | [] => final_evidence_text
  | None :: r => gathered_evidence r final_evidence_text
  | Some result :: r =>
      gathered_evidence r (final_evidence_text ++ evidence_repr (clean_facts result) ++ newline)
  end.

(** [handle_fact_check_intent], lines 246-300. *)
Definition handle_fact_check_intent (message_text context : pystr) (claims : pyval)
    (urls : list pystr) : option (pystr * pystr) :=
  t1 ← url_evidence urls [];
  t2 ←
    match Py.truthy claims with
    | true =>
        claim_list ← Py.iter claims;
        Some (gathered_evidence (map stance_detection claim_list) t1)
    | false => Some t1
    end;
  Some (get_prompt (lit "fact_check") message_text context, t2).

(** [handle_general_intent], lines 303-310. *)
Definition handle_general_intent (message_text context : pystr) : option pystr :=
  generate (get_prompt (lit "general") message_text context) message_text.

(** The [try] block shared by the three fact-check branches of
    [handle_message_with_intent] (lines 50-65, 72-90 and 99-129):
    empty evidence goes to the suggestions, any exception to the apology. *)
Definition fact_check_branch (message_text context : pystr) (claims : pyval)
    (urls : list pystr) : outcome :=
  match handle_fact_check_intent message_text context claims urls with
  | None => OText temp_issue
  | Some (prompt, evidence_data) =>
      if pystr_eqb (py_strip evidence_data) (lit "[]") then
        let '(b, m, r) := handle_claim_suggestions message_text context in OSuggest b m r
      else
        match generate prompt evidence_data with
        | Some response => OText response
        | None => OText temp_issue
        end
  end.

(** [handle_message_with_intent], lines 32-146; [None] when it raises. *)
Definition handle_message_with_intent (message_text context : pystr) : option outcome :=
  match findall_urls message_text with
  | (_ :: _) as urls => Some (fact_check_branch message_text context (PList []) urls)
  | [] =>
    if 100 <=? length (py_split message_text) then
      claims ← detect_claims message_text;
      match claims with
      | [] => response ← handle_general_intent message_text context; Some (OText response)
      | _ => Some (fact_check_branch message_text context (PList (map PStr claims)) [])
      end
    else
      intent_data ← Intent.detect_intent_core get_prompt generate json_loads message_text context;
      intent_type ← Py.get intent_data (lit "intent_type") PNone;
      split_claims ← Py.get intent_data (lit "split_claims") PNone;
      if Py.is_str intent_type (lit "fact_check") then
        let claims := if Py.truthy split_claims then split_claims else PList [PStr message_text] in
        Some (fact_check_branch message_text context claims [])
      else if Py.is_str intent_type (lit "general") then
        Some (match handle_general_intent message_text context with
              | Some response => OText response
              | None => OText temp_issue
              end)
      else
        let '(b, m, r) := handle_claim_suggestions message_text context in
        Some (OSuggest b m r)
  end.

(** [src/intent/utils.py], lines 54-66: the per-claim loop of the older
    [handle_fact_check_intent]; [dumps_clean] is
    [json.dumps(clean_facts(fact_results), ensure_ascii=False)] with the
    cleaner of [src/fact_checker/utils.py], [None] when it raises. *)
Fixpoint evidence_loop_v1 (dumps_clean : pyval -> option pystr) (claims : list pystr)
    (final_evidence_text : pystr) : pystr :=
  match claims with
  | [] => final_evidence_text
  | claim :: r =>
      match fact_results ← stance_detection (PStr claim); dumps_clean fact_results with
      | Some evidence_text =>
          evidence_loop_v1 dumps_clean r (final_evidence_text ++ evidence_text ++ newline)
      | None => evidence_loop_v1 dumps_clean r final_evidence_text
      end
  end.

End WithServices.

End Dispatch.

(** ** [process_message_response] and [process_tracked_message]
    ([src/core/processors/processors.py]) *)

Module Processors.

(** A message posted to a platform API: interactive buttons
    [(id, title)], a message with the rating prompt, or plain text. *)
Inductive sent :=
  | SButtons (platform body : pystr) (buttons : list (pystr * pystr))
  | SRating (platform body : pystr)
  | SText (platform body : pystr).

(** The observable effects, in the order the code performs them. *)
Inductive action :=
  | ASetButton (btn_id claim : pystr)
  | ASend (m : sent).

(** The module-level dicts and the log of effects. *)
Record state := {
  button_id_to_claim : gmap pystr pystr;
  message_context : Context.store;
  message_id_to_bot_message : Routing.table;
  trace : list action
}.

(** State and exceptions: [None] is a raised exception; the state keeps
    the mutations done before it. *)
Definition M (A : Type) := state -> state * option A.

Definition ret {A} (a : A) : M A := fun st => (st, Some a).
Definition bind {A B} (m : M A) (k : A -> M B) : M B :=
  fun st => match m st with
            | (st', Some a) => k a st'
            | (st', None) => (st', None)
            end.
Definition throw {A} : M A := fun st => (st, None).
(** [try: m except Exception: h] *)
Definition catch {A} (m : M A) (h : M A) : M A :=
  fun st => match m st with
            | (st', Some a) => (st', Some a)
            | (st', None) => h st'
            end.

Notation "x <-- m ;; k" := (bind m (fun x => k)) (at level 100, m at next level, right associativity).

Definition modify (f : state -> state) : M unit := fun st => (f st, Some tt).

(** [button_id_to_claim[btn_id] = claim] *)
Definition set_button (btn_id claim : pystr) : M unit :=
  modify (fun st => {| button_id_to_claim := <[btn_id := claim]> (button_id_to_claim st);
                       message_context := message_context st;
                       message_id_to_bot_message := message_id_to_bot_message st;
                       trace := trace st ++ [ASetButton btn_id claim] |}).

(** [message_context[user_id].append(line)] *)
Definition append_context (user_id line : pystr) : M unit :=
  fun st =>
    match Context.append_line (message_context st) user_id line with
    | None => (st, None)
    | Some ctx => ({| button_id_to_claim := button_id_to_claim st;
                      message_context := ctx;
                      message_id_to_bot_message := message_id_to_bot_message st;
                      trace := trace st |}, Some tt)
    end.

Definition formatted (buttons : list Dispatch.button) : list (pystr * pystr) :=
  map (fun b => (Dispatch.btn_id b, Dispatch.btn_title b)) buttons.

Section WithServices.

Variable get_prompt : pystr -> pystr -> pystr -> pystr.
Variable generate : pystr -> pystr -> option pystr.
Variable json_loads : pystr -> option pyval.
Variable fact_check : pystr -> option pyval.
Variable stance_detection : pyval -> option pyval.
Variable detect_claims : pystr -> option (list pystr).
Variable rand_index : nat -> nat -> nat.
Variable round2 : Q -> Q.
Variable py_str : pyval -> pystr.
Variable dict_body : Cleaner.cleaned -> pystr.
(** [convert_markdown_to_html] of the Telegram adapter. *)
Variable convert_markdown_to_html : pystr -> pystr.
(** The reply of the platform API to a post: [None] when the post
    raises, otherwise the id of the bot message when the reply has one. *)
Variable platform_reply : sent -> option (option pystr).

(** Post a message: the post is logged, then the reply is read and the
    bot message id recorded in [message_id_to_bot_message]. *)
Definition post (m : sent) (response : pystr) : M unit :=
  fun st =>
    let st1 := {| button_id_to_claim := button_id_to_claim st;
                  message_context := message_context st;
                  message_id_to_bot_message := message_id_to_bot_message st;
                  trace := trace st ++ [ASend m] |} in
    match platform_reply m with
    | None => (st1, None)
    | Some None => (st1, Some tt)
    | Some (Some bot_message_id) =>
        ({| button_id_to_claim := button_id_to_claim st1;
            message_context := message_context st1;
            message_id_to_bot_message :=
              Routing.record (message_id_to_bot_message st1) bot_message_id response;
            trace := trace st1 |}, Some tt)
    end.

(** [process_tracked_message], lines 212-257, with
    [process_whatsapp_message] and [process_telegram_message]: both
    platform adapters post [buttons[:3]]. *)
Definition process_tracked_message (user_id response : pystr) (buttons : list Dispatch.button)
    (platform : pystr) (add_rating : bool) : M unit :=
  _ <-- append_context user_id (lit "Bot: " ++ response ++ Dispatch.newline) ;;
  let body := if pystr_eqb platform (lit "telegram")
              then convert_markdown_to_html response else response in
  if pystr_eqb platform (lit "whatsapp") || pystr_eqb platform (lit "telegram") then
    match buttons with
    | _ :: _ => post (SButtons platform body (formatted (firstn 3 buttons))) response
    | [] => if add_rating then post (SRating platform body) response
            else post (SText platform body) response
    end
  else ret tt.

Fixpoint set_buttons (btn_id_to_claim : list (pystr * pystr)) : M unit :=
  match btn_id_to_claim with
  | [] => ret tt
  | (btn_id, claim) :: r => _ <-- set_button btn_id claim ;; set_buttons r
  end.

Definition error_processing : pystr :=
  lit "Sorry, I encountered an error processing your request.".

Definition error_rephrase : pystr :=
  lit "Sorry, I couldn't process your request. Please try again or rephrase your message.".

(** [process_message_response], lines 38-81. *)
Definition process_message_response (user_id message_text context platform : pystr) : M unit :=
  catch
    (match Dispatch.handle_message_with_intent get_prompt generate json_loads fact_check
             stance_detection detect_claims rand_index round2 py_str dict_body
             message_text context with
     | None => throw
     | Some (Dispatch.OSuggest buttons btn_id_to_claim response) =>
         _ <-- set_buttons btn_id_to_claim ;;
         process_tracked_message user_id response buttons platform true
     | Some (Dispatch.OText result) =>
         match result with
         | _ :: _ => process_tracked_message user_id result [] platform true
         | [] => process_tracked_message user_id error_rephrase [] platform true
         end
     end)
    (process_tracked_message user_id error_processing [] platform true).

End WithServices.

End Processors.

(** ** Subscripts *)

Module Subscript.

(** [x[k]] for a string key: a dict looks the key up ([KeyError] when it
    is absent); a list or a string raises [TypeError], as does any
    other value. *)
Definition getitem (x : pyval) (k : pystr) : option pyval :=
  match x with
  | PDict d => Py.dict_get d k
  | _ => None
  end.

(** [x[-1]]: the last item of a list or the last character of a string;
    [IndexError] when empty; a dict decoded from JSON has only string
    keys ([KeyError]); other values raise [TypeError]. *)
Definition getlast (x : pyval) : option pyval :=
  match x with
  | PList l => last l
  | PStr s => option_map (fun c => PStr [c]) (last s)
  | _ => None
  end.

End Subscript.

(** ** The Telegram adapter ([src/platform/telegram/utils.py]) *)

Module Telegram.

Import Subscript.

Definition MAX_TELEGRAM_LENGTH : nat := 4096.

(** The ["text"] of the payload of [send_telegram_message], lines 29-34. *)
Definition send_telegram_message_text (message : pystr) : pystr :=
  if MAX_TELEGRAM_LENGTH <? length message
  then firstn (MAX_TELEGRAM_LENGTH - 3) message ++ lit "..."
  else message.

(** [{"text": button["title"], "callback_data": button["id"]}] *)
Record key := { key_text : pystr; key_callback_data : pystr }.

(** Lines 87-94 of [send_interactive_buttons]: [row] is filled and moved
    to [keyboard] when it holds 3 keys; a partial row is added last. *)
Fixpoint keyboard_go (buttons : list Dispatch.button) (keyboard : list (list key))
    (row : list key) : list (list key) :=
  match buttons with
  | [] => match row with [] => keyboard | _ => keyboard ++ [row] end
  | button :: r =>
      let row' := row ++ [{| key_text := Dispatch.btn_title button;
                             key_callback_data := Dispatch.btn_id button |}] in
      if length row' =? 3 then keyboard_go r (keyboard ++ [row']) []
      else keyboard_go r keyboard row'
  end.

(** The ["inline_keyboard"] of the payload: [for button in buttons[:3]]. *)
Definition inline_keyboard (buttons : list Dispatch.button) : list (list key) :=
  keyboard_go (firstn 3 buttons) [] [].

(** The negative look-behind on a backslash and an asterisk: the two
    characters before the position
    ([prev] holds the characters already scanned, the last one first)
    are not a backslash followed by an asterisk. *)
Definition not_after_escaped_star (prev : pystr) : bool :=
  match prev with
  | c1 :: c2 :: _ => negb ((c1 =? 42)%N && (c2 =? 92)%N)
  | _ => true
  end.

(** The lazy group [(.+?)] followed by the look-behind and an asterisk: [grp] holds the
    characters of the group so far (at least one, the last one first);
    the group ends at the first asterisk that the look-behind accepts,
    and [.] does not match a line break. *)
Fixpoint close_lazy (s prev grp : pystr) : option (pystr * pystr) :=
  match s with
  | [] => None
  | c :: r =>
      if (c =? 42)%N && not_after_escaped_star prev then Some (rev grp, r)
      else if (c =? 10)%N then None
      else close_lazy r (c :: prev) (c :: grp)
  end.

(** A match of the pattern at the start of [s] (the look-behind, an
    asterisk, the lazy group 2, the look-behind, an asterisk):
    group 2 and the text after the match. *)
Definition match_at (s prev : pystr) : option (pystr * pystr) :=
  match s with
  | c :: c1 :: r1 =>
      if (c =? 42)%N && not_after_escaped_star prev && negb (c1 =? 10)%N
      then close_lazy r1 (c1 :: c :: prev) [c1]
      else None
  | _ => None
  end.

(** [re.sub] scans left to right and replaces each match by
    [<b>\2</b>]; the look-behinds see the original text. *)
Fixpoint sub_go (fuel : nat) (s prev : pystr) : pystr :=
  match fuel with
  | O => s
  | S f =>
      match s with
      | [] => []
      | c :: r =>
          match match_at s prev with
          | Some (g, rest) =>
              lit "<b>" ++ g ++ lit "</b>"
                ++ sub_go f rest (42%N :: rev g ++ 42%N :: prev)
          | None => c :: sub_go f r (c :: prev)
          end
      end
  end.

(** [convert_markdown_to_html], lines 19-22. *)
Definition convert_markdown_to_html (text : pystr) : pystr :=
  sub_go (length text) text [].

(** The initial [result] dict of [extract_message_data]. *)
Definition result0 : list (pystr * pyval) :=
  [(lit "message_type", PStr []); (lit "chat_id", PStr []); (lit "message_id", PStr []);
   (lit "text", PStr []); (lit "callback_data", PStr []); (lit "image_id", PStr []);
   (lit "caption", PStr [])].

Section WithStr.

(** [str(x)] *)
Variable py_str : pyval -> pystr.

(** [extract_message_data], lines 299-341; [None] when it raises. *)
Definition extract_message_data (update : pyval) : option (list (pystr * pyval)) :=
  has_message ← Py.contains update (lit "message");
  if (has_message : bool) then (
    message ← getitem update (lit "message");
    chat ← getitem message (lit "chat");
    chat_id ← getitem chat (lit "id");
    let r1 := dict_set result0 (lit "chat_id") (PStr (py_str chat_id)) in
    message_id ← getitem message (lit "message_id");
    let r2 := dict_set r1 (lit "message_id") (PStr (py_str message_id)) in
    has_text ← Py.contains message (lit "text");
    if (has_text : bool) then (
      let r3 := dict_set r2 (lit "message_type") (PStr (lit "message")) in
      text ← getitem message (lit "text");
      Some (dict_set r3 (lit "text") text))
    else (
      has_photo ← Py.contains message (lit "photo");
      if (has_photo : bool) then (
        let r3 := dict_set r2 (lit "message_type") (PStr (lit "image")) in
        photo ← getitem message (lit "photo");
        r4 ← (if Py.truthy photo then (
                p ← getlast photo;
                file_id ← getitem p (lit "file_id");
                Some (dict_set r3 (lit "image_id") file_id))
              else Some r3);
        has_caption ← Py.contains message (lit "caption");
        if (has_caption : bool) then (
          caption ← getitem message (lit "caption");
          Some (dict_set r4 (lit "caption") caption))
        else Some r4)
      else Some r2))
  else (
    has_callback ← Py.contains update (lit "callback_query");
    if (has_callback : bool) then (
      callback ← getitem update (lit "callback_query");
      let r1 := dict_set result0 (lit "message_type") (PStr (lit "callback_query")) in
      cm ← getitem callback (lit "message");
      chat ← getitem cm (lit "chat");
      chat_id ← getitem chat (lit "id");
      let r2 := dict_set r1 (lit "chat_id") (PStr (py_str chat_id)) in
      message_id ← getitem cm (lit "message_id");
      let r3 := dict_set r2 (lit "message_id") (PStr (py_str message_id)) in
      data ← getitem callback (lit "data");
      Some (dict_set r3 (lit "callback_data") data))
    else Some result0).

End WithStr.

(** The [keyboard] of [send_rating_keyboard], lines 139-142: the digit,
    U+FE0F and U+20E3 (a keycap), a space and the label. *)
Definition keycap (d : N) (label : string) : pystr :=
  [d; 65039%N; 8419%N; 32%N] ++ lit label.

Definition rating_keyboard : list (list pystr) :=
  [[keycap 49 "Very poor"; keycap 50 "Poor"; keycap 51 "Fair"];
   [keycap 52 "Good"; keycap 53 "Very good"; keycap 54 "Excellent"]].

End Telegram.

(** ** The conversation log in PostgreSQL ([src/db/utils.py])

    The tables [conversations] and [messages] as lists of rows, in
    insertion order; the connection is assumed to open. *)

Module DB.

Record conversation := {
  conversation_id : Z;
  conv_user_id : pystr;
  conv_platform : pystr
}.

(** A row of [messages]; [content] is the Python value passed to the
    driver. *)
Record message_row := {
  row_message_id : pystr;
  row_conversation_id : Z;
  row_sender : pystr;
  row_content : pyval;
  row_message_type : pystr
}.

(** [conversation_seq] is the last value drawn from the [SERIAL]
    sequence of [conversation_id] (a sequence is not rolled back). *)
Record db := {
  conversations : list conversation;
  messages : list message_row;
  conversation_seq : Z
}.

(** [SELECT conversation_id FROM conversations WHERE user_id = %s AND
    platform = %s ORDER BY conversation_id DESC LIMIT 1] *)
Definition latest_conversation (d : db) (user_id platform : pystr) : option Z :=
  fold_left (fun acc c =>
      if pystr_eqb (conv_user_id c) user_id && pystr_eqb (conv_platform c) platform then
        match acc with
        | None => Some (conversation_id c)
        | Some m => Some (Z.max m (conversation_id c))
        end
      else acc) (conversations d) None.

(** A Python [str] passed as a query parameter: the driver raises on a
    NUL character ([ValueError]) and on a surrogate code point, which
    has no UTF-8 encoding ([UnicodeEncodeError]); nothing is sent. *)
Definition adaptable (s : pystr) : bool :=
  forallb (fun c => negb (c =? 0)%N && negb ((55296 <=? c)%N && (c <=? 57343)%N)) s.

(** A text assigned to a [VARCHAR(n)] column: a text of at most [n]
    characters is kept; a longer one is cut to [n] characters when the
    excess characters are all spaces, and otherwise the cast raises. *)
Definition varchar (n : nat) (s : pystr) : option pystr :=
  if length s <=? n then Some s
  else if forallb (fun c => (c =? 32)%N) (skipn n s) then Some (firstn n s) else None.

(** [create_conversation], lines 75-93: [INSERT INTO conversations
    (user_id, platform) VALUES (%s, %s) RETURNING conversation_id]. A
    parameter the driver cannot send, or a value the casts to
    [VARCHAR(255)] ([user_id]) and [VARCHAR(50)] ([platform]) refuse,
    raises before the sequence is drawn; otherwise the next value of the
    sequence is drawn (and kept, as a sequence is not rolled back) and
    the insert fails on a duplicate primary key. *)
Definition create_conversation (d : db) (user_id platform : pystr) : db * option Z :=
  if negb (adaptable user_id && adaptable platform) then (d, None) else
  match varchar 255 user_id, varchar 50 platform with
  | Some u, Some p =>
      let cid := (conversation_seq d + 1)%Z in
      let d1 := {| conversations := conversations d; messages := messages d;
                   conversation_seq := cid |} in
      if existsb (fun c => (conversation_id c =? cid)%Z) (conversations d) then (d1, None)
      else ({| conversations := conversations d ++
                 [{| conversation_id := cid; conv_user_id := u; conv_platform := p |}];
               messages := messages d; conversation_seq := cid |}, Some cid)
  | _, _ => (d, None)
  end.

(** [add_message], lines 96-117: [INSERT INTO messages ... RETURNING
    message_id]; the returned id is the one stored. It raises on a
    parameter the driver cannot send, a dict [content] (which the driver
    cannot adapt), a value the casts to [VARCHAR(255)] ([message_id]) or
    [VARCHAR(50)] ([sender], [message_type]) refuse, a [NULL] content
    ([NOT NULL]) or a duplicate [message_id] (primary key); the insert
    is then rolled back. *)
Definition add_message (d : db) (message_id : pystr) (conversation_id : Z)
    (sender : pystr) (content : pyval) (message_type : pystr) : option (db * pystr) :=
  let content_ok := match content with
                    | PDict _ => false
                    | PStr t => adaptable t
                    | _ => true
                    end in
  if negb (adaptable message_id && adaptable sender && adaptable message_type && content_ok)
  then None else
  match varchar 255 message_id, varchar 50 sender, varchar 50 message_type with
  | Some mid, Some sender', Some message_type' =>
      match content with
      | PNone => None
      | _ =>
          if existsb (fun r => pystr_eqb (row_message_id r) mid) (messages d) then None
          else Some ({| conversations := conversations d;
                        messages := messages d ++
                          [{| row_message_id := mid; row_conversation_id := conversation_id;
                              row_sender := sender'; row_content := content;
                              row_message_type := message_type' |}];
                        conversation_seq := conversation_seq d |}, mid)
      end
  | _, _, _ => None
  end.

(** [record_conversation_message], lines 153-215: the returned dict
    [{"conversation_id": ..., "message_id": ...}] as a pair; [None] when
    it raises, with the database as the committed statements left it.
    The [SELECT] compares the parameters with the stored texts as they
    are (no cast to the column's length). *)
Definition record_conversation_message (message_id user_id platform : pystr)
    (message_text : pyval) (is_user_message : bool) (message_type : pystr) (d : db)
    : db * option (Z * pystr) :=
  if negb (adaptable user_id && adaptable platform) then (d, None) else
  let '(d1, conv) :=
    match latest_conversation d user_id platform with
    | Some cid => (d, Some cid)
    | None => create_conversation d user_id platform
    end in
  match conv with
  | None => (d1, None)
  | Some conversation_id =>
      let sender := if is_user_message then lit "user" else lit "bot" in
      match add_message d1 message_id conversation_id sender message_text message_type with
      | Some (d2, mid) => (d2, Some (conversation_id, mid))
      | None => (d1, None)
      end
  end.

End DB.

(** ** The Telegram webhook ([src/platform/telegram/routers.py]) *)

Module TelegramRouter.

(** The background tasks, with their arguments. *)
Inductive task :=
  | TFactCheck (user_id phone_number message_id message_text context claim platform : pystr)
  | TRating (rating claim_text : pystr)
  | TTracked (user_id phone_number message_id response platform : pystr) (add_rating : bool)
  | TMessage (user_id phone_number message_id message_text context platform : pystr)
  | TImage (user_id phone_number message_id : pystr) (image_id caption : pyval) (platform : pystr).

(** The returned dict: [SErrorUnsupported] is
    [{"status": "Error", "message": "Unsupported message type"}] (line 39,
    with a capital [E]); [SProcessing], [SRatingProcessed],
    [SProcessingImage] and [SSuccess] are the dicts whose ["status"] is
    ["processing"], ["rating_processed"], ["processing_image"] and
    ["success"]; [SError] is [{"status": "error", "message": str(e)}]
    (line 177). *)
Inductive status :=
  | SErrorUnsupported | SProcessing | SRatingProcessed | SProcessingImage | SSuccess | SError.

(** The database, the dicts shared with [src/core/processors/processors.py]
    and the scheduled tasks. *)
Record state := {
  db : DB.db;
  message_context : Context.store;
  button_id_to_claim : gmap pystr pystr;
  tasks : list task
}.

Definition set_db (st : state) (d : DB.db) : state :=
  {| db := d; message_context := message_context st;
     button_id_to_claim := button_id_to_claim st; tasks := tasks st |}.

Definition set_context (st : state) (ctx : Context.store) : state :=
  {| db := db st; message_context := ctx;
     button_id_to_claim := button_id_to_claim st; tasks := tasks st |}.

Definition add_tasks (st : state) (ts : list task) : state :=
  {| db := db st; message_context := message_context st;
     button_id_to_claim := button_id_to_claim st; tasks := tasks st ++ ts |}.

(** [v in button_id_to_claim]: a str is looked up; an unhashable list or
    dict raises [TypeError]; no other value equals a str key. *)
Definition dict_contains (t : gmap pystr pystr) (v : pyval) : option bool :=
  match v with
  | PStr s => Some (bool_decide (is_Some (t !! s)))
  | PList _ | PDict _ => None
  | _ => Some false
  end.

Definition telegram : pystr := lit "telegram".

Section WithServices.

(** [str(x)] *)
Variable py_str : pyval -> pystr.
(** [unicodedata.normalize("NFKD", _)] *)
Variable nfkd : pystr -> pystr.
(** [\d] of a [str] pattern: a Unicode decimal digit. *)
Variable is_decimal : N -> bool.

(** [(.+)$]: one or more characters other than a line break, up to the
    end or up to a line break that ends the text. *)
Definition dot_plus_end (t : pystr) : option pystr :=
  let g := Dispatch.split_lines t in
  match g with
  | [g0] => match g0 with [] => None | _ => Some g0 end
  | [g0; []] => match g0 with [] => None | _ => Some g0 end
  | _ => None
  end.

(** The length of the run of whitespace ([\s]) at the start. *)
Fixpoint ws_prefix_len (r : pystr) : nat :=
  match r with
  | c :: r' => if is_space c then S (ws_prefix_len r') else O
  | [] => O
  end.

(** The greedy [\s+] after its first character gives back one
    character at a time until [(.+)$] matches the rest. *)
Fixpoint try_from (k : nat) (r : pystr) : option pystr :=
  match dot_plus_end (skipn k r) with
  | Some g => Some g
  | None => match k with O => None | S k' => try_from k' r end
  end.

(** [re.match(r"^(\d)<U+FE0F><U+20E3>\s+(.+)$", message_text)]:
    the groups 1 and 2. *)
Definition rating_match (s : pystr) : option (pystr * pystr) :=
  match s with
  | d :: v :: k :: w :: r =>
      if is_decimal d && (v =? 65039)%N && (k =? 8419)%N && is_space w then
        match try_from (ws_prefix_len r) r with
        | Some g => Some ([d], g)
        | None => None
        end
      else None
  | _ => None
  end.

(** [record_conversation_message] on the database of the state. *)
Definition record (message_id user_id : pystr) (message_text : pyval) (message_type : pystr)
    (st : state) : state * bool :=
  let '(d', r) := DB.record_conversation_message message_id user_id telegram message_text
                    true message_type (db st) in
  (set_db st d', match r with Some _ => true | None => false end).

(** [telegram_webhook], lines 31-175, after [update = await
    request.json()]: the new state and the returned status; an
    exception returns the status ["error"]. The fields [chat_id] and
    [message_id] of [data] are strings, written by [str()]. *)
Definition telegram_webhook (update : pyval) (st : state) : state * status :=
  match Telegram.extract_message_data py_str update with
  | None => (st, SError)
  | Some data =>
    let get k := match Py.dict_get data (lit k) with Some v => v | None => PNone end in
    match get "chat_id", get "message_id" with
    | PStr user_id, PStr message_id =>
      if negb (Py.truthy (PStr user_id)) then (st, SErrorUnsupported)
      else if Py.is_str (get "message_type") (lit "callback_query") then
        match dict_contains (button_id_to_claim st) (get "callback_data") with
        | None => (st, SError)
        | Some false => (st, SSuccess)
        | Some true =>
            match get "callback_data" with
            | PStr callback_data =>
                let claim := match button_id_to_claim st !! callback_data with
                             | Some c => c | None => [] end in
                let context := match message_context st !! user_id with
                               | Some l => py_join [10%N] l
                               | None => []
                               end in
                (add_tasks st [TFactCheck user_id user_id message_id claim context claim telegram],
                 SProcessing)
            | _ => (st, SError)
            end
        end
      else if Py.is_str (get "message_type") (lit "message") && Py.truthy (get "text") then
        let '(st1, ok) := record message_id user_id (get "text") (lit "text") st in
        if negb ok then (st1, SError) else
        match get "text" with
        | PStr message_text =>
            match rating_match message_text with
            | Some (rating_value, rating_text) =>
                match Context.append_line (message_context st1) user_id
                        (lit "User rated with '" ++ rating_value ++ lit "' (" ++ rating_text
                         ++ lit ")" ++ Dispatch.newline) with
                | None => (st1, SError)
                | Some ctx =>
                    let st2 := set_context st1 ctx in
                    match ctx !! user_id with
                    | Some _ =>
                        (add_tasks st2
                           [TRating rating_value message_id;
                            TTracked user_id user_id message_id
                              (lit "Thanks for your " ++ rating_value ++ lit "-star rating!")
                              telegram false],
                         SRatingProcessed)
                    | None => (st2, SRatingProcessed)
                    end
                end
            | None =>
                let message_text' := Normalize.normalize nfkd message_text in
                match Context.receive_text (message_context st1) user_id message_text' with
                | None => (st1, SError)
                | Some (ctx, context) =>
                    (add_tasks (set_context st1 ctx)
                       [TMessage user_id user_id message_id message_text' context telegram],
                     SProcessing)
                end
            end
        | _ => (st1, SError)   (* [re.match] on a non-str raises [TypeError] *)
        end
      else if Py.is_str (get "message_type") (lit "image") then
        let image_id := get "image_id" in
        let caption := if Py.truthy (get "caption") then get "caption" else PStr [] in
        let '(st1, ok) := record message_id user_id caption (lit "image") st in
        if negb ok then (st1, SError) else
        let st2 := set_context st1 (Context.ensure_user (message_context st1) user_id) in
        (add_tasks st2 [TImage user_id user_id message_id image_id caption telegram],
         SProcessingImage)
      else (st, SSuccess)
    | _, _ => (st, SError)
    end
  end.

End WithServices.

End TelegramRouter.

(** ** The Factiverse client ([src/core/client/client.py]) *)

Module Client.

(** [s.replace("**", "*")]: the occurrences of [**], found from the left
    without overlap, each become one [*]. *)
Fixpoint replace_double_star (s : pystr) : pystr :=
  match s with
  | [] => []
  | c1 :: r1 =>
      match r1 with
      | c2 :: r2 =>
          if (c1 =? 42)%N && (c2 =? 42)%N then 42%N :: replace_double_star r2
          else c1 :: replace_double_star r1
      | [] => [c1]
      end
  end.

Section WithApi.

(** The HTTP post to [/generate] with the prompt and the text: [None]
    when the request raises, otherwise the status and the body parsed by
    [response.json()] ([None] when it raises). *)
Variable generate_api : pystr -> pystr -> option (Z * option pyval).
(** The HTTP post to [/claim_detection], in the same form. *)
Variable claim_detection_api : pystr -> option (Z * option pyval).
(** [str(x)] *)
Variable py_str : pyval -> pystr.

(** [generate], lines 19-49: every failure is logged and gives [""]. *)
Definition generate (prompt text : pystr) : pystr :=
  match generate_api prompt text with
  | None => []
  | Some (status, body) =>
      if negb (status =? 200)%Z then [] else
      match body with
      | None => []
      | Some data =>
          match Py.get data (lit "full_output") (PStr []) with
          | Some (PStr s) => replace_double_star s
          | _ => []   (* [.get] of a non-dict, [.replace] of a non-str *)
          end
      end
  end.

(** The loop of lines 182-185; [None] when [claim.get] raises. *)
Fixpoint claims_loop (l : list pyval) : option (list pystr) :=
  match l with
  | [] => Some []
  | claim :: r =>
      c ← Py.get claim (lit "claim") (PStr []);
      rest ← claims_loop r;
      let claim_text := py_strip (py_str c) in
      Some (if Py.truthy (PStr claim_text) then claim_text :: rest else rest)
  end.

(** [detect_claims], lines 141-198: every exception gives [[]]. *)
Definition detect_claims (text : pystr) : list pystr :=
  match claim_detection_api text with
  | None => []
  | Some (status, body) =>
      if (400 <=? status)%Z then [] else
      match body with
      | None => []
      | Some claims_data =>
          match Py.contains claims_data (lit "detectedClaims") with
          | Some true =>
              match claims_data with
              | PDict d =>
                  match Py.dict_get d (lit "detectedClaims") with
                  | Some v =>
                      match Py.iter v with
                      | Some l => match claims_loop l with Some cs => cs | None => [] end
                      | None => []
                      end
                  | None => []
                  end
              | _ => []   (* a list or a str indexed by a str *)
              end
          | Some false => []
          | None => []   (* [in] on a number, a bool or [None] *)
          end
      end
  end.

End WithApi.

End Client.

(** ** [process_fact_check_response] ([src/core/processors/processors.py]) *)

Module FactCheckResponse.

Import Processors.

Section WithServices.

Variable get_prompt : pystr -> pystr -> pystr -> pystr.
Variable generate : pystr -> pystr -> option pystr.
Variable fact_check : pystr -> option pyval.
Variable stance_detection : pyval -> option pyval.
Variable rand_index : nat -> nat -> nat.
Variable round2 : Q -> Q.
Variable py_str : pyval -> pystr.
Variable dict_body : Cleaner.cleaned -> pystr.
Variable convert_markdown_to_html : pystr -> pystr.
Variable platform_reply : sent -> option (option pystr).

Definition error_checking : pystr :=
  lit "Sorry, I encountered an error checking this claim.".

(** [process_fact_check_response], lines 84-145; the result of
    [handle_fact_check_intent] is always a pair. *)
Definition process_fact_check_response (user_id message_text context claim platform : pystr)
    : M unit :=
  catch
    (match Dispatch.handle_fact_check_intent get_prompt fact_check stance_detection round2 py_str
             dict_body message_text context (PList [PStr claim]) [] with
     | None => throw
     | Some (prompt, evidence_data) =>
         if pystr_eqb (py_strip evidence_data) (lit "[]") then
           let '(buttons, btn_id_to_claim, response) :=
             Dispatch.handle_claim_suggestions get_prompt generate rand_index message_text context in
           _ <-- set_buttons btn_id_to_claim ;;
           process_tracked_message convert_markdown_to_html platform_reply user_id response
             buttons platform true
         else
           match generate prompt evidence_data with
           | None => throw
           | Some response =>
               process_tracked_message convert_markdown_to_html platform_reply user_id response
                 [] platform true
           end
     end)
    (process_tracked_message convert_markdown_to_html platform_reply user_id error_checking
       [] platform true).

End WithServices.

End FactCheckResponse.

(** ** The rating message of the WhatsApp adapter
    ([src/platform/whatsapp/utils.py]) *)

Module WhatsAppRating.

(** A post to the Cloud API: a text message, or an interactive list
    with its body and its rows [(id, title, description)]. *)
Inductive post :=
  | PostText (to body reply_to : pystr)
  | PostList (to body title button_text section_title : pystr)
      (rows : list (pystr * pystr * pystr)) (reply_to : pystr).

Definition MAX_LIST_MESSAGE_LENGTH : nat := 1000.

Definition descriptions : list string :=
  ["Very poor"; "Poor"; "Fair"; "Good"; "Very good"; "Excellent"]%string.

(** The rows of lines 229-244 and 260-275. *)
Definition rating_items : list (pystr * pystr * pystr) :=
  map (fun i => (lit "rating_" ++ Dispatch.dec i,
                 Dispatch.dec i ++ lit " star" ++ (if 1 <? i then lit "s" else []),
                 lit (nth (i - 1) descriptions EmptyString)))
      (seq 1 6).

(** ["Please rate the above response "] followed by the four code
    points of the source text. *)
Definition rating_prompt : pystr :=
  lit "Please rate the above response " ++ [240; 376; 732; 352]%N.

Section WithApi.

(** The reply of the API to a post: [None] when the post raises (a
    status of 400 or more, a client error), otherwise the JSON reply. *)
Variable api : post -> option pyval.

(** The posts made, in order, and the returned value ([None]: raised). *)
Definition send (p : post) : list post * option pyval := ([p], api p).

(** [send_whatsapp_message], lines 18-62. *)
Definition send_whatsapp_message (phone_number message reply_to : pystr)
    : list post * option pyval :=
  send (PostText phone_number (Outbound.send_whatsapp_message_body message) reply_to).

(** [send_list_message], lines 131-205. *)
Definition send_list_message (phone_number message title button_text section_title : pystr)
    (list_items : list (pystr * pystr * pystr)) (reply_to : pystr) : list post * option pyval :=
  send (PostList phone_number message title button_text section_title list_items reply_to).

(** [send_rating_message], lines 208-292. *)
Definition send_rating_message (phone_number message_id response : pystr)
    : list post * option pyval :=
  let title := lit "Rate this response" in
  let button_text := lit "Rate" in
  let section_title := lit "Rating" in
  if MAX_LIST_MESSAGE_LENGTH <? length response then
    let '(p1, r1) := send_whatsapp_message phone_number response message_id in
    match r1 with
    | None => (p1, None)
    | Some _ =>
        let '(p2, r2) := send_list_message phone_number rating_prompt title button_text
                           section_title rating_items message_id in
        (p1 ++ p2, r2)
    end
  else
    let '(p1, r1) := send_list_message phone_number response title button_text section_title
                       rating_items message_id in
    match r1 with
    | Some v => (p1, Some v)
    | None =>
        let '(p2, r2) := send_whatsapp_message phone_number response message_id in
        (p1 ++ p2, r2)
    end.

End WithApi.

End WhatsAppRating.

(** * Properties *)

(** ** The outbound length cap *)

Module OutboundSpec.

Import Outbound.

(** C7: a message longer than 4096 characters is sent as its first 4093
    characters followed by the three characters [...], 4096 characters in
    all; a message of at most 4096 characters is sent unchanged. *)
Theorem send_whatsapp_message_cap (message : pystr) :
  (4096 < length message ->
     send_whatsapp_message_body message = firstn 4093 message ++ lit "..."
     /\ length (send_whatsapp_message_body message) = 4096)
  /\ (length message <= 4096 -> send_whatsapp_message_body message = message).
Proof.
  unfold send_whatsapp_message_body, MAX_WHATSAPP_LENGTH.
  split; intros H.
  - destruct (Nat.ltb_spec 4096 (length message)); [|lia].
    split; [reflexivity|].
    rewrite length_app, length_firstn.
    change (length (lit "...")) with 3. lia.
  - destruct (Nat.ltb_spec 4096 (length message)); [lia|reflexivity].
Qed.

End OutboundSpec.

(** ** The reply-routing table *)

Module RoutingSpec.

Import Routing.

Lemma replay_from_lookup (ops : list (pystr * pystr)) (t : table) (id : pystr) :
  ~ In id (map fst ops) ->
  fold_left (fun t op => record t (fst op) (snd op)) ops t !! id = t !! id.
Proof.
  revert t. induction ops as [|[k v] ops IH]; intros t Hn; simpl in *; [reflexivity|].
  rewrite IH by tauto. unfold record. rewrite lookup_insert_ne; [reflexivity|].
  intros ->. tauto.
Qed.

(** C1: resolving an id right after recording it with a text returns
    exactly that text (both by [in] and [.get]); an id that no record of
    the history wrote is not found: [in] is false and [.get] gives the
    empty string. *)
Theorem resolve_after_record (t : table) (id text : pystr) (ops : list (pystr * pystr)) (other : pystr) :
  resolve (record t id text) (Some id) = Some text
  /\ resolve_get (record t id text) (Some id) = text
  /\ (~ In other (map fst ops) ->
        resolve (replay ops) (Some other) = None
        /\ resolve_get (replay ops) (Some other) = []).
Proof.
  unfold resolve_get, resolve, record.
  rewrite lookup_insert_eq.
  split; [reflexivity|]; split; [reflexivity|].
  intros Hn. unfold replay. rewrite replay_from_lookup by exact Hn.
  rewrite lookup_empty. split; reflexivity.
Qed.

End RoutingSpec.

(** ** The conversation context *)

Module ContextSpec.

Import Context.

(** The lines stored for [u], [[]] when [u] has none. *)
Definition lines (st : store) (u : pystr) : list pystr :=
  match st !! u with Some l => l | None => [] end.

Lemma add_line_lines (st : store) (u' line u : pystr) :
  lines (add_line st u' line) u = if bool_decide (u' = u) then lines st u ++ [line] else lines st u.
Proof.
  unfold lines, add_line, append_line, ensure_user.
  destruct (st !! u') as [l|] eqn:E.
  - rewrite E. case_bool_decide as Hu.
    + subst. rewrite lookup_insert_eq, E. reflexivity.
    + rewrite lookup_insert_ne by exact Hu. reflexivity.
  - rewrite lookup_insert_eq. case_bool_decide as Hu.
    + subst. rewrite lookup_insert_eq, E. reflexivity.
    + rewrite lookup_insert_ne by exact Hu. rewrite lookup_insert_ne by exact Hu. reflexivity.
Qed.

Lemma replay_lines (ops : list (pystr * pystr)) (st : store) (u : pystr) :
  lines (fold_left (fun st op => add_line st (fst op) (snd op)) ops st) u
  = lines st u ++ lines_of u ops.
Proof.
  revert st. induction ops as [|[u' line] ops IH]; intros st; simpl.
  - rewrite app_nil_r. reflexivity.
  - rewrite IH, add_line_lines. unfold lines_of. simpl.
    case_bool_decide; simpl; [rewrite <- app_assoc|]; reflexivity.
Qed.

Lemma receive_text_lines (st : store) (u message_text : pystr) :
  exists st', receive_text st u message_text = Some (st', py_join [10%N] (lines st u))
    /\ st' !! u = Some (lines st u ++ [user_line message_text]).
Proof.
  unfold receive_text, append_line, ensure_user, lines.
  destruct (st !! u) as [l|] eqn:E.
  - rewrite E, lookup_insert_eq.
    exists (<[u := l ++ [user_line message_text]]> st). split; [|apply lookup_insert_eq].
    unfold drop_last. rewrite length_app. simpl.
    rewrite Nat.add_sub, firstn_app, Nat.sub_diag, firstn_all. simpl.
    rewrite app_nil_r. reflexivity.
  - rewrite lookup_insert_eq, lookup_insert_eq.
    exists (<[u := [] ++ [user_line message_text]]> (<[u := []]> st)).
    split; [reflexivity|apply lookup_insert_eq].
Qed.

(** C2: after any history of appended lines, the context handed on with
    a new text message of user [u] is the lines of [u] of that history
    (all but the line just appended), joined by a line break in their
    order of insertion; the stored list then ends with the new line. A
    user with no line gets the empty string. *)
Theorem receive_text_context (ops : list (pystr * pystr)) (u message_text : pystr) :
  exists st',
    receive_text (replay ops) u message_text = Some (st', py_join [10%N] (lines_of u ops))
    /\ st' !! u = Some (lines_of u ops ++ [user_line message_text])
    /\ (lines_of u ops = [] -> py_join [10%N] (lines_of u ops) = []).
Proof.
  destruct (receive_text_lines (replay ops) u message_text) as [st' [H1 H2]].
  unfold replay in *. rewrite replay_lines in H1, H2.
  unfold lines in H1, H2 at 1. rewrite lookup_empty in H1, H2. simpl in H1, H2.
  exists st'. split; [exact H1|]. split; [exact H2|].
  intros ->. reflexivity.
Qed.

End ContextSpec.

(** ** The message normaliser *)

Module NormalizeSpec.

Import Normalize.

Lemma flat_map_single (s : pystr) : flat_map (fun c => [c]) s = s.
Proof. induction s; simpl; congruence. Qed.

Lemma flat_map_flat_map (f g : N -> list N) (s : pystr) :
  flat_map f (flat_map g s) = flat_map (fun c => flat_map f (g c)) s.
Proof.
  induction s as [|c s IH]; simpl; [reflexivity|].
  rewrite flat_map_app, IH. reflexivity.
Qed.

Lemma flat_map_ext_in (f g : N -> list N) (s : pystr) :
  (forall c, f c = g c) -> flat_map f s = flat_map g s.
Proof. intros H. induction s; simpl; [reflexivity|]. rewrite H, IHs. reflexivity. Qed.

Definition step (acc : pystr) (cr : N * pystr) : pystr := py_replace_char (fst cr) (snd cr) acc.

Lemma fold_replace_flat_map (R : list (N * pystr)) (s : pystr) :
  fold_left step R s = flat_map (fun c => fold_left step R [c]) s.
Proof.
  revert s. induction R as [|r R IH]; intros s; simpl.
  - symmetry. apply flat_map_single.
  - rewrite (IH (step s r)).
    assert (step s r = flat_map (fun c => if (c =? fst r)%N then snd r else [c]) s) as ->
      by reflexivity.
    rewrite flat_map_flat_map. apply flat_map_ext_in. intros c.
    rewrite app_nil_r. symmetry. apply IH.
Qed.

Lemma apply_replacements_flat_map (s : pystr) :
  apply_replacements s = flat_map table_char s.
Proof.
  unfold apply_replacements, table_char. apply fold_replace_flat_map.
Qed.

Ltac key_cases c tac :=
  destruct (N.eqb_spec c 160) as [->|?]; [tac|];
  destruct (N.eqb_spec c 8216) as [->|?]; [tac|];
  destruct (N.eqb_spec c 8217) as [->|?]; [tac|];
  destruct (N.eqb_spec c 8220) as [->|?]; [tac|];
  destruct (N.eqb_spec c 8221) as [->|?]; [tac|];
  destruct (N.eqb_spec c 8211) as [->|?]; [tac|];
  destruct (N.eqb_spec c 8212) as [->|?]; [tac|];
  destruct (N.eqb_spec c 8230) as [->|?]; [tac|].

Lemma table_char_eq (c : N) :
  table_char c =
    if (c =? 160)%N then [32%N]
    else if (c =? 8216)%N then [39%N]
    else if (c =? 8217)%N then [39%N]
    else if (c =? 8220)%N then [34%N]
    else if (c =? 8221)%N then [34%N]
    else if (c =? 8211)%N then [45%N]
    else if (c =? 8212)%N then [45%N; 45%N]
    else if (c =? 8230)%N then [46%N; 46%N; 46%N]
    else [c].
Proof.
  key_cases c ltac:(idtac; reflexivity).
  unfold table_char, apply_replacements, py_replace_char. simpl.
  repeat (rewrite (proj2 (N.eqb_neq _ _)) by assumption; simpl).
  reflexivity.
Qed.

Definition all_space (l : pystr) : Prop := Forall (fun c => is_space c = true) l.
Definition no_space (l : pystr) : Prop := l <> [] /\ Forall (fun c => is_space c = false) l.

(** A character map that sends a space to spaces and a non-space to a
    non-empty run of non-spaces commutes with [strip]. *)
Definition space_preserving (f : N -> pystr) : Prop :=
  forall c, (is_space c = true -> all_space (f c)) /\ (is_space c = false -> no_space (f c)).

Lemma drop_space_all_space (a s : pystr) : all_space a -> drop_space (a ++ s) = drop_space s.
Proof.
  intros H. induction H as [|c a Hc H IH]; simpl; [reflexivity|]. rewrite Hc. exact IH.
Qed.

Lemma drop_space_flat_map (f : N -> pystr) (s : pystr) :
  space_preserving f -> drop_space (flat_map f s) = flat_map f (drop_space s).
Proof.
  intros Hf. induction s as [|c s IH]; simpl; [reflexivity|].
  destruct (is_space c) eqn:E.
  - rewrite drop_space_all_space by (apply (proj1 (Hf c)); exact E). exact IH.
  - destruct (proj2 (Hf c) E) as [Hne Hall].
    destruct (f c) as [|d a] eqn:Efc; [congruence|].
    inversion Hall; subst. simpl. rewrite H1, Efc. reflexivity.
Qed.

Lemma rev_flat_map (f : N -> pystr) (s : pystr) :
  rev (flat_map f s) = flat_map (fun c => rev (f c)) (rev s).
Proof.
  induction s as [|c s IH]; simpl; [reflexivity|].
  rewrite rev_app_distr, IH, flat_map_app. simpl. rewrite app_nil_r. reflexivity.
Qed.

Lemma space_preserving_rev (f : N -> pystr) :
  space_preserving f -> space_preserving (fun c => rev (f c)).
Proof.
  intros Hf c. destruct (Hf c) as [H1 H2]. split.
  - intros E. apply Forall_rev. apply H1, E.
  - intros E. destruct (H2 E) as [Hne Hall]. split.
    + intros Hr. apply Hne. apply (f_equal (@rev N)) in Hr. rewrite rev_involutive in Hr. exact Hr.
    + apply Forall_rev. exact Hall.
Qed.

Lemma strip_flat_map (f : N -> pystr) (s : pystr) :
  space_preserving f -> py_strip (flat_map f s) = flat_map f (py_strip s).
Proof.
  intros Hf. unfold py_strip.
  rewrite drop_space_flat_map by exact Hf.
  rewrite rev_flat_map.
  rewrite drop_space_flat_map by (apply space_preserving_rev; exact Hf).
  rewrite rev_flat_map. apply flat_map_ext_in. intros c. apply rev_involutive.
Qed.

Lemma table_char_space_preserving : space_preserving table_char.
Proof.
  intros c. rewrite table_char_eq.
  key_cases c ltac:(idtac; split; intros E; vm_compute in E; try discriminate;
                    unfold all_space, no_space; simpl;
                    try split; try discriminate; repeat constructor).
  repeat (rewrite (proj2 (N.eqb_neq _ _)) by assumption).
  split; intros E.
  - repeat constructor. exact E.
  - split; [discriminate|]. repeat constructor. exact E.
Qed.

Lemma table_char_no_key (c d : N) :
  In d (table_char c) -> ~ In d (map fst replacements).
Proof.
  rewrite table_char_eq.
  key_cases c ltac:(idtac; simpl; intros Hd Hk; intuition (subst; discriminate)).
  repeat (rewrite (proj2 (N.eqb_neq _ _)) by assumption).
  simpl. intros [<-|[]] Hk. intuition congruence.
Qed.

(** C8: normalising is a total function of the text; it equals the
    composition in the order NFKD, double quote to single quote, the
    replacement table, then [strip] (the source strips before the table;
    the two orders agree), and no character of the table's keys (the
    non-breaking space, the curly single and double quotes, the en and em
    dashes, the ellipsis) is left in the result. *)
Theorem normalize_spec (nfkd : pystr -> pystr) (raw_text : pystr) :
  normalize nfkd raw_text
    = py_strip (apply_replacements (py_replace_char 34 [39%N] (nfkd raw_text)))
  /\ (forall c, In c (normalize nfkd raw_text) -> ~ In c (map fst replacements)).
Proof.
  unfold normalize. rewrite !apply_replacements_flat_map.
  split.
  - rewrite strip_flat_map by exact table_char_space_preserving. reflexivity.
  - intros c Hc. apply in_flat_map in Hc. destruct Hc as [d [_ Hd]].
    exact (table_char_no_key d c Hd).
Qed.

End NormalizeSpec.

(** ** [clean_facts] *)

Module CleanerSpec.

Import Cleaner.

Lemma is_str_true (x : pyval) (s : pystr) : Py.is_str x s = true -> x = PStr s.
Proof.
  destruct x; simpl; try discriminate. unfold pystr_eqb. case_bool_decide; congruence.
Qed.

Lemma clean_items_in (round2 : Q -> Q) (py_str : pyval -> pystr) (l : list pyval)
    (acc r : list cleaned) (e : cleaned) :
  clean_items round2 py_str l acc = Some r -> In e r ->
  In e acc \/ exists item, In item l /\ clean_item round2 py_str item = Some (Some e).
Proof.
  revert acc. induction l as [|item l IH]; intros acc H Hin; simpl in H.
  - injection H as <-. left. exact Hin.
  - destruct (clean_item round2 py_str item) as [o|] eqn:Ei; simpl in H; [|discriminate].
    destruct (IH _ H Hin) as [Hacc|[it [Hit Hc]]].
    + destruct o as [c|].
      * apply in_app_or in Hacc. destruct Hacc as [Hacc|[<-|[]]]; [left; exact Hacc|].
        right. exists item. split; [left; reflexivity|exact Ei].
      * left. exact Hacc.
    + right. exists it. split; [right; exact Hit|exact Hc].
Qed.

(** The verdict and confidence that the stance-detection item [d] should
    give, by cases on its [finalPrediction]: absent or [None] gives
    [Uncertain]; a value equal to [0] gives [Incorrect] with
    [round((1 - s) * 100, 2)]; any other value gives [Correct] with
    [round(s * 100, 2)]; [s] is the number of [finalScore], [0] when
    that is absent, [None] or falsy. *)
Definition verdict_mapping (round2 : Q -> Q) (d : list (pystr * pyval)) (e : cleaned) : Prop :=
  let fp := match Py.dict_get d (lit "finalPrediction") with Some v => v | None => PNone end in
  let fs := match Py.dict_get d (lit "finalScore") with Some v => v | None => PNone end in
  exists x : Q,
    Py.num (if Py.truthy fs then fs else PNum 0) = Some x
    /\ ((fp = PNone /\ entry_verdict e = lit "Uncertain" /\ entry_confidence e = round2 (x * 100)%Q)
        \/ (fp <> PNone /\ Py.eq_zero fp = true
            /\ entry_verdict e = lit "Incorrect" /\ entry_confidence e = round2 ((1 - x) * 100)%Q)
        \/ (fp <> PNone /\ Py.eq_zero fp = false
            /\ entry_verdict e = lit "Correct" /\ entry_confidence e = round2 (x * 100)%Q)).

Lemma final_verdict_cases (fp : pyval) :
  (fp = PNone /\ final_verdict fp = lit "Uncertain")
  \/ (fp <> PNone /\ Py.eq_zero fp = true /\ final_verdict fp = lit "Incorrect")
  \/ (fp <> PNone /\ Py.eq_zero fp = false /\ final_verdict fp = lit "Correct").
Proof.
  unfold final_verdict. destruct fp; [left; split; reflexivity|..];
  right; cbn -[Py.eq_zero]; (destruct (Py.eq_zero _) eqn:E; [left|right]);
  (split; [discriminate|]); split; reflexivity.
Qed.

Ltac dstep H :=
  match type of H with
  | (if ?b then _ else _) = _ => destruct b eqn:?
  | mbind _ ?m = _ => destruct m eqn:?
  end; simpl in H; try discriminate.

Lemma clean_item_spec (round2 : Q -> Q) (py_str : pyval -> pystr) (item : pyval) (e : cleaned) :
  clean_item round2 py_str item = Some (Some e) ->
  exists d, item = PDict d /\ verdict_mapping round2 d e.
Proof.
  intros H. destruct item as [| | | | |d]; try (simpl in H; discriminate).
  exists d. split; [reflexivity|].
  unfold verdict_mapping.
  set (fp := match Py.dict_get d (lit "finalPrediction") with Some v => v | None => PNone end).
  set (fs := match Py.dict_get d (lit "finalScore") with Some v => v | None => PNone end).
  unfold clean_item, confidence in H. simpl in H. fold fp fs in H.
  assert (Hc : forall conf, confidence round2 (final_verdict fp) fs = Some conf ->
            exists x, Py.num (if Py.truthy fs then fs else PNum 0) = Some x
            /\ ((fp = PNone /\ final_verdict fp = lit "Uncertain" /\ conf = round2 (x * 100)%Q)
                \/ (fp <> PNone /\ Py.eq_zero fp = true
                    /\ final_verdict fp = lit "Incorrect" /\ conf = round2 ((1 - x) * 100)%Q)
                \/ (fp <> PNone /\ Py.eq_zero fp = false
                    /\ final_verdict fp = lit "Correct" /\ conf = round2 (x * 100)%Q))).
  { intros conf Hconf. unfold confidence in Hconf.
    destruct (Py.num (if Py.truthy fs then fs else PNum 0)) as [x|]; simpl in Hconf; [|discriminate].
    exists x. split; [reflexivity|].
    destruct (final_verdict_cases fp) as [[Hf Hv]|[[Hf [Hz Hv]]|[Hf [Hz Hv]]]];
      rewrite Hv in Hconf |- *; vm_compute pystr_eqb in Hconf; injection Hconf as <-.
    - left. auto.
    - right. left. auto.
    - right. right. auto. }
  repeat dstep H.
  all: fold (confidence round2 (final_verdict fp) fs) in Heqo2.
  all: destruct (Hc _ Heqo2) as [x [Hx Hcases]].
  all: injection H as <-; exists x; split; [exact Hx|]; simpl; exact Hcases.
Qed.

(** A supporting piece of evidence, the smallest that is kept. *)
Definition supporting_evidence : pyval :=
  PDict [(lit "labelDescription", PStr (lit "SUPPORTS"))].

(** A stance-detection item with [finalPrediction] [0] and [finalScore] [0.25]. *)
Definition item_incorrect : pyval :=
  PDict [ (lit "evidence", PList [supporting_evidence])
        ; (lit "finalPrediction", PNum 0)
        ; (lit "finalScore", PNum (1 # 4)) ].

(** A stance-detection item whose [finalPrediction] is present and [None]. *)
Definition item_null_prediction : pyval :=
  PDict [ (lit "evidence", PList [supporting_evidence])
        ; (lit "finalPrediction", PNone)
        ; (lit "finalScore", PNum (9 # 10)) ].

(** A stance-detection record: no [text] key, the item is the record itself. *)
Definition stance_record : pyval :=
  PDict [ (lit "collection", PStr (lit "stance_detection"))
        ; (lit "evidence", PList [supporting_evidence]) ].

(** The response of the fact-check service: the items under [text]. *)
Definition batch (item : pyval) : pyval := PDict [(lit "text", PList [item])].

Definition no_entry : cleaned := CStrict PNone [] 0 [] [].

Definition id_round (q : Q) : Q := q.
Definition empty_str (v : pyval) : pystr := [].

(** C9: [clean_facts] returns a list on every input; it is the empty list
    for [None], when the body raises, and for a dict that is not a
    stance-detection record (its [collection] is not
    [stance_detection]) whose [text] is missing or [None]; a
    stance-detection record is cleaned as its own single item, with or
    without a [text] key. *)
Theorem clean_facts_empty_cases (round2 : Q -> Q) (py_str : pyval -> pystr) (json_data : pyval) :
  (json_data = PNone -> clean_facts round2 py_str json_data = [])
  /\ (clean_facts_body round2 py_str json_data = None -> clean_facts round2 py_str json_data = [])
  /\ (forall d, json_data = PDict d ->
        Py.dict_get d (lit "collection") <> Some (PStr (lit "stance_detection")) ->
        (Py.dict_get d (lit "text") = None \/ Py.dict_get d (lit "text") = Some PNone) ->
        clean_facts round2 py_str json_data = [])
  /\ (forall d, json_data = PDict d ->
        Py.dict_get d (lit "collection") = Some (PStr (lit "stance_detection")) ->
        clean_facts round2 py_str json_data =
          match clean_item round2 py_str (PDict d) with
          | Some (Some c) => [c]
          | _ => []
          end).
Proof.
  split; [intros ->; reflexivity|]. split; [|split].
  3: { intros d -> Hc.
       assert (Hi : items_to_process (PDict d) = Some [PDict d]).
       { unfold items_to_process. simpl. rewrite Hc. reflexivity. }
       unfold clean_facts, clean_facts_body. rewrite Hi. cbn [clean_items mbind option_bind].
       destruct (clean_item round2 py_str (PDict d)) as [[c|]|]; reflexivity. }
  - intros H. unfold clean_facts. rewrite H. destruct json_data; reflexivity.
  - intros d -> Hc Ht. unfold clean_facts, clean_facts_body, items_to_process. simpl.
    destruct (Py.dict_get d (lit "collection")) as [c|] eqn:Ec; simpl.
    + destruct (Py.is_str c (lit "stance_detection")) eqn:Es.
      * apply is_str_true in Es. subst. contradiction.
      * simpl. destruct Ht as [-> | ->]; reflexivity.
    + destruct Ht as [-> | ->]; reflexivity.
Qed.

(** C9, counterexample: a stance-detection record has no [text] key, yet
    [clean_facts] does not return the empty list for it: the record is
    cleaned as the one item. *)
Lemma clean_facts_stance_without_text :
  Py.get stance_record (lit "text") PNone = Some PNone
  /\ clean_facts id_round empty_str stance_record <> [].
Proof. split; [reflexivity|]. vm_compute. discriminate. Qed.

(** C10: every entry of [clean_facts] comes from a stance-detection item,
    a dict [d] among the items processed, and its verdict and confidence
    follow [verdict_mapping]: [finalPrediction] absent or [None] gives
    [Uncertain], a value equal to [0] gives [Incorrect] with
    [round((1 - s) * 100, 2)], any other value [Correct] with
    [round(s * 100, 2)], where [s] is [finalScore], taken as [0] when it
    is absent or [None]. *)
Theorem clean_facts_verdict (round2 : Q -> Q) (py_str : pyval -> pystr) (json_data : pyval)
    (e : cleaned) :
  In e (clean_facts round2 py_str json_data) ->
  exists items d, items_to_process json_data = Some items /\ In (PDict d) items
    /\ verdict_mapping round2 d e.
Proof.
  unfold clean_facts. intros Hin.
  destruct json_data; try contradiction;
  (unfold clean_facts_body in Hin;
   destruct (items_to_process _) as [items|] eqn:Ei; simpl in Hin; [|contradiction];
   destruct (clean_items round2 py_str items []) as [r|] eqn:Er; [|contradiction];
   destruct (clean_items_in round2 py_str items [] r e Er Hin) as [[]|[item [Hit Hc]]];
   destruct (clean_item_spec round2 py_str item e Hc) as [d0 [-> Hd]];
   exists items, d0; split; [reflexivity|]; split; [exact Hit|exact Hd]).
Qed.

(** C10, witness: the item with [finalPrediction] [0] gives an entry,
    [Incorrect] with the confidence of [1 - 0.25]. *)
Lemma clean_facts_verdict_witness :
  In (hd no_entry (clean_facts id_round empty_str (batch item_incorrect)))
     (clean_facts id_round empty_str (batch item_incorrect))
  /\ exists items d, items_to_process (batch item_incorrect) = Some items /\ In (PDict d) items
       /\ verdict_mapping id_round d (hd no_entry (clean_facts id_round empty_str (batch item_incorrect))).
Proof.
  split.
  - vm_compute. left. reflexivity.
  - apply (clean_facts_verdict id_round empty_str (batch item_incorrect)). vm_compute. left. reflexivity.
Defined.

(** C10, counterexample: [finalPrediction] present and [None] is not equal
    to [0], yet the verdict is [Uncertain], not [Correct]. *)
Lemma clean_facts_null_prediction :
  Py.get item_null_prediction (lit "finalPrediction") (PStr (lit "absent")) = Some PNone
  /\ Py.eq_zero PNone = false
  /\ map entry_verdict (clean_facts id_round empty_str (batch item_null_prediction)) = [lit "Uncertain"].
Proof. split; [reflexivity|]. split; [reflexivity|]. vm_compute. reflexivity. Qed.

End CleanerSpec.

(** ** [detect_intent] *)

Module IntentSpec.

Section WithServices.

Variable get_prompt : pystr -> pystr -> pystr -> pystr.
Variable generate : pystr -> pystr -> option pystr.
Variable json_loads : pystr -> option pyval.

(** C4: when the reply of the generator is not JSON, neither revision
    raises: [src/intent/utils.py] returns the fallback of intent type
    [fact_check] (confidence 0.7), while [src/core/utils/intent.py], the
    one the dispatcher of [src/core/handlers/handlers.py] calls, returns
    the fallback of intent type [general]. *)
Theorem detect_intent_unparseable (message_text context intent_response : pystr) :
  generate (get_prompt (lit "intent_detection") message_text context) message_text
    = Some intent_response ->
  json_loads intent_response = None ->
  Intent.detect_intent get_prompt generate json_loads message_text context
    = Some Intent.intent_fallback_fact_check
  /\ Intent.detect_intent_core get_prompt generate json_loads message_text context
    = Some Intent.intent_fallback_general.
Proof.
  intros Hg Hj. unfold Intent.detect_intent, Intent.detect_intent_core.
  rewrite Hg. simpl. rewrite Hj. split; reflexivity.
Qed.

End WithServices.

Definition key_prompt (key message_text context : pystr) : pystr := key.
Definition reply_not_json (prompt text : pystr) : option pystr := Some (lit "not json").

(** C4, witness: the reply [not json] of the generator. *)
Lemma detect_intent_unparseable_witness :
  reply_not_json (key_prompt (lit "intent_detection") (lit "hello") []) (lit "hello")
    = Some (lit "not json")
  /\ Json.json_loads (lit "not json") = None
  /\ Intent.detect_intent key_prompt reply_not_json Json.json_loads (lit "hello") []
       = Some Intent.intent_fallback_fact_check
  /\ Intent.detect_intent_core key_prompt reply_not_json Json.json_loads (lit "hello") []
       = Some Intent.intent_fallback_general.
Proof.
  split; [reflexivity|]. split; [vm_compute; reflexivity|].
  apply (detect_intent_unparseable key_prompt reply_not_json Json.json_loads
           (lit "hello") [] (lit "not json")); [reflexivity|vm_compute; reflexivity].
Defined.

(** C4, counterexample: with the reply [not json], the [detect_intent] of
    [src/core/utils/intent.py] returns an intent of type [general], not
    [fact_check]. *)
Lemma detect_intent_core_not_json :
  exists intent_data,
    Intent.detect_intent_core key_prompt reply_not_json Json.json_loads (lit "hello") []
      = Some intent_data
    /\ Py.get intent_data (lit "intent_type") PNone = Some (PStr (lit "general"))
    /\ Py.is_str (PStr (lit "general")) (lit "fact_check") = false.
Proof.
  eexists. split; [vm_compute; reflexivity|]. split; vm_compute; reflexivity.
Qed.

End IntentSpec.

(** ** The dispatcher *)

Module DispatchSpec.

Section WithServices.

Variable get_prompt : pystr -> pystr -> pystr -> pystr.
Variable generate : pystr -> pystr -> option pystr.
Variable json_loads : pystr -> option pyval.
Variable fact_check : pystr -> option pyval.
Variable stance_detection : pyval -> option pyval.
Variable detect_claims : pystr -> option (list pystr).
Variable rand_index : nat -> nat -> nat.
Variable round2 : Q -> Q.
Variable py_str : pyval -> pystr.
Variable dict_body : Cleaner.cleaned -> pystr.

Local Abbreviation clean_facts := (Dispatch.clean_facts round2 py_str).
Local Abbreviation evidence_repr := (Dispatch.evidence_repr dict_body).

(** The text one stance-detection result adds to the evidence: nothing
    for a call that raised. *)
Definition result_text (result : option pyval) : pystr :=
  match result with
  | Some fact_results => evidence_repr (clean_facts fact_results) ++ Dispatch.newline
  | None => []
  end.

Lemma gathered_evidence_concat (results : list (option pyval)) (acc : pystr) :
  Dispatch.gathered_evidence round2 py_str dict_body results acc
  = acc ++ concat (map result_text results).
Proof.
  revert acc. induction results as [|[r|] results IH]; intros acc; simpl.
  - rewrite app_nil_r. reflexivity.
  - rewrite IH, <- app_assoc. reflexivity.
  - rewrite IH. reflexivity.
Qed.

Lemma evidence_loop_v1_concat (dumps_clean : pyval -> option pystr) (claims : list pystr)
    (acc : pystr) :
  Dispatch.evidence_loop_v1 stance_detection dumps_clean claims acc
  = acc ++ concat (map (fun claim =>
                          match stance_detection (PStr claim) ≫= dumps_clean with
                          | Some evidence_text => evidence_text ++ Dispatch.newline
                          | None => []
                          end) claims).
Proof.
  revert acc. induction claims as [|c claims IH]; intros acc; simpl.
  - rewrite app_nil_r. reflexivity.
  - destruct (stance_detection (PStr c)) as [r|]; simpl; [destruct (dumps_clean r)|];
    rewrite IH; try rewrite <- app_assoc; reflexivity.
Qed.

(** C3: for any list of claims, [handle_fact_check_intent] returns (it is
    never aborted), and its evidence text is the concatenation, in the
    order of the claims, of the cleaned evidence of exactly the claims
    whose stance-detection call succeeded, each followed by a line break;
    a call that raised adds nothing. The per-claim loop of
    [src/intent/utils.py] does the same with the text of each claim whose
    call and serialisation succeeded. *)
Theorem fact_check_partial_failure (message_text context : pystr) (claims : list pyval)
    (dumps_clean : pyval -> option pystr) (claim_texts : list pystr) :
  Dispatch.handle_fact_check_intent get_prompt fact_check stance_detection round2 py_str dict_body
    message_text context (PList claims) []
  = Some (get_prompt (lit "fact_check") message_text context,
          concat (map (fun claim => result_text (stance_detection claim)) claims))
  /\ Dispatch.evidence_loop_v1 stance_detection dumps_clean claim_texts []
     = concat (map (fun claim =>
                      match stance_detection (PStr claim) ≫= dumps_clean with
                      | Some evidence_text => evidence_text ++ Dispatch.newline
                      | None => []
                      end) claim_texts).
Proof.
  split.
  - transitivity (Some (get_prompt (lit "fact_check") message_text context,
                         Dispatch.gathered_evidence round2 py_str dict_body
                           (map stance_detection claims) [])).
    + unfold Dispatch.handle_fact_check_intent. destruct claims; reflexivity.
    + rewrite gathered_evidence_concat, map_map. reflexivity.
  - rewrite evidence_loop_v1_concat. reflexivity.
Qed.

Lemma url_evidence_empty (urls : list pystr) (acc : pystr) :
  Forall (fun u => exists fact_results, fact_check u = Some fact_results
                                        /\ clean_facts fact_results = []) urls ->
  Dispatch.url_evidence fact_check round2 py_str dict_body urls acc
  = Some (acc ++ concat (repeat (lit "[]" ++ Dispatch.newline) (length urls))).
Proof.
  revert acc. induction urls as [|u r IH]; intros acc Hf.
  - rewrite app_nil_r. reflexivity.
  - inversion Hf as [|? ? [fr [Hu Hc]] Hr]; subst.
    cbn [Dispatch.url_evidence mbind option_bind]. rewrite Hu.
    cbn [mbind option_bind]. rewrite (IH _ Hr), Hc, <- app_assoc. reflexivity.
Qed.

Lemma repeat_snoc {A} (a : A) (n : nat) : repeat a (S n) = repeat a n ++ [a].
Proof. induction n as [|n IH]; [reflexivity|]. cbn [repeat app] in *. f_equal. exact IH. Qed.

(** [("[]\n" * (m + 1)).strip()] drops the last line break only. *)
Lemma strip_empty_lines (m : nat) :
  py_strip (concat (repeat (lit "[]" ++ Dispatch.newline) (S m)))
  = concat (repeat (lit "[]" ++ Dispatch.newline) m) ++ lit "[]".
Proof.
  change (lit "[]" ++ Dispatch.newline) with [91%N; 93%N; 10%N].
  change (lit "[]") with [91%N; 93%N].
  set (c := concat (repeat [91%N; 93%N; 10%N] m)).
  assert (H1 : concat (repeat [91%N; 93%N; 10%N] (S m)) = 91%N :: 93%N :: 10%N :: c)
    by reflexivity.
  assert (H2 : concat (repeat [91%N; 93%N; 10%N] (S m)) = c ++ [91%N; 93%N; 10%N])
    by (rewrite repeat_snoc, concat_app; cbn [concat]; rewrite app_nil_r; reflexivity).
  assert (Hd1 : forall r, drop_space (91%N :: r) = 91%N :: r) by reflexivity.
  assert (Hd2 : forall r, drop_space (10%N :: 93%N :: r) = 93%N :: r) by reflexivity.
  unfold py_strip. rewrite H1, Hd1, <- H1, H2, rev_app_distr.
  change (rev [91%N; 93%N; 10%N]) with [10%N; 93%N; 91%N]. cbn [app].
  rewrite Hd2.
  replace (93%N :: 91%N :: rev c) with (rev (c ++ [91%N; 93%N]))
    by (rewrite rev_app_distr; reflexivity).
  apply rev_involutive.
Qed.

(** C5: a message whose URLs (one or more matches of the pattern) all
    get fact-check results that clean to the empty list. With one URL the
    evidence [[]\n] strips to [[]] and the dispatcher takes the suggestion
    path, returning the result of [handle_claim_suggestions]. With [k >= 2]
    URLs the evidence is [k] lines [[]] and does not strip to [[]]: the
    dispatcher asks the generator with that evidence and returns its text
    (the apology when the generator fails), not suggestions. *)
Theorem url_empty_evidence_outcome (message_text context : pystr) (urls : list pystr) :
  urls <> [] ->
  Dispatch.findall_urls message_text = urls ->
  Forall (fun u => exists fact_results, fact_check u = Some fact_results
                                        /\ clean_facts fact_results = []) urls ->
  Dispatch.handle_message_with_intent get_prompt generate json_loads fact_check stance_detection
    detect_claims rand_index round2 py_str dict_body message_text context
  = Some (if length urls =? 1 then
            let '(buttons, btn_id_to_claim, response) :=
              Dispatch.handle_claim_suggestions get_prompt generate rand_index message_text context in
            Dispatch.OSuggest buttons btn_id_to_claim response
          else
            match generate (get_prompt (lit "fact_check") message_text context)
                    (concat (repeat (lit "[]" ++ Dispatch.newline) (length urls))) with
            | Some response => Dispatch.OText response
            | None => Dispatch.OText temp_issue
            end).
Proof.
  intros Hne Hu Hf. unfold Dispatch.handle_message_with_intent. rewrite Hu.
  destruct urls as [|u0 r0]; [contradiction|]. cbv iota beta.
  unfold Dispatch.fact_check_branch, Dispatch.handle_fact_check_intent.
  rewrite (url_evidence_empty _ [] Hf). cbn [mbind option_bind Py.truthy app].
  cbn [length]. rewrite strip_empty_lines.
  destruct r0 as [|u1 r1].
  - cbn [repeat concat length Nat.eqb app]. unfold pystr_eqb. rewrite bool_decide_eq_true_2 by reflexivity. reflexivity.
  - cbn [length Nat.eqb].
    replace (pystr_eqb (concat (repeat (lit "[]" ++ Dispatch.newline) (length (u1 :: r1)))
                        ++ lit "[]") (lit "[]")) with false.
    + reflexivity.
    + symmetry. unfold pystr_eqb. apply bool_decide_eq_false_2. intros He.
      apply (f_equal (@length N)) in He. rewrite length_app in He.
      cbn [length repeat concat] in He. rewrite length_app in He.
      change (length (lit "[]" ++ Dispatch.newline)) with 3 in He.
      change (length (lit "[]")) with 2 in He. lia.
Qed.

End WithServices.

Definition reply_claims (prompt text : pystr) : option pystr := Some (lit "Claim 1: A").
Definition reply_ok (prompt text : pystr) : option pystr := Some (lit "ok").
Definition fact_check_none (url : pystr) : option pyval := Some PNone.
Definition stance_raises (claim : pyval) : option pyval := None.
Definition detect_claims_raises (text : pystr) : option (list pystr) := None.
Definition rand_seq (idx p : nat) : nat := idx + p.
Definition body_empty (c : Cleaner.cleaned) : pystr := [].

(** C5, witness: [see http://a] holds one URL and takes the suggestion
    path; [http://a http://b] holds two and gets the generated text; each
    fact-check result is [None], which cleans to the empty list. *)
Lemma url_empty_evidence_outcome_witness :
  Dispatch.handle_message_with_intent IntentSpec.key_prompt reply_claims Json.json_loads
    fact_check_none stance_raises detect_claims_raises rand_seq CleanerSpec.id_round
    CleanerSpec.empty_str body_empty (lit "see http://a") []
  = Some (let '(buttons, btn_id_to_claim, response) :=
            Dispatch.handle_claim_suggestions IntentSpec.key_prompt reply_claims rand_seq
              (lit "see http://a") [] in
          Dispatch.OSuggest buttons btn_id_to_claim response)
  /\ Dispatch.handle_message_with_intent IntentSpec.key_prompt reply_ok Json.json_loads
       fact_check_none stance_raises detect_claims_raises rand_seq CleanerSpec.id_round
       CleanerSpec.empty_str body_empty (lit "http://a http://b") []
     = Some (Dispatch.OText (lit "ok")).
Proof.
  split.
  - rewrite (url_empty_evidence_outcome IntentSpec.key_prompt reply_claims Json.json_loads
               fact_check_none stance_raises detect_claims_raises rand_seq CleanerSpec.id_round
               CleanerSpec.empty_str body_empty (lit "see http://a") [] [lit "http://a"]).
    + reflexivity.
    + discriminate.
    + vm_compute. reflexivity.
    + repeat constructor. exists PNone. split; reflexivity.
  - rewrite (url_empty_evidence_outcome IntentSpec.key_prompt reply_ok Json.json_loads
               fact_check_none stance_raises detect_claims_raises rand_seq CleanerSpec.id_round
               CleanerSpec.empty_str body_empty (lit "http://a http://b") []
               [lit "http://a"; lit "http://b"]).
    + vm_compute. reflexivity.
    + discriminate.
    + vm_compute. reflexivity.
    + repeat constructor; exists PNone; split; reflexivity.
Defined.

(** C5, counterexample: [http://a http://b] holds two URLs whose
    fact-check results both clean to the empty list; the evidence text is
    two empty lists, which is not [[]] after [strip], so the dispatcher
    does not take the suggestion path: it returns the generated text. *)
Lemma two_urls_empty_evidence :
  Dispatch.findall_urls (lit "http://a http://b") = [lit "http://a"; lit "http://b"]
  /\ Dispatch.clean_facts CleanerSpec.id_round CleanerSpec.empty_str PNone = []
  /\ Dispatch.handle_message_with_intent IntentSpec.key_prompt reply_ok Json.json_loads
       fact_check_none stance_raises detect_claims_raises rand_seq CleanerSpec.id_round
       CleanerSpec.empty_str body_empty (lit "http://a http://b") []
     = Some (Dispatch.OText (lit "ok")).
Proof. split; [vm_compute; reflexivity|]. split; [reflexivity|]. vm_compute. reflexivity. Qed.

End DispatchSpec.

(** ** The suggestion path of [process_message_response] *)

Module ProcessorsSpec.

Import Processors.

Definition insert_pairs (t : gmap pystr pystr) (l : list (pystr * pystr)) : gmap pystr pystr :=
  fold_left (fun t p => <[fst p := snd p]> t) l t.

Lemma insert_pairs_other (l : list (pystr * pystr)) (t : gmap pystr pystr) (k : pystr) :
  ~ In k (map fst l) -> insert_pairs t l !! k = t !! k.
Proof.
  unfold insert_pairs. revert t.
  induction l as [|[k' v'] l IH]; intros t Hn; simpl in *; [reflexivity|].
  rewrite IH by tauto. rewrite lookup_insert_ne; [reflexivity|]. intros ->. tauto.
Qed.

Lemma insert_pairs_in (l : list (pystr * pystr)) (t : gmap pystr pystr) (k v : pystr) :
  NoDup (map fst l) -> In (k, v) l -> insert_pairs t l !! k = Some v.
Proof.
  unfold insert_pairs. revert t.
  induction l as [|[k' v'] l IH]; intros t Hnd Hin; simpl in *; [contradiction|].
  inversion Hnd as [|? ? Hnot Hnd']; subst.
  destruct Hin as [Heq|Hin].
  - injection Heq as -> ->. fold (insert_pairs (<[k := v]> t) l).
    rewrite insert_pairs_other by (intros Hi; apply Hnot, list_elem_of_In, Hi).
    apply lookup_insert_eq.
  - apply IH; assumption.
Qed.

Lemma map_fst_combine {A B} (ks : list A) (vs : list B) :
  length ks = length vs -> map fst (combine ks vs) = ks.
Proof.
  revert vs. induction ks as [|k ks IH]; intros [|v vs] H; simpl in *; try discriminate; [reflexivity|].
  rewrite IH by lia. reflexivity.
Qed.

Lemma dict_set_fresh {A} (d : list (pystr * A)) (k : pystr) (v : A) :
  ~ In k (map fst d) -> dict_set d k v = d ++ [(k, v)].
Proof.
  induction d as [|[k' v'] d IH]; intros Hn; simpl in *; [reflexivity|].
  unfold pystr_eqb. case_bool_decide as E; [subst; tauto|].
  rewrite IH by tauto. reflexivity.
Qed.

Lemma dict_set_fold_fresh {A} (ks : list pystr) (vs : list A) (d : list (pystr * A)) :
  NoDup (map fst d ++ ks) ->
  fold_left (fun d p => dict_set d (fst p) (snd p)) (combine ks vs) d = d ++ combine ks vs.
Proof.
  revert vs d. induction ks as [|k ks IH]; intros [|v vs] d Hnd; simpl;
    try (rewrite app_nil_r; reflexivity).
  pose proof Hnd as Hnd0.
  apply NoDup_app in Hnd. destruct Hnd as [Hd [Hdis Hks]].
  rewrite dict_set_fresh.
  - rewrite IH.
    + rewrite <- app_assoc. reflexivity.
    + rewrite map_app, <- app_assoc. exact Hnd0.
  - intros Hin. apply (Hdis k); apply list_elem_of_In; [exact Hin|left; reflexivity].
Qed.

Lemma insert_pairs_insert (r : list (pystr * pystr)) (t : gmap pystr pystr) (k w : pystr) :
  ~ In k (map fst r) -> insert_pairs (<[k := w]> t) r = <[k := w]> (insert_pairs t r).
Proof.
  unfold insert_pairs. revert t.
  induction r as [|[k' v'] r IH]; intros t Hn; simpl in *; [reflexivity|].
  rewrite insert_insert_ne by (intros ->; tauto). apply IH. tauto.
Qed.

Lemma dict_set_keys (d : list (pystr * pystr)) (k v x : pystr) :
  In x (map fst (dict_set d k v)) -> x = k \/ In x (map fst d).
Proof.
  induction d as [|[k' v'] d IH]; simpl; [intros [->|[]]; left; reflexivity|].
  destruct (pystr_eqb k k'); simpl; [tauto|]. intros [->|Hx]; [tauto|].
  destruct (IH Hx); tauto.
Qed.

Lemma dict_set_nodup (d : list (pystr * pystr)) (k v : pystr) :
  NoDup (map fst d) -> NoDup (map fst (dict_set d k v)).
Proof.
  induction d as [|[k' v'] d IH]; simpl; intros Hnd; [repeat constructor; set_solver|].
  inversion Hnd as [|? ? Hnot Hnd']; subst.
  unfold pystr_eqb. case_bool_decide as E; simpl; [exact Hnd|].
  constructor; [|exact (IH Hnd')].
  intros Hin. apply list_elem_of_In, dict_set_keys in Hin.
  destruct Hin as [->|Hin]; [exact (E eq_refl)|apply Hnot, list_elem_of_In, Hin].
Qed.

(** Writing the dict into the table is inserting its pairs in order. *)
Lemma insert_pairs_dict_set (d : list (pystr * pystr)) (t : gmap pystr pystr) (k v : pystr) :
  NoDup (map fst d) ->
  insert_pairs t (dict_set d k v) = <[k := v]> (insert_pairs t d).
Proof.
  revert t. induction d as [|[k' v'] d IH]; intros t Hnd; [reflexivity|].
  inversion Hnd as [|? ? Hnot Hnd']; subst. simpl.
  unfold pystr_eqb. case_bool_decide as E.
  - subst k'. unfold insert_pairs at 1 2. simpl. fold (insert_pairs (<[k := v]> t) d).
    fold (insert_pairs (<[k := v']> t) d).
    assert (Hk : ~ In k (map fst d)) by (intros Hi; apply Hnot, list_elem_of_In, Hi).
    rewrite !insert_pairs_insert by exact Hk. rewrite insert_insert_eq. reflexivity.
  - unfold insert_pairs at 1 2. simpl.
    fold (insert_pairs (<[k' := v']> t) (dict_set d k v)).
    fold (insert_pairs (<[k' := v']> t) d).
    apply IH. exact Hnd'.
Qed.

Lemma insert_pairs_fold_dict_set (ps d : list (pystr * pystr)) (t : gmap pystr pystr) :
  NoDup (map fst d) ->
  insert_pairs t (fold_left (fun d p => dict_set d (fst p) (snd p)) ps d)
  = insert_pairs (insert_pairs t d) ps.
Proof.
  revert d. induction ps as [|[k v] ps IH]; intros d Hnd; simpl; [reflexivity|].
  rewrite IH by (apply dict_set_nodup, Hnd).
  rewrite insert_pairs_dict_set by exact Hnd. reflexivity.
Qed.

(** The last write of a key wins. *)
Lemma insert_pairs_last (l1 l2 : list (pystr * pystr)) (t : gmap pystr pystr) (k v : pystr) :
  ~ In k (map fst l2) -> insert_pairs t (l1 ++ (k, v) :: l2) !! k = Some v.
Proof.
  intros Hn. unfold insert_pairs. rewrite fold_left_app. simpl.
  fold (insert_pairs (<[k := v]> (fold_left (fun t p => <[fst p := snd p]> t) l1 t)) l2).
  rewrite insert_pairs_other by exact Hn. apply lookup_insert_eq.
Qed.

(** The effects of [post]: the send is logged; the button table is kept. *)
Lemma post_run (platform_reply : sent -> option (option pystr)) (m : sent) (response : pystr)
    (st : state) :
  trace (fst (post platform_reply m response st)) = trace st ++ [ASend m]
  /\ button_id_to_claim (fst (post platform_reply m response st)) = button_id_to_claim st.
Proof.
  unfold post. destruct (platform_reply m) as [[id|]|]; split; reflexivity.
Qed.

(** What [process_tracked_message] may log for the buttons [buttons]. *)
Definition sent_ok (buttons : list Dispatch.button) (a : action) : Prop :=
  match a with
  | ASend (SButtons _ _ bs) => buttons <> [] /\ bs = formatted (firstn 3 buttons)
  | ASend _ => True
  | ASetButton _ _ => False
  end.

Lemma process_tracked_message_run convert_markdown_to_html platform_reply
    (user_id response : pystr) (buttons : list Dispatch.button) (platform : pystr)
    (add_rating : bool) (st : state) :
  exists rest,
    trace (fst (process_tracked_message convert_markdown_to_html platform_reply
                  user_id response buttons platform add_rating st)) = trace st ++ rest
    /\ Forall (sent_ok buttons) rest
    /\ button_id_to_claim (fst (process_tracked_message convert_markdown_to_html platform_reply
                  user_id response buttons platform add_rating st)) = button_id_to_claim st.
Proof.
  unfold process_tracked_message, bind, append_context.
  destruct (Context.append_line (message_context st) user_id _) as [ctx|].
  2: { exists []. rewrite app_nil_r. split; [reflexivity|]. split; [constructor|reflexivity]. }
  set (st1 := {| button_id_to_claim := button_id_to_claim st; message_context := ctx;
                 message_id_to_bot_message := message_id_to_bot_message st;
                 trace := trace st |}).
  change (button_id_to_claim st) with (button_id_to_claim st1).
  change (trace st) with (trace st1).
  destruct (_ || _).
  - destruct buttons as [|b bs];
      [destruct add_rating|];
      match goal with
      | |- context [post platform_reply ?m ?r st1] =>
          destruct (post_run platform_reply m r st1) as [Ht Hb];
          exists [ASend m]; rewrite Ht, Hb; split; [reflexivity|];
          split; [constructor; [simpl; first [exact I | split; [discriminate|reflexivity]]
                               |constructor]
                 |reflexivity]
      end.
  - exists []. rewrite app_nil_r. split; [reflexivity|]. split; [constructor|reflexivity].
Qed.

Lemma set_buttons_run (l : list (pystr * pystr)) (st : state) :
  set_buttons l st =
    ({| button_id_to_claim := insert_pairs (button_id_to_claim st) l;
        message_context := message_context st;
        message_id_to_bot_message := message_id_to_bot_message st;
        trace := trace st ++ map (fun p => ASetButton (fst p) (snd p)) l |}, Some tt).
Proof.
  revert st. induction l as [|[k v] l IH]; intros st; simpl.
  - unfold ret. rewrite app_nil_r. destruct st; reflexivity.
  - unfold bind, set_button, modify. rewrite IH. simpl. rewrite <- app_assoc. reflexivity.
Qed.

Section WithServices.

Variable get_prompt : pystr -> pystr -> pystr -> pystr.
Variable generate : pystr -> pystr -> option pystr.
Variable json_loads : pystr -> option pyval.
Variable fact_check : pystr -> option pyval.
Variable stance_detection : pyval -> option pyval.
Variable detect_claims : pystr -> option (list pystr).
Variable rand_index : nat -> nat -> nat.
Variable round2 : Q -> Q.
Variable py_str : pyval -> pystr.
Variable dict_body : Cleaner.cleaned -> pystr.
Variable convert_markdown_to_html : pystr -> pystr.
Variable platform_reply : sent -> option (option pystr).

Local Abbreviation handle_message_with_intent :=
  (Dispatch.handle_message_with_intent get_prompt generate json_loads fact_check stance_detection
     detect_claims rand_index round2 py_str dict_body).
Local Abbreviation handle_claim_suggestions :=
  (Dispatch.handle_claim_suggestions get_prompt generate rand_index).
Local Abbreviation random_id := (Dispatch.random_id rand_index).

Lemma fact_check_branch_suggest message_text context claims urls buttons btn_id_to_claim response :
  Dispatch.fact_check_branch get_prompt generate fact_check stance_detection rand_index round2
    py_str dict_body message_text context claims urls
  = Dispatch.OSuggest buttons btn_id_to_claim response ->
  handle_claim_suggestions message_text context = (buttons, btn_id_to_claim, response).
Proof.
  unfold Dispatch.fact_check_branch.
  destruct (Dispatch.handle_fact_check_intent _ _ _ _ _ _ _ _ _ _) as [[prompt ev]|];
    [|discriminate].
  destruct (pystr_eqb _ _).
  - destruct (handle_claim_suggestions message_text context) as [[b m] r].
    intros H. injection H as -> -> ->. reflexivity.
  - destruct (generate prompt ev); discriminate.
Qed.

Lemma handle_message_suggest message_text context buttons btn_id_to_claim response :
  handle_message_with_intent message_text context
  = Some (Dispatch.OSuggest buttons btn_id_to_claim response) ->
  handle_claim_suggestions message_text context = (buttons, btn_id_to_claim, response).
Proof.
  unfold Dispatch.handle_message_with_intent.
  destruct (Dispatch.findall_urls message_text) as [|u us].
  2: { intros H. injection H as H. exact (fact_check_branch_suggest _ _ _ _ _ _ _ H). }
  destruct (100 <=? _).
  - destruct (detect_claims message_text) as [[|c cs]|]; simpl; [|intros H|intros ?; discriminate].
    + destruct (Dispatch.handle_general_intent _ _ _ _); simpl; intros ?; discriminate.
    + injection H as H. exact (fact_check_branch_suggest _ _ _ _ _ _ _ H).
  - destruct (Intent.detect_intent_core _ _ _ _ _) as [intent_data|]; simpl; [|intros ?; discriminate].
    destruct (Py.get intent_data (lit "intent_type") PNone) as [intent_type|]; simpl; [|intros ?; discriminate].
    destruct (Py.get intent_data (lit "split_claims") PNone) as [split_claims|]; simpl; [|intros ?; discriminate].
    destruct (Py.is_str intent_type (lit "fact_check")).
    + intros H. injection H as H. exact (fact_check_branch_suggest _ _ _ _ _ _ _ H).
    + destruct (Py.is_str intent_type (lit "general")).
      * destruct (Dispatch.handle_general_intent _ _ _ _); intros ?; discriminate.
      * destruct (handle_claim_suggestions message_text context) as [[b m] r].
        intros H. injection H as -> -> ->. reflexivity.
Qed.

Lemma suggestion_buttons_eq (claims : list pystr) (idx : nat) (bs : list Dispatch.button)
    (m : list (pystr * pystr)) :
  Dispatch.suggestion_buttons rand_index idx claims bs m =
    (bs ++ map (fun i => {| Dispatch.btn_id := random_id i;
                            Dispatch.btn_title := lit "Claim " ++ Dispatch.dec i |})
              (seq idx (length claims)),
     fold_left (fun d p => dict_set d (fst p) (snd p))
       (combine (map random_id (seq idx (length claims))) claims) m).
Proof.
  revert idx bs m. induction claims as [|c claims IH]; intros idx bs m; simpl.
  - rewrite app_nil_r. reflexivity.
  - rewrite IH, <- app_assoc. reflexivity.
Qed.

Lemma random_id_ok (idx : nat) :
  length (random_id idx) = 5 /\ Forall (fun c => In c Dispatch.id_alphabet) (random_id idx).
Proof.
  unfold Dispatch.random_id. split.
  - rewrite length_map. reflexivity.
  - apply Forall_forall. intros c Hc. apply list_elem_of_In, in_map_iff in Hc. destruct Hc as [p [<- _]].
    apply nth_In. change (length Dispatch.id_alphabet) with 62.
    apply Nat.mod_upper_bound. discriminate.
Qed.

Lemma handle_claim_suggestions_ok message_text context buttons btn_id_to_claim response :
  handle_claim_suggestions message_text context = (buttons, btn_id_to_claim, response) ->
  length buttons = length (Dispatch.extract_claims response)
  /\ Forall (fun b => length (Dispatch.btn_id b) = 5
                      /\ Forall (fun c => In c Dispatch.id_alphabet) (Dispatch.btn_id b)) buttons
  /\ (NoDup (map Dispatch.btn_id buttons) ->
        btn_id_to_claim = combine (map Dispatch.btn_id buttons) (Dispatch.extract_claims response)).
Proof.
  unfold Dispatch.handle_claim_suggestions.
  destruct (generate _ _) as [r|].
  2: { intros H. injection H as <- <- <-. split; [reflexivity|]. split; [constructor|].
       intros _. reflexivity. }
  rewrite suggestion_buttons_eq. simpl. intros H. injection H as <- <- <-.
  rewrite length_map, length_seq. split; [reflexivity|]. split.
  - apply Forall_forall. intros b Hb. apply list_elem_of_In, in_map_iff in Hb. destruct Hb as [i [<- _]].
    apply random_id_ok.
  - rewrite map_map. simpl. intros Hnd.
    rewrite dict_set_fold_fresh by exact Hnd. reflexivity.
Qed.

Lemma handle_claim_suggestions_table (message_text context : pystr)
    (buttons : list Dispatch.button) (btn_id_to_claim : list (pystr * pystr)) (response : pystr)
    (t : gmap pystr pystr) :
  handle_claim_suggestions message_text context = (buttons, btn_id_to_claim, response) ->
  insert_pairs t btn_id_to_claim
  = insert_pairs t (combine (map Dispatch.btn_id buttons) (Dispatch.extract_claims response)).
Proof.
  unfold Dispatch.handle_claim_suggestions.
  destruct (generate _ _) as [r|].
  2: { intros H. injection H as <- <- <-. reflexivity. }
  rewrite suggestion_buttons_eq. simpl. intros H. injection H as <- <- <-.
  rewrite insert_pairs_fold_dict_set by constructor. rewrite map_map. reflexivity.
Qed.

(** C6: on the suggestion path, the state after [process_message_response]
    logs first one write of the Button-to-Claim table per pair of the
    suggestion dict, then only sends; a send of buttons carries the
    first three suggestions (at most 3 buttons). Each suggestion of the
    reply has a button whose id is 5 characters of letters and digits.
    When the ids drawn are pairwise distinct, the dict pairs each id with
    its suggestion and every pair is in the table at the sends. The sends
    do not change the table: it is the table before with the pairs of the
    dict written in order. When ids collide, the table maps an id to the
    claim of its last occurrence in the pairing of button ids with
    suggestions: only the later claim is recorded. *)
Theorem suggest_path (user_id message_text context platform : pystr) (st : state)
    (buttons : list Dispatch.button) (btn_id_to_claim : list (pystr * pystr)) (response : pystr) :
  handle_message_with_intent message_text context
  = Some (Dispatch.OSuggest buttons btn_id_to_claim response) ->
  let st' := fst (process_message_response get_prompt generate json_loads fact_check
                    stance_detection detect_claims rand_index round2 py_str dict_body
                    convert_markdown_to_html platform_reply user_id message_text context
                    platform st) in
  (exists rest,
     trace st' = trace st ++ map (fun p => ASetButton (fst p) (snd p)) btn_id_to_claim ++ rest
     /\ Forall (fun a => match a with
                         | ASend (SButtons _ _ bs) =>
                             length bs <= 3 /\ bs = formatted (firstn 3 buttons)
                         | ASend _ => True
                         | ASetButton _ _ => False
                         end) rest)
  /\ length buttons = length (Dispatch.extract_claims response)
  /\ Forall (fun b => length (Dispatch.btn_id b) = 5
                      /\ Forall (fun c => In c Dispatch.id_alphabet) (Dispatch.btn_id b)) buttons
  /\ (NoDup (map Dispatch.btn_id buttons) ->
        btn_id_to_claim = combine (map Dispatch.btn_id buttons) (Dispatch.extract_claims response)
        /\ forall id claim, In (id, claim) btn_id_to_claim ->
             button_id_to_claim st' !! id = Some claim)
  /\ button_id_to_claim st' = insert_pairs (button_id_to_claim st) btn_id_to_claim
  /\ (forall l1 id claim l2,
        combine (map Dispatch.btn_id buttons) (Dispatch.extract_claims response)
        = l1 ++ (id, claim) :: l2 ->
        ~ In id (map fst l2) ->
        button_id_to_claim st' !! id = Some claim).
Proof.
  intros H st'.
  pose proof (handle_message_suggest _ _ _ _ _ H) as Hs.
  destruct (handle_claim_suggestions_ok message_text context buttons btn_id_to_claim response
              Hs) as [Hlen [Hids Hnd]].
  assert (Htable : exists rest,
     trace st' = trace st ++ map (fun p => ASetButton (fst p) (snd p)) btn_id_to_claim ++ rest
     /\ Forall (sent_ok buttons) rest
     /\ button_id_to_claim st' = insert_pairs (button_id_to_claim st) btn_id_to_claim).
  { subst st'. unfold process_message_response. rewrite H.
    unfold catch, bind. rewrite set_buttons_run.
    set (st1 := {| button_id_to_claim := insert_pairs (button_id_to_claim st) btn_id_to_claim;
                   message_context := message_context st;
                   message_id_to_bot_message := message_id_to_bot_message st;
                   trace := trace st ++ map (fun p => ASetButton (fst p) (snd p)) btn_id_to_claim |}).
    destruct (process_tracked_message_run convert_markdown_to_html platform_reply user_id response
                buttons platform true st1) as [rest1 [Ht1 [Hf1 Hb1]]].
    destruct (process_tracked_message convert_markdown_to_html platform_reply user_id response
                buttons platform true st1) as [st2 [[]|]] eqn:E2; simpl in Ht1, Hb1;
      cbn [fst].
    - exists rest1. rewrite Ht1, <- app_assoc. split; [reflexivity|]. split; [exact Hf1|exact Hb1].
    - destruct (process_tracked_message_run convert_markdown_to_html platform_reply user_id
                  error_processing [] platform true st2) as [rest2 [Ht2 [Hf2 Hb2]]].
      exists (rest1 ++ rest2). rewrite Ht2, Ht1, <- !app_assoc. split; [reflexivity|].
      split; [|rewrite Hb2, Hb1; reflexivity].
      apply Forall_app. split; [exact Hf1|].
      eapply Forall_impl; [exact Hf2|]. intros a Ha.
      destruct a as [|[]]; simpl in *; try tauto; destruct Ha as [Hne _]; congruence. }
  destruct Htable as [rest [Ht [Hf Hb]]].
  split; [|split; [exact Hlen|split; [exact Hids|split; [|split; [exact Hb|]]]]].
  - exists rest. split; [exact Ht|].
    eapply Forall_impl; [exact Hf|]. intros a Ha.
    destruct a as [|[]]; simpl in *; try tauto.
    destruct Ha as [_ ->]. split; [|reflexivity].
    unfold formatted. rewrite length_map, length_firstn. lia.
  - intros Hn. specialize (Hnd Hn). split; [exact Hnd|].
    intros id claim Hin. rewrite Hb. apply insert_pairs_in; [|exact Hin].
    rewrite Hnd, map_fst_combine; [exact Hn|]. rewrite length_map. exact Hlen.
  - intros l1 id claim l2 Hc Hn. rewrite Hb.
    rewrite (handle_claim_suggestions_table _ _ _ _ _ _ Hs), Hc.
    apply insert_pairs_last. exact Hn.
Qed.

End WithServices.

(** A generator that classifies every message as an unknown intent
    (the reply [{}]) and proposes two claims to any other prompt. *)
Definition reply_suggest (prompt text : pystr) : option pystr :=
  if pystr_eqb prompt (lit "intent_detection") then Some (lit "{}")
  else Some (lit "Claim 1: A" ++ [10%N] ++ lit "Claim 2: B").

Definition rand_zero (idx p : nat) : nat := 0.
Definition identity_html (s : pystr) : pystr := s.
Definition reply_no_id (m : sent) : option (option pystr) := Some None.

Definition start_state : state :=
  {| button_id_to_claim := ∅; message_context := {[lit "u" := []]};
     message_id_to_bot_message := ∅; trace := [] |}.

Definition ex_suggestions : list Dispatch.button * list (pystr * pystr) * pystr :=
  Dispatch.handle_claim_suggestions IntentSpec.key_prompt reply_suggest DispatchSpec.rand_seq
    (lit "hello") [].

(** C6, witness: the message [hello] with ids drawn at distinct
    positions; both pairs are in the table. *)
Lemma suggest_path_witness :
  Dispatch.handle_message_with_intent IntentSpec.key_prompt reply_suggest Json.json_loads
    DispatchSpec.fact_check_none DispatchSpec.stance_raises DispatchSpec.detect_claims_raises
    DispatchSpec.rand_seq CleanerSpec.id_round CleanerSpec.empty_str DispatchSpec.body_empty
    (lit "hello") []
  = Some (Dispatch.OSuggest (fst (fst ex_suggestions)) (snd (fst ex_suggestions)) (snd ex_suggestions))
  /\ NoDup (map Dispatch.btn_id (fst (fst ex_suggestions)))
  /\ (forall id claim, In (id, claim) (snd (fst ex_suggestions)) ->
       button_id_to_claim
         (fst (process_message_response IntentSpec.key_prompt reply_suggest Json.json_loads
                 DispatchSpec.fact_check_none DispatchSpec.stance_raises
                 DispatchSpec.detect_claims_raises DispatchSpec.rand_seq CleanerSpec.id_round
                 CleanerSpec.empty_str DispatchSpec.body_empty identity_html reply_no_id
                 (lit "u") (lit "hello") [] (lit "whatsapp") start_state)) !! id = Some claim).
Proof.
  assert (Hh : Dispatch.handle_message_with_intent IntentSpec.key_prompt reply_suggest Json.json_loads
    DispatchSpec.fact_check_none DispatchSpec.stance_raises DispatchSpec.detect_claims_raises
    DispatchSpec.rand_seq CleanerSpec.id_round CleanerSpec.empty_str DispatchSpec.body_empty
    (lit "hello") []
    = Some (Dispatch.OSuggest (fst (fst ex_suggestions)) (snd (fst ex_suggestions))
                              (snd ex_suggestions))) by (vm_compute; reflexivity).
  assert (Hnd : NoDup (map Dispatch.btn_id (fst (fst ex_suggestions))))
    by (apply (bool_decide_unpack _); vm_compute; reflexivity).
  split; [exact Hh|]. split; [exact Hnd|].
  destruct (suggest_path IntentSpec.key_prompt reply_suggest Json.json_loads
              DispatchSpec.fact_check_none DispatchSpec.stance_raises
              DispatchSpec.detect_claims_raises DispatchSpec.rand_seq CleanerSpec.id_round
              CleanerSpec.empty_str DispatchSpec.body_empty identity_html reply_no_id
              (lit "u") (lit "hello") [] (lit "whatsapp") start_state
              _ _ _ Hh) as [_ [_ [_ [H4 _]]]].
  exact (proj2 (H4 Hnd)).
Defined.

(** C6, counterexample: when the two suggestions draw the same id (here
    every draw is position 0, the id [aaaaa]), the table maps that id to
    the second claim only: the pair of the first claim is not recorded. *)
Lemma suggest_ids_collide :
  exists buttons btn_id_to_claim response,
    Dispatch.handle_message_with_intent IntentSpec.key_prompt reply_suggest Json.json_loads
      DispatchSpec.fact_check_none DispatchSpec.stance_raises DispatchSpec.detect_claims_raises
      rand_zero CleanerSpec.id_round CleanerSpec.empty_str DispatchSpec.body_empty
      (lit "hello") []
    = Some (Dispatch.OSuggest buttons btn_id_to_claim response)
    /\ Dispatch.extract_claims response = [lit "A"; lit "B"]
    /\ map Dispatch.btn_id buttons = [lit "aaaaa"; lit "aaaaa"]
    /\ button_id_to_claim
         (fst (process_message_response IntentSpec.key_prompt reply_suggest Json.json_loads
                 DispatchSpec.fact_check_none DispatchSpec.stance_raises
                 DispatchSpec.detect_claims_raises rand_zero CleanerSpec.id_round
                 CleanerSpec.empty_str DispatchSpec.body_empty identity_html reply_no_id
                 (lit "u") (lit "hello") [] (lit "whatsapp") start_state)) !! lit "aaaaa"
       = Some (lit "B").
Proof.
  do 3 eexists. split; [vm_compute; reflexivity|].
  split; [vm_compute; reflexivity|]. split; vm_compute; reflexivity.
Qed.

End ProcessorsSpec.

Module TelegramSpec.

Import Telegram.

Definition key_of (b : Dispatch.button) : key :=
  {| key_text := Dispatch.btn_title b; key_callback_data := Dispatch.btn_id b |}.

(** The inline keyboard: no row for no button, otherwise one row with
    the first three buttons, in order. *)
Theorem inline_keyboard_one_row (buttons : list Dispatch.button) :
  inline_keyboard buttons =
    match buttons with
    | [] => []
    | _ => [map key_of (firstn 3 buttons)]
    end.
Proof.
  destruct buttons as [|b1 [|b2 [|b3 r]]]; reflexivity.
Qed.

(** The number of asterisks of a text. *)
Definition stars (l : pystr) : nat := length (List.filter (fun c => (c =? 42)%N) l).

Lemma stars_app (a b : pystr) : stars (a ++ b) = stars a + stars b.
Proof.
  unfold stars. induction a as [|c a IH]; simpl; [reflexivity|].
  destruct (c =? 42)%N; simpl; lia.
Qed.

Lemma split_lines_go_cur (s cur : pystr) :
  Dispatch.split_lines_go s cur =
    match Dispatch.split_lines_go s [] with
    | l :: ls => (rev cur ++ l) :: ls
    | [] => []
    end.
Proof.
  revert cur. induction s as [|c r IH]; intros cur; simpl.
  - rewrite app_nil_r. reflexivity.
  - destruct (c =? 10)%N.
    + rewrite app_nil_r. reflexivity.
    + rewrite (IH (c :: cur)), (IH [c]).
      destruct (Dispatch.split_lines_go r []); [reflexivity|].
      simpl. rewrite <- app_assoc. reflexivity.
Qed.

Lemma split_lines_go_nil (s cur : pystr) : Dispatch.split_lines_go s cur <> [].
Proof.
  revert cur. induction s as [|c r IH]; intros cur; simpl; [discriminate|].
  destruct (c =? 10)%N; [discriminate|apply IH].
Qed.

Definition few_stars (s : pystr) : Prop :=
  Forall (fun line => stars line <= 1) (Dispatch.split_lines s).

Lemma few_stars_tail (c : N) (r : pystr) : few_stars (c :: r) -> few_stars r.
Proof.
  unfold few_stars, Dispatch.split_lines. simpl.
  destruct (c =? 10)%N.
  - intros H. inversion H. assumption.
  - rewrite split_lines_go_cur.
    destruct (Dispatch.split_lines_go r []) as [|l ls]; [intros; constructor|].
    intros H. inversion H as [|? ? Hl Hls]; subst.
    constructor; [|exact Hls].
    unfold stars in Hl |- *. simpl in Hl. destruct (c =? 42)%N; simpl in Hl; lia.
Qed.

Lemma few_stars_prefix (a t : pystr) :
  Forall (fun c => c <> 10%N) a -> few_stars (a ++ t) -> stars a <= 1.
Proof.
  unfold few_stars, Dispatch.split_lines.
  assert (Hgo : forall cur, Forall (fun c => c <> 10%N) a ->
            Dispatch.split_lines_go (a ++ t) cur = Dispatch.split_lines_go t (rev a ++ cur)).
  { induction a as [|c a IH]; intros cur Ha; simpl; [reflexivity|].
    inversion Ha as [|? ? Hc Ha']; subst.
    destruct (N.eqb_spec c 10); [contradiction|].
    rewrite IH by exact Ha'. rewrite <- app_assoc. reflexivity. }
  intros Ha. rewrite Hgo by exact Ha. rewrite split_lines_go_cur.
  destruct (Dispatch.split_lines_go t []) as [|l ls] eqn:E;
    [exfalso; exact (split_lines_go_nil _ _ E)|].
  intros H. inversion H as [|? ? Hl _]; subst.
  rewrite app_nil_r, rev_involutive, stars_app in Hl. lia.
Qed.

Lemma close_lazy_star (s prev grp g rest : pystr) :
  close_lazy s prev grp = Some (g, rest) ->
  exists a b, s = a ++ 42%N :: b /\ Forall (fun c => c <> 10%N) a.
Proof.
  revert prev grp. induction s as [|c r IH]; intros prev grp; simpl; [discriminate|].
  destruct (N.eqb_spec c 42) as [->|Hc]; simpl.
  - destruct (not_after_escaped_star prev).
    + intros _. exists [], r. split; [reflexivity|constructor].
    + intros H. destruct (IH _ _ H) as [a [b [-> Ha]]].
      exists (42%N :: a), b. split; [reflexivity|]. constructor; [discriminate|exact Ha].
  - destruct (N.eqb_spec c 10) as [->|Hn]; [discriminate|].
    intros H. destruct (IH _ _ H) as [a [b [-> Ha]]].
    exists (c :: a), b. split; [reflexivity|]. constructor; [exact Hn|exact Ha].
Qed.

Lemma match_at_stars (s prev g rest : pystr) :
  match_at s prev = Some (g, rest) -> few_stars s -> False.
Proof.
  unfold match_at. intros H Hf.
  destruct s as [|c [|c1 r1]]; try discriminate H.
  destruct (N.eqb_spec c 42) as [->|]; simpl in H; [|discriminate H].
  destruct (not_after_escaped_star prev); simpl in H; [|discriminate H].
  destruct (N.eqb_spec c1 10) as [|Hc1]; simpl in H; [discriminate H|].
  destruct (close_lazy_star _ _ _ _ _ H) as [a [b [-> Ha]]].
  assert (Hp : stars (42%N :: c1 :: a ++ [42%N]) <= 1).
  { apply (few_stars_prefix _ b).
    - constructor; [discriminate|]. constructor; [exact Hc1|].
      apply Forall_app. split; [exact Ha|]. constructor; [discriminate|constructor].
    - simpl. rewrite <- app_assoc. exact Hf. }
  change (42%N :: c1 :: a ++ [42%N]) with ([42%N] ++ (c1 :: a) ++ [42%N]) in Hp.
  rewrite !stars_app in Hp.
  assert (H1 : stars [42%N] = 1) by reflexivity. lia.
Qed.

Lemma sub_go_few_stars (fuel : nat) (s prev : pystr) :
  few_stars s -> sub_go fuel s prev = s.
Proof.
  revert s prev. induction fuel as [|f IH]; intros s prev Hs; simpl; [reflexivity|].
  destruct s as [|c r]; [reflexivity|].
  destruct (match_at (c :: r) prev) as [[g rest]|] eqn:E.
  - exfalso. exact (match_at_stars _ _ _ _ E Hs).
  - rewrite IH by exact (few_stars_tail _ _ Hs). reflexivity.
Qed.

(** [convert_markdown_to_html] leaves a text unchanged when none of its
    lines holds two asterisks: bold needs a pair on one line. *)
Theorem convert_markdown_no_pair (text : pystr) :
  Forall (fun line => stars line <= 1) (Dispatch.split_lines text) ->
  convert_markdown_to_html text = text.
Proof.
  intros H. apply sub_go_few_stars. exact H.
Qed.

Lemma convert_markdown_no_pair_witness :
  Forall (fun line => stars line <= 1) (Dispatch.split_lines (lit "5*3 = 15" ++ [10%N] ++ lit "2*2 = 4"))
  /\ convert_markdown_to_html (lit "5*3 = 15" ++ [10%N] ++ lit "2*2 = 4")
     = lit "5*3 = 15" ++ [10%N] ++ lit "2*2 = 4".
Proof.
  assert (H : Forall (fun line => stars line <= 1)
                (Dispatch.split_lines (lit "5*3 = 15" ++ [10%N] ++ lit "2*2 = 4")))
    by (vm_compute; repeat constructor).
  split; [exact H|]. apply convert_markdown_no_pair. exact H.
Defined.

Lemma sub_go_cons (f : nat) (c : N) (r prev : pystr) :
  sub_go (S f) (c :: r) prev =
    match match_at (c :: r) prev with
    | Some (g, rest) => lit "<b>" ++ g ++ lit "</b>" ++ sub_go f rest (42%N :: rev g ++ 42%N :: prev)
    | None => c :: sub_go f r (c :: prev)
    end.
Proof. reflexivity. Qed.

(** Scanning a text without asterisk copies it. *)
Lemma sub_go_no_star (fuel : nat) (p t prev : pystr) :
  Forall (fun c => c <> 42%N) p -> length p <= fuel ->
  sub_go fuel (p ++ t) prev = p ++ sub_go (fuel - length p) t (rev p ++ prev).
Proof.
  revert fuel prev. induction p as [|c p IH]; intros fuel prev Hp Hl; simpl.
  - rewrite Nat.sub_0_r. reflexivity.
  - inversion Hp as [|? ? Hc Hp']; subst.
    destruct fuel as [|f]; simpl in Hl; [lia|].
    rewrite sub_go_cons.
    assert (Hm : match_at (c :: p ++ t) prev = None).
    { unfold match_at. destruct (p ++ t) as [|c1 r1]; [reflexivity|].
      destruct (N.eqb_spec c 42); [contradiction|reflexivity]. }
    rewrite Hm, IH by (exact Hp' || lia).
    simpl. rewrite <- app_assoc. reflexivity.
Qed.

Lemma close_lazy_plain (x q prev grp : pystr) (c : N) :
  Forall (fun c => c <> 42%N /\ c <> 10%N) x -> c <> 42%N ->
  close_lazy (x ++ 42%N :: q) (c :: prev) grp =
    Some (rev grp ++ x, q).
Proof.
  revert c prev grp. induction x as [|d x IH]; intros c prev grp Hx Hc; simpl.
  - destruct (N.eqb_spec c 42); [contradiction|]. rewrite app_nil_r.
    destruct prev; reflexivity.
  - inversion Hx as [|? ? [Hd1 Hd2] Hx']; subst.
    destruct (N.eqb_spec d 42); [contradiction|].
    destruct (N.eqb_spec d 10); [contradiction|]. simpl.
    rewrite (IH d) by assumption. simpl. rewrite <- app_assoc. reflexivity.
Qed.

Lemma sub_go_no_star_all (fuel : nat) (p prev : pystr) :
  Forall (fun c => c <> 42%N) p -> length p <= fuel -> sub_go fuel p prev = p.
Proof.
  intros Hp Hl. pose proof (sub_go_no_star fuel p [] prev Hp Hl) as H.
  rewrite !app_nil_r in H. rewrite H.
  assert (E : forall n pr, sub_go n [] pr = []) by (intros [|n] pr; reflexivity).
  rewrite E, app_nil_r. reflexivity.
Qed.

(** One bold span: [p*x*q] with no asterisk in [p], [x] and [q] and a
    non-empty [x] on one line becomes [p<b>x</b>q]. *)
Theorem convert_markdown_one_pair (p x q : pystr) :
  Forall (fun c => c <> 42%N) p -> Forall (fun c => c <> 42%N) q ->
  x <> [] -> Forall (fun c => c <> 42%N /\ c <> 10%N) x ->
  convert_markdown_to_html (p ++ [42%N] ++ x ++ [42%N] ++ q)
  = p ++ lit "<b>" ++ x ++ lit "</b>" ++ q.
Proof.
  intros Hp Hq Hx0 Hx. unfold convert_markdown_to_html.
  rewrite sub_go_no_star by (exact Hp || (rewrite length_app; lia)).
  f_equal.
  change ([42%N] ++ x ++ [42%N] ++ q) with (42%N :: x ++ 42%N :: q).
  destruct x as [|c1 x]; [contradiction|].
  inversion Hx as [|? ? [Hc1 Hc1'] Hx']; subst.
  match goal with
  | |- sub_go ?n _ _ = _ =>
      replace n with (S (S (length x) + S (length q))) by (rewrite !length_app; simpl; rewrite !length_app; simpl; lia)
  end.
  assert (Hm : match_at (42%N :: (c1 :: x) ++ 42%N :: q) (rev p ++ [])
               = Some (c1 :: x, q)).
  { unfold match_at. rewrite <- app_comm_cons.
    assert (Hnb : not_after_escaped_star (rev p ++ []) = true).
    { rewrite app_nil_r. destruct (rev p) as [|d r] eqn:Er; [reflexivity|].
      assert (Hd : d <> 42%N).
      { apply (Forall_forall (fun c => c <> 42%N) p); [exact Hp|].
        apply list_elem_of_In. rewrite in_rev, Er. left. reflexivity. }
      destruct r; [reflexivity|].
      unfold not_after_escaped_star.
      destruct (N.eqb_spec d 42); [contradiction|reflexivity]. }
    rewrite Hnb. destruct (N.eqb_spec c1 10); [contradiction|].
    change ((true && true && negb false)%bool) with true. cbv iota.
    rewrite (close_lazy_plain x q (42%N :: rev p ++ []) [c1] c1) by assumption.
    reflexivity. }
  rewrite sub_go_cons, Hm.
  rewrite (sub_go_no_star_all _ q _ Hq) by lia.
  reflexivity.
Qed.

Lemma convert_markdown_one_pair_witness :
  convert_markdown_to_html (lit "This is " ++ [42%N] ++ lit "true" ++ [42%N] ++ lit ".")
  = lit "This is " ++ lit "<b>" ++ lit "true" ++ lit "</b>" ++ lit ".".
Proof.
  apply convert_markdown_one_pair.
  - repeat constructor; discriminate.
  - repeat constructor; discriminate.
  - discriminate.
  - repeat constructor; discriminate.
Defined.

Ltac split_binds :=
  repeat (match goal with
          | |- context [if ?b then _ else _] => destruct b
          | |- context [match ?x with Some _ => _ | None => _ end] =>
              lazymatch x with _ _ => destruct x end
          end; cbv beta iota).

(** [extract_message_data] always returns the seven keys of its initial
    dict, in their order; [chat_id] and [message_id] hold strings and
    [message_type] is one of [""], [message], [image] and [callback_query]. *)
Theorem extract_message_data_shape (py_str : pyval -> pystr) (update : pyval)
    (data : list (pystr * pyval)) :
  extract_message_data py_str update = Some data ->
  map fst data = map fst result0
  /\ (exists chat_id, Py.dict_get data (lit "chat_id") = Some (PStr chat_id))
  /\ (exists message_id, Py.dict_get data (lit "message_id") = Some (PStr message_id))
  /\ (exists message_type, Py.dict_get data (lit "message_type") = Some (PStr message_type)
        /\ In message_type [[]; lit "message"; lit "image"; lit "callback_query"]).
Proof.
  unfold extract_message_data, mbind, option_bind.
  split_binds; intros H; try discriminate H; injection H as <-; vm_compute;
    (split; [reflexivity|]);
    (split; [eexists; reflexivity|]);
    (split; [eexists; reflexivity|]);
    eexists; (split; [reflexivity|]); simpl; tauto.
Qed.

Lemma extract_message_data_shape_witness :
  extract_message_data (fun _ => lit "7") (PDict [(lit "message", PDict
      [(lit "chat", PDict [(lit "id", PNum 7)]); (lit "message_id", PNum 1);
       (lit "text", PStr (lit "hi"))])])
  = Some (dict_set (dict_set (dict_set (dict_set result0 (lit "chat_id") (PStr (lit "7")))
            (lit "message_id") (PStr (lit "7"))) (lit "message_type") (PStr (lit "message")))
            (lit "text") (PStr (lit "hi")))
  /\ map fst (dict_set (dict_set (dict_set (dict_set result0 (lit "chat_id") (PStr (lit "7")))
            (lit "message_id") (PStr (lit "7"))) (lit "message_type") (PStr (lit "message")))
            (lit "text") (PStr (lit "hi"))) = map fst result0.
Proof.
  assert (H : extract_message_data (fun _ => lit "7") (PDict [(lit "message", PDict
      [(lit "chat", PDict [(lit "id", PNum 7)]); (lit "message_id", PNum 1);
       (lit "text", PStr (lit "hi"))])])
  = Some (dict_set (dict_set (dict_set (dict_set result0 (lit "chat_id") (PStr (lit "7")))
            (lit "message_id") (PStr (lit "7"))) (lit "message_type") (PStr (lit "message")))
            (lit "text") (PStr (lit "hi")))) by (vm_compute; reflexivity).
  split; [exact H|].
  exact (proj1 (extract_message_data_shape _ _ _ H)).
Defined.

(** A photo message: the [image_id] is the [file_id] of the last photo
    of the list (Telegram lists the sizes from the smallest up). *)
Theorem extract_message_data_photo (py_str : pyval -> pystr) (u m : list (pystr * pyval))
    (photos : list pyval) (p : pyval) (data : list (pystr * pyval)) :
  Py.dict_get u (lit "message") = Some (PDict m) ->
  Py.dict_get m (lit "text") = None ->
  Py.dict_get m (lit "photo") = Some (PList photos) ->
  last photos = Some p ->
  extract_message_data py_str (PDict u) = Some data ->
  Py.dict_get data (lit "message_type") = Some (PStr (lit "image"))
  /\ Py.dict_get data (lit "image_id") = Subscript.getitem p (lit "file_id").
Proof.
  intros Hm Ht Hp Hl. unfold extract_message_data, mbind, option_bind.
  cbn [Py.contains Subscript.getitem]. rewrite Hm. cbv beta iota.
  cbn [Py.contains Subscript.getitem]. rewrite Ht, Hp. cbv beta iota.
  assert (Htr : Py.truthy (PList photos) = true).
  { destruct photos; [discriminate Hl|reflexivity]. }
  rewrite Htr. cbn [Subscript.getlast]. rewrite Hl.
  split_binds; intros H; try discriminate H; injection H as <-; vm_compute;
    (split; [reflexivity|]); try reflexivity;
  match goal with
  | E : Subscript.getitem p _ = ?v |- _ => rewrite <- E; vm_compute; reflexivity
  end.
Qed.

Definition photo_message : list (pystr * pyval) :=
  [(lit "chat", PDict [(lit "id", PNum 7)]); (lit "message_id", PNum 1);
   (lit "photo", PList [PDict [(lit "file_id", PStr (lit "small"))];
                        PDict [(lit "file_id", PStr (lit "large"))]])].

Lemma extract_message_data_photo_witness :
  exists data,
    extract_message_data (fun _ => lit "7") (PDict [(lit "message", PDict photo_message)])
    = Some data
    /\ Py.dict_get data (lit "image_id") = Some (PStr (lit "large")).
Proof.
  eexists. split; [vm_compute; reflexivity|].
  refine (proj2 (extract_message_data_photo (fun _ => lit "7")
                   [(lit "message", PDict photo_message)] photo_message
                   [PDict [(lit "file_id", PStr (lit "small"))];
                    PDict [(lit "file_id", PStr (lit "large"))]]
                   (PDict [(lit "file_id", PStr (lit "large"))]) _ _ _ _ _ _));
    vm_compute; reflexivity.
Defined.

Definition ascii_digit (c : N) : bool := ((48 <=? c) && (c <=? 57))%N.

(** Each key of the rating keyboard matches the rating pattern of the
    webhook: group 1 is its digit, group 2 its label. *)
Theorem rating_keyboard_matches (is_decimal : N -> bool) :
  (forall d, (49 <= d <= 54)%N -> is_decimal d = true) ->
  Forall (Forall (fun k => TelegramRouter.rating_match is_decimal k = Some (firstn 1 k, skipn 4 k)))
    rating_keyboard.
Proof.
  intros H. unfold rating_keyboard.
  repeat constructor;
    unfold TelegramRouter.rating_match, keycap; cbn [app];
    match goal with |- context [is_decimal ?d] => rewrite (H d) by lia end;
    vm_compute; reflexivity.
Qed.

Lemma rating_keyboard_matches_witness :
  (forall d, (49 <= d <= 54)%N -> ascii_digit d = true)
  /\ Forall (Forall (fun k => TelegramRouter.rating_match ascii_digit k = Some (firstn 1 k, skipn 4 k)))
       rating_keyboard.
Proof.
  assert (Hd : forall d, (49 <= d <= 54)%N -> ascii_digit d = true).
  { intros d Hd. unfold ascii_digit. apply andb_true_intro. split; apply N.leb_le; lia. }
  split; [exact Hd|]. exact (rating_keyboard_matches ascii_digit Hd).
Defined.

End TelegramSpec.

Module DBSpec.

Import DB.

Lemma pystr_eqb_refl (s : pystr) : pystr_eqb s s = true.
Proof. unfold pystr_eqb. apply bool_decide_eq_true. reflexivity. Qed.

Lemma pystr_eqb_true (a b : pystr) : pystr_eqb a b = true -> a = b.
Proof. unfold pystr_eqb. apply bool_decide_eq_true. Qed.

Definition owns (user_id platform : pystr) (c : conversation) : Prop :=
  conv_user_id c = user_id /\ conv_platform c = platform.

Lemma latest_fold_some (cs : list conversation) (user_id platform : pystr) (m : Z) :
  exists m', fold_left (fun acc c =>
      if pystr_eqb (conv_user_id c) user_id && pystr_eqb (conv_platform c) platform then
        match acc with
        | None => Some (conversation_id c)
        | Some m => Some (Z.max m (conversation_id c))
        end
      else acc) cs (Some m) = Some m'.
Proof.
  revert m. induction cs as [|c cs IH]; intros m; simpl; [eauto|].
  destruct (_ && _); apply IH.
Qed.

(** [latest_conversation] finds nothing exactly when no conversation
    belongs to the user on the platform. *)
Lemma latest_none (d : db) (user_id platform : pystr) :
  latest_conversation d user_id platform = None <->
  Forall (fun c => ~ owns user_id platform c) (conversations d).
Proof.
  unfold latest_conversation. generalize (conversations d) as cs.
  intros cs. induction cs as [|c cs IH]; simpl; [split; [constructor|reflexivity]|].
  destruct (pystr_eqb (conv_user_id c) user_id) eqn:E1;
  destruct (pystr_eqb (conv_platform c) platform) eqn:E2; simpl.
  - split.
    + intros H. exfalso. destruct (latest_fold_some cs user_id platform (conversation_id c))
        as [m' Hm']. congruence.
    + intros H. inversion H as [|? ? Hn _]; subst. exfalso. apply Hn.
      split; apply pystr_eqb_true; assumption.
  - rewrite IH. split; [intros H; constructor; [|exact H]|intros H; inversion H; assumption].
    intros [_ Hp]. subst. rewrite pystr_eqb_refl in E2. discriminate.
  - rewrite IH. split; [intros H; constructor; [|exact H]|intros H; inversion H; assumption].
    intros [Hu _]. subst. rewrite pystr_eqb_refl in E1. discriminate.
  - rewrite IH. split; [intros H; constructor; [|exact H]|intros H; inversion H; assumption].
    intros [Hu _]. subst. rewrite pystr_eqb_refl in E1. discriminate.
Qed.

Lemma latest_new (d : db) (user_id platform : pystr) (c : conversation) :
  latest_conversation d user_id platform = None ->
  conv_user_id c = user_id -> conv_platform c = platform ->
  fold_left (fun acc c =>
      if pystr_eqb (conv_user_id c) user_id && pystr_eqb (conv_platform c) platform then
        match acc with
        | None => Some (conversation_id c)
        | Some m => Some (Z.max m (conversation_id c))
        end
      else acc) (conversations d ++ [c]) None = Some (conversation_id c).
Proof.
  unfold latest_conversation. intros H Hu Hp.
  rewrite fold_left_app, H. simpl. rewrite Hu, Hp, !pystr_eqb_refl. reflexivity.
Qed.

Lemma varchar_short (n : nat) (s : pystr) : length s <= n -> varchar n s = Some s.
Proof.
  intros H. unfold varchar. replace (length s <=? n) with true by (symmetry; apply Nat.leb_le; exact H).
  reflexivity.
Qed.

Lemma add_message_tables (d d' : db) message_id conversation_id sender content message_type
    (mid : pystr) :
  add_message d message_id conversation_id sender content message_type = Some (d', mid) ->
  conversations d' = conversations d /\ conversation_seq d' = conversation_seq d
  /\ varchar 255 message_id = Some mid.
Proof.
  unfold add_message. destruct (negb _); [discriminate|].
  destruct (varchar 255 message_id) as [m|]; [|discriminate].
  destruct (varchar 50 sender); [|discriminate].
  destruct (varchar 50 message_type); [|discriminate].
  destruct content; try discriminate;
    destruct (existsb _ _); try discriminate; intros H; injection H as <- <-; repeat split.
Qed.

Lemma in_existsb_ids (ms : list message_row) (message_id : pystr) :
  In message_id (map row_message_id ms) ->
  existsb (fun r => pystr_eqb (row_message_id r) message_id) ms = true.
Proof.
  intros H. apply existsb_exists. apply in_map_iff in H. destruct H as [r [<- Hr]].
  exists r. split; [exact Hr|apply pystr_eqb_refl].
Qed.

(** Every stored message id fits its [VARCHAR(255)] column. *)
Definition ids_fit (ms : list message_row) : Prop :=
  Forall (fun r => length (row_message_id r) <= 255) ms.

Lemma ids_fit_in (ms : list message_row) (message_id : pystr) :
  ids_fit ms -> In message_id (map row_message_id ms) -> length message_id <= 255.
Proof.
  intros Hf Hin. apply in_map_iff in Hin. destruct Hin as [r [<- Hr]].
  exact (proj1 (List.Forall_forall _ _) Hf r Hr).
Qed.

(** [add_message] raises on a stored message id and on a [None] content. *)
Lemma add_message_rejected (d : db) message_id conversation_id sender content message_type :
  ids_fit (messages d) ->
  In message_id (map row_message_id (messages d)) \/ content = PNone ->
  add_message d message_id conversation_id sender content message_type = None.
Proof.
  intros Hf H. unfold add_message. destruct (negb _); [reflexivity|].
  destruct H as [H | ->].
  - rewrite (varchar_short 255 message_id (ids_fit_in _ _ Hf H)).
    destruct (varchar 50 sender); [|reflexivity].
    destruct (varchar 50 message_type); [|reflexivity].
    destruct content; try reflexivity; rewrite in_existsb_ids by exact H; reflexivity.
  - destruct (varchar 255 message_id); [|reflexivity].
    destruct (varchar 50 sender); [|reflexivity].
    destruct (varchar 50 message_type); reflexivity.
Qed.

(** A record fails when the message id is already stored or the text is
    [None]: no message row is added, and the conversations table is the
    one of the conversation lookup. *)
Lemma record_rejected (message_id user_id platform : pystr) (message_text : pyval)
    (is_user_message : bool) (message_type : pystr) (d : db) :
  ids_fit (messages d) ->
  In message_id (map row_message_id (messages d)) \/ message_text = PNone ->
  snd (record_conversation_message message_id user_id platform message_text is_user_message
         message_type d) = None
  /\ messages (fst (record_conversation_message message_id user_id platform message_text
                      is_user_message message_type d)) = messages d.
Proof.
  intros Hf H. unfold record_conversation_message.
  destruct (negb _); [split; reflexivity|].
  destruct (latest_conversation d user_id platform) as [cid|].
  - rewrite add_message_rejected by assumption. split; reflexivity.
  - unfold create_conversation. destruct (negb _); [split; reflexivity|].
    destruct (varchar 255 user_id); [|split; reflexivity].
    destruct (varchar 50 platform); [|split; reflexivity].
    destruct (existsb _ _); [split; reflexivity|]. cbv zeta.
    rewrite add_message_rejected by assumption. split; reflexivity.
Qed.

(** Two records of the same user on the same platform, whose user id and
    platform fit their columns: a successful record returns the message
    id as stored (the given id, cut to 255 characters when the excess is
    spaces) and leaves its conversation as the latest one of the user,
    so the next successful record of the user goes to the same
    conversation. *)
Theorem record_same_conversation (message_id user_id platform : pystr) (message_text : pyval)
    (is_user_message : bool) (message_type : pystr) (d d' : db) (cid : Z) (mid : pystr) :
  length user_id <= 255 -> length platform <= 50 ->
  record_conversation_message message_id user_id platform message_text is_user_message
    message_type d = (d', Some (cid, mid)) ->
  varchar 255 message_id = Some mid
  /\ latest_conversation d' user_id platform = Some cid
  /\ (forall message_id2 message_text2 is_user_message2 message_type2 d2 r2,
        record_conversation_message message_id2 user_id platform message_text2
          is_user_message2 message_type2 d' = (d2, Some r2) ->
        fst r2 = cid).
Proof.
  intros Hu Hp H.
  assert (Hl : varchar 255 message_id = Some mid
               /\ latest_conversation d' user_id platform = Some cid).
  { revert H. unfold record_conversation_message, create_conversation.
    destruct (adaptable user_id && adaptable platform); [|discriminate]. cbn [negb].
    destruct (latest_conversation d user_id platform) as [c|] eqn:L.
    - destruct (add_message d _ _ _ _ _) as [[d2 m2]|] eqn:A; [|discriminate].
      intros H. injection H as <- <- <-.
      destruct (add_message_tables _ _ _ _ _ _ _ _ A) as [Hc [_ Hm]].
      split; [exact Hm|]. unfold latest_conversation. rewrite Hc. exact L.
    - rewrite (varchar_short 255 user_id Hu), (varchar_short 50 platform Hp).
      destruct (existsb _ _); [discriminate|]. cbv zeta.
      match goal with |- context [add_message ?d1 _ _ _ _ _] =>
        destruct (add_message d1 _ _ _ _ _) as [[d2 m2]|] eqn:A; [|discriminate] end.
      intros H. injection H as <- <- <-.
      destruct (add_message_tables _ _ _ _ _ _ _ _ A) as [Hc [_ Hm]].
      split; [exact Hm|].
      unfold latest_conversation. rewrite Hc.
      simpl. exact (latest_new d user_id platform
                      {| conversation_id := conversation_seq d + 1; conv_user_id := user_id;
                         conv_platform := platform |} L eq_refl eq_refl). }
  destruct Hl as [Hm Hl]. split; [exact Hm|]. split; [exact Hl|].
  intros m2 t2 b2 ty2 d2 r2. unfold record_conversation_message.
  destruct (negb _); [discriminate|]. rewrite Hl.
  destruct (add_message _ _ _ _ _ _) as [[d3 m3]|]; [|discriminate].
  intros H2. injection H2 as _H2a H2b. rewrite <- H2b. reflexivity.
Qed.

Definition empty_db : db := {| conversations := []; messages := []; conversation_seq := 0 |}.

Lemma record_same_conversation_witness :
  exists d1 d2,
    record_conversation_message (lit "1") (lit "7") (lit "telegram") (PStr (lit "hi")) true
      (lit "text") empty_db = (d1, Some (1%Z, lit "1"))
    /\ record_conversation_message (lit "2") (lit "7") (lit "telegram") (PStr (lit "ok")) false
         (lit "text") d1 = (d2, Some (1%Z, lit "2"))
    /\ latest_conversation d1 (lit "7") (lit "telegram") = Some 1%Z.
Proof.
  do 2 eexists.
  assert (H1 : record_conversation_message (lit "1") (lit "7") (lit "telegram") (PStr (lit "hi"))
                 true (lit "text") empty_db
               = (fst (record_conversation_message (lit "1") (lit "7") (lit "telegram")
                         (PStr (lit "hi")) true (lit "text") empty_db), Some (1%Z, lit "1")))
    by (vm_compute; reflexivity).
  split; [exact H1|]. split; [vm_compute; reflexivity|].
  refine (proj1 (proj2 (record_same_conversation (lit "1") (lit "7") (lit "telegram")
                          (PStr (lit "hi")) true (lit "text") empty_db _ 1%Z (lit "1") _ _ H1)));
    vm_compute; lia.
Defined.



End DBSpec.

Module TelegramRouterSpec.

Import TelegramRouter.

Section WithServices.

Variable py_str : pyval -> pystr.
Variable nfkd : pystr -> pystr.
Variable is_decimal : N -> bool.

Local Abbreviation webhook := (telegram_webhook py_str nfkd is_decimal).

Lemma truthy_str (s : pystr) : s <> [] -> Py.truthy (PStr s) = true.
Proof. intros H. destruct s; [contradiction|reflexivity]. Qed.

Lemma is_str_refl (s : pystr) : Py.is_str (PStr s) s = true.
Proof. apply DBSpec.pystr_eqb_refl. Qed.

Lemma record_keeps (message_id user_id : pystr) (message_text : pyval) (message_type : pystr)
    (st st1 : state) (ok : bool) :
  record message_id user_id message_text message_type st = (st1, ok) ->
  message_context st1 = message_context st /\ tasks st1 = tasks st
  /\ button_id_to_claim st1 = button_id_to_claim st.
Proof.
  unfold record. destruct (DB.record_conversation_message _ _ _ _ _ _ _).
  intros H. injection H as <- _. split; [|split]; reflexivity.
Qed.

Lemma record_dup (message_id user_id : pystr) (message_text : pyval) (message_type : pystr)
    (st : state) :
  DBSpec.ids_fit (DB.messages (db st)) ->
  In message_id (map DB.row_message_id (DB.messages (db st))) ->
  snd (record message_id user_id message_text message_type st) = false.
Proof.
  intros Hf H. unfold record.
  destruct (DBSpec.record_rejected message_id user_id telegram message_text true message_type
              (db st) Hf (or_introl H)) as [Hn _].
  destruct (DB.record_conversation_message _ _ _ _ _ _ _) as [d' r]. simpl in Hn |- *.
  rewrite Hn. reflexivity.
Qed.

Ltac get_rewrite :=
  repeat match goal with
  | H : Py.dict_get ?d ?k = Some _ |- context [Py.dict_get ?d ?k] => rewrite H
  end; cbv beta iota.

(** A button press: when the callback data is a key of the
    Button-to-Claim table, the webhook schedules the fact check of its
    claim with the whole stored context of the chat (all its lines), and
    changes nothing else. *)
Theorem webhook_button_press (update : pyval) (st : state) (data : list (pystr * pyval))
    (user_id message_id callback_data claim : pystr) :
  Telegram.extract_message_data py_str update = Some data ->
  Py.dict_get data (lit "message_type") = Some (PStr (lit "callback_query")) ->
  Py.dict_get data (lit "chat_id") = Some (PStr user_id) -> user_id <> [] ->
  Py.dict_get data (lit "message_id") = Some (PStr message_id) ->
  Py.dict_get data (lit "callback_data") = Some (PStr callback_data) ->
  button_id_to_claim st !! callback_data = Some claim ->
  webhook update st =
    (add_tasks st [TFactCheck user_id user_id message_id claim
                     (match message_context st !! user_id with
                      | Some l => py_join [10%N] l
                      | None => []
                      end) claim telegram],
     SProcessing).
Proof.
  intros Hx Ht Hc Hu Hm Hcb Hb. unfold webhook, telegram_webhook. rewrite Hx. cbv zeta.
  get_rewrite. rewrite truthy_str by exact Hu. cbn [negb]. cbv beta iota.
  rewrite is_str_refl. cbv beta iota.
  unfold dict_contains. rewrite Hb. cbn [negb].
  rewrite bool_decide_eq_true_2 by (eexists; reflexivity).
  match goal with
  | |- context [match ?t with Some c => c | None => [] end] =>
      replace t with (Some claim) by (rewrite <- Hb; reflexivity)
  end.
  reflexivity.
Qed.

(** A rating reply from a chat that has no stored context: the line is
    appended to a missing list, the webhook returns the status [error],
    schedules nothing and leaves the context store as it was. *)
Theorem webhook_rating_without_context (update : pyval) (st : state)
    (data : list (pystr * pyval)) (user_id message_id text rating_value rating_text : pystr) :
  Telegram.extract_message_data py_str update = Some data ->
  Py.dict_get data (lit "message_type") = Some (PStr (lit "message")) ->
  Py.dict_get data (lit "chat_id") = Some (PStr user_id) -> user_id <> [] ->
  Py.dict_get data (lit "message_id") = Some (PStr message_id) ->
  Py.dict_get data (lit "text") = Some (PStr text) ->
  rating_match is_decimal text = Some (rating_value, rating_text) ->
  message_context st !! user_id = None ->
  snd (webhook update st) = SError
  /\ tasks (fst (webhook update st)) = tasks st
  /\ message_context (fst (webhook update st)) = message_context st.
Proof.
  intros Hx Ht Hc Hu Hm Htx Hr Hctx. unfold webhook, telegram_webhook. rewrite Hx. cbv zeta.
  get_rewrite. rewrite truthy_str by exact Hu. cbn [negb]. cbv beta iota.
  assert (Hne : text <> []) by (intros ->; discriminate Hr).
  assert (Hcb : Py.is_str (PStr (lit "message")) (lit "callback_query") = false)
    by (vm_compute; reflexivity).
  rewrite Hcb, is_str_refl, truthy_str by exact Hne. cbv beta iota.
  destruct (record message_id user_id (PStr text) (lit "text") st) as [st1 ok] eqn:R.
  destruct (record_keeps _ _ _ _ _ _ _ R) as [Hc1 [Ht1 _]].
  destruct ok; simpl.
  - rewrite Hr. unfold Context.append_line. rewrite Hc1, Hctx. simpl.
    split; [reflexivity|]. split; assumption.
  - split; [reflexivity|]. split; assumption.
Qed.

(** A text or image message whose message id already has a row in the
    [messages] table (the key is global, the ids of Telegram are per
    chat; every stored id fits its [VARCHAR(255)] column, as [add_message]
    only stores such ids) makes the webhook return [error]: nothing is scheduled and
    the context store is unchanged. *)
Theorem webhook_duplicate_message_id (update : pyval) (st : state) (data : list (pystr * pyval))
    (user_id message_id : pystr) (text : pyval) :
  Telegram.extract_message_data py_str update = Some data ->
  Py.dict_get data (lit "chat_id") = Some (PStr user_id) -> user_id <> [] ->
  Py.dict_get data (lit "message_id") = Some (PStr message_id) ->
  (Py.dict_get data (lit "message_type") = Some (PStr (lit "message"))
   /\ Py.dict_get data (lit "text") = Some text /\ Py.truthy text = true
   \/ Py.dict_get data (lit "message_type") = Some (PStr (lit "image"))) ->
  DBSpec.ids_fit (DB.messages (db st)) ->
  In message_id (map DB.row_message_id (DB.messages (db st))) ->
  snd (webhook update st) = SError
  /\ tasks (fst (webhook update st)) = tasks st
  /\ message_context (fst (webhook update st)) = message_context st.
Proof.
  intros Hx Hc Hu Hm Hk Hf Hin. unfold webhook, telegram_webhook. rewrite Hx. cbv zeta.
  get_rewrite. rewrite truthy_str by exact Hu. cbn [negb]. cbv beta iota.
  destruct Hk as [[Ht [Htx Htr]] | Ht].
  - rewrite Ht, Htx. cbv beta iota.
    assert (Hcb : Py.is_str (PStr (lit "message")) (lit "callback_query") = false)
      by (vm_compute; reflexivity).
    rewrite Hcb, is_str_refl, Htr. cbv beta iota.
    pose proof (record_dup message_id user_id text (lit "text") st Hf Hin) as Hd.
    destruct (record message_id user_id text (lit "text") st) as [st1 ok] eqn:R.
    destruct (record_keeps _ _ _ _ _ _ _ R) as [Hc1 [Ht1 _]].
    simpl in Hd. subst ok. simpl. split; [reflexivity|]. split; assumption.
  - rewrite Ht. cbv beta iota.
    assert (Hcb : Py.is_str (PStr (lit "image")) (lit "callback_query") = false)
      by (vm_compute; reflexivity).
    assert (Hms : Py.is_str (PStr (lit "image")) (lit "message") = false)
      by (vm_compute; reflexivity).
    rewrite Hcb, Hms, is_str_refl. cbv beta iota.
    match goal with
    | |- context [record message_id user_id ?c (lit "image") st] =>
        pose proof (record_dup message_id user_id c (lit "image") st Hf Hin) as Hd;
        destruct (record message_id user_id c (lit "image") st) as [st1 ok] eqn:R
    end.
    destruct (record_keeps _ _ _ _ _ _ _ R) as [Hc1 [Ht1 _]].
    simpl in Hd. subst ok. simpl. split; [reflexivity|]. split; assumption.
Qed.

(** A rating reply from a chat with stored context, once logged: the
    line [User rated with 'v' (label)] is appended to the chat's context
    and the webhook schedules the rating and the thanks message, without
    a rating prompt. *)
Theorem webhook_rating_recorded (update : pyval) (st : state) (data : list (pystr * pyval))
    (user_id message_id text rating_value rating_text : pystr) (d' : DB.db) (r : Z * pystr)
    (lines : list pystr) :
  Telegram.extract_message_data py_str update = Some data ->
  Py.dict_get data (lit "message_type") = Some (PStr (lit "message")) ->
  Py.dict_get data (lit "chat_id") = Some (PStr user_id) -> user_id <> [] ->
  Py.dict_get data (lit "message_id") = Some (PStr message_id) ->
  Py.dict_get data (lit "text") = Some (PStr text) ->
  rating_match is_decimal text = Some (rating_value, rating_text) ->
  DB.record_conversation_message message_id user_id telegram (PStr text) true (lit "text")
    (db st) = (d', Some r) ->
  message_context st !! user_id = Some lines ->
  webhook update st =
    ({| db := d';
        message_context := <[user_id := lines ++ [lit "User rated with '" ++ rating_value
                              ++ lit "' (" ++ rating_text ++ lit ")" ++ Dispatch.newline]]>
                             (message_context st);
        button_id_to_claim := button_id_to_claim st;
        tasks := tasks st ++ [TRating rating_value message_id;
                              TTracked user_id user_id message_id
                                (lit "Thanks for your " ++ rating_value ++ lit "-star rating!")
                                telegram false] |},
     SRatingProcessed).
Proof.
  intros Hx Ht Hc Hu Hm Htx Hr Hrec Hctx. unfold webhook, telegram_webhook. rewrite Hx. cbv zeta.
  get_rewrite. rewrite truthy_str by exact Hu. cbn [negb]. cbv beta iota.
  assert (Hne : text <> []) by (intros ->; discriminate Hr).
  assert (Hcb : Py.is_str (PStr (lit "message")) (lit "callback_query") = false)
    by (vm_compute; reflexivity).
  rewrite Hcb, is_str_refl, truthy_str by exact Hne. cbv beta iota.
  unfold record. rewrite Hrec. cbn [negb]. cbv beta iota.
  rewrite Hr. unfold Context.append_line. cbn [set_db message_context]. rewrite Hctx.
  cbv beta iota. rewrite lookup_insert_eq. reflexivity.
Qed.

(** An update with neither [message] nor [callback_query] (an edited
    message, a channel post, ...) is answered with
    [{"status": "Error", "message": "Unsupported message type"}] and
    changes nothing. *)
Theorem webhook_unsupported_update (u : list (pystr * pyval)) (st : state) :
  Py.dict_get u (lit "message") = None ->
  Py.dict_get u (lit "callback_query") = None ->
  webhook (PDict u) st = (st, SErrorUnsupported).
Proof.
  intros Hm Hc. unfold webhook, telegram_webhook, Telegram.extract_message_data, mbind,
    option_bind.
  cbn [Py.contains]. rewrite Hm, Hc. vm_compute. reflexivity.
Qed.

End WithServices.

Definition py_str7 (v : pyval) : pystr := lit "7".
Definition nfkd_id (s : pystr) : pystr := s.

Definition text_update (text : pystr) : pyval :=
  PDict [(lit "message", PDict [(lit "chat", PDict [(lit "id", PNum 7)]);
                                (lit "message_id", PNum 1); (lit "text", PStr text)])].

Definition callback_update : pyval :=
  PDict [(lit "callback_query",
          PDict [(lit "message", PDict [(lit "chat", PDict [(lit "id", PNum 7)]);
                                        (lit "message_id", PNum 1)]);
                 (lit "data", PStr (lit "abcde"))])].

Definition data_of (update : pyval) : list (pystr * pyval) :=
  match Telegram.extract_message_data py_str7 update with Some d => d | None => [] end.

Definition st0 : state :=
  {| db := DBSpec.empty_db; message_context := ∅;
     button_id_to_claim := {[lit "abcde" := lit "The earth is flat"]}; tasks := [] |}.

Definition st_with_context : state :=
  {| db := DBSpec.empty_db; message_context := {[lit "7" := [lit "Bot: hi"]]};
     button_id_to_claim := ∅; tasks := [] |}.

Definition st_logged : state :=
  {| db := fst (DB.record_conversation_message (lit "7") (lit "7") telegram (PStr (lit "hi")) true
                  (lit "text") DBSpec.empty_db);
     message_context := ∅; button_id_to_claim := ∅; tasks := [] |}.

Definition rating_text : pystr := [49%N; 65039%N; 8419%N; 32%N] ++ lit "Very poor".

Lemma webhook_button_press_witness :
  telegram_webhook py_str7 nfkd_id TelegramSpec.ascii_digit callback_update st0 =
    (add_tasks st0 [TFactCheck (lit "7") (lit "7") (lit "7") (lit "The earth is flat") []
                      (lit "The earth is flat") telegram], SProcessing).
Proof.
  apply (webhook_button_press py_str7 nfkd_id TelegramSpec.ascii_digit callback_update st0
           (data_of callback_update) (lit "7") (lit "7") (lit "abcde") (lit "The earth is flat"));
    vm_compute; try reflexivity; discriminate.
Defined.

Lemma webhook_rating_without_context_witness :
  snd (telegram_webhook py_str7 nfkd_id TelegramSpec.ascii_digit (text_update rating_text) st0)
  = SError.
Proof.
  refine (proj1 (webhook_rating_without_context py_str7 nfkd_id TelegramSpec.ascii_digit
           (text_update rating_text) st0 (data_of (text_update rating_text)) (lit "7") (lit "7")
           rating_text [49%N] (lit "Very poor") _ _ _ _ _ _ _ _));
    vm_compute; try reflexivity; discriminate.
Defined.

Lemma webhook_rating_recorded_witness :
  snd (telegram_webhook py_str7 nfkd_id TelegramSpec.ascii_digit (text_update rating_text)
         st_with_context) = SRatingProcessed.
Proof.
  refine (f_equal snd (webhook_rating_recorded py_str7 nfkd_id TelegramSpec.ascii_digit
           (text_update rating_text) st_with_context (data_of (text_update rating_text))
           (lit "7") (lit "7") rating_text [49%N] (lit "Very poor")
           (fst (DB.record_conversation_message (lit "7") (lit "7") telegram (PStr rating_text)
                   true (lit "text") DBSpec.empty_db))
           (1%Z, lit "7") [lit "Bot: hi"] _ _ _ _ _ _ _ _ _));
    vm_compute; try reflexivity; discriminate.
Defined.

Lemma webhook_duplicate_message_id_witness :
  snd (telegram_webhook py_str7 nfkd_id TelegramSpec.ascii_digit (text_update (lit "hello"))
         st_logged) = SError.
Proof.
  refine (proj1 (webhook_duplicate_message_id py_str7 nfkd_id TelegramSpec.ascii_digit
           (text_update (lit "hello")) st_logged (data_of (text_update (lit "hello")))
           (lit "7") (lit "7") (PStr (lit "hello")) _ _ _ _ _ _ _)).
  all: vm_compute; try reflexivity; try discriminate.
  - left. split; [reflexivity|]. split; reflexivity.
  - repeat constructor; vm_compute; lia.
  - left. reflexivity.
Defined.

Lemma webhook_unsupported_update_witness :
  telegram_webhook py_str7 nfkd_id TelegramSpec.ascii_digit
    (PDict [(lit "edited_message", PDict [])]) st0 = (st0, SErrorUnsupported).
Proof.
  apply webhook_unsupported_update; reflexivity.
Defined.

End TelegramRouterSpec.

Module ClientSpec.

Import Client.

Lemma replace_double_star_head (s : pystr) : head (replace_double_star s) = head s.
Proof.
  destruct s as [|c1 [|c2 r2]]; [reflexivity|reflexivity|]. simpl.
  destruct (N.eqb_spec c1 42) as [->|]; destruct (N.eqb_spec c2 42); reflexivity.
Qed.

Lemma is_infix_cons (p : pystr) (c : N) (r : pystr) :
  Py.is_infix p (c :: r) = py_startswith p (c :: r) || Py.is_infix p r.
Proof. reflexivity. Qed.

Lemma startswith_two (a b : N) (l : pystr) :
  py_startswith [a; b] l = true -> exists r, l = a :: b :: r.
Proof.
  destruct l as [|x [|y r]]; simpl; try discriminate; [destruct (a =? x)%N; discriminate|].
  destruct (N.eqb_spec a x) as [->|]; destruct (N.eqb_spec b y) as [->|]; simpl;
    try discriminate. eauto.
Qed.

Lemma startswith_two_head (a b x : N) (l : pystr) :
  py_startswith [a; b] (x :: l) = true -> head l = Some b.
Proof.
  intros H. destruct (startswith_two _ _ _ H) as [r Hr].
  injection Hr as _ ->. reflexivity.
Qed.

Lemma replace_double_star_cons2 (c1 c2 : N) (r2 : pystr) :
  replace_double_star (c1 :: c2 :: r2) =
  if (c1 =? 42)%N && (c2 =? 42)%N then 42%N :: replace_double_star r2
  else c1 :: replace_double_star (c2 :: r2).
Proof. reflexivity. Qed.

Lemma replace_double_star_infix (n : nat) (s : pystr) :
  length s <= n ->
  Py.is_infix (lit "**") (replace_double_star s) = true -> Py.is_infix (lit "***") s = true.
Proof.
  change (lit "**") with [42%N; 42%N]. change (lit "***") with [42%N; 42%N; 42%N].
  revert s. induction n as [|n IH]; intros s Hl H.
  { destruct s; [discriminate H|simpl in Hl; lia]. }
  destruct s as [|c1 [|c2 r2]]; [discriminate H| |].
  { simpl in H. rewrite andb_false_r in H. discriminate H. }
  rewrite is_infix_cons. apply orb_true_iff. rewrite replace_double_star_cons2 in H.
  destruct (c1 =? 42)%N eqn:E1; destruct (c2 =? 42)%N eqn:E2; cbn [andb] in H;
    apply N.eqb_eq in E1 || apply N.eqb_neq in E1;
    apply N.eqb_eq in E2 || apply N.eqb_neq in E2; subst.
  - rewrite is_infix_cons in H. apply orb_true_iff in H. destruct H as [H|H].
    + left. pose proof (startswith_two_head _ _ _ _ H) as Hh.
      rewrite replace_double_star_head in Hh.
      destruct r2 as [|c3 r3]; [discriminate Hh|]. injection Hh as Hh. subst c3. reflexivity.
    + right. rewrite is_infix_cons. apply orb_true_iff. right.
      apply (IH r2); [simpl in *; lia|exact H].
  - right. apply (IH (c2 :: r2)); [simpl in *; lia|].
    rewrite is_infix_cons in H. apply orb_true_iff in H. destruct H as [H|H]; [|exact H].
    pose proof (startswith_two_head _ _ _ _ H) as Hh.
    rewrite replace_double_star_head in Hh. injection Hh as Hh. congruence.
  - right. apply (IH (_ :: r2)); [simpl in *; lia|].
    rewrite is_infix_cons in H. apply orb_true_iff in H. destruct H as [H|H]; [|exact H].
    destruct (startswith_two _ _ _ H) as [r Hr]. injection Hr as Hr _. congruence.
  - right. apply (IH (c2 :: r2)); [simpl in *; lia|].
    rewrite is_infix_cons in H. apply orb_true_iff in H. destruct H as [H|H]; [|exact H].
    destruct (startswith_two _ _ _ H) as [r Hr]. injection Hr as Hr _. congruence.
Qed.

(** [generate] returns a text with [**] only when the API answered with
    status 200 and a [full_output] string holding [***]: every failure
    gives the empty string, and [replace("**", "*")] leaves no [**]
    behind from a run of at most two asterisks. *)
Theorem generate_double_star (generate_api : pystr -> pystr -> option (Z * option pyval))
    (prompt text : pystr) :
  (~ (exists data full_output,
        generate_api prompt text = Some (200%Z, Some data)
        /\ Py.get data (lit "full_output") (PStr []) = Some (PStr full_output)) ->
   generate generate_api prompt text = [])
  /\ (Py.is_infix (lit "**") (generate generate_api prompt text) = true ->
      exists data full_output,
        generate_api prompt text = Some (200%Z, Some data)
        /\ Py.get data (lit "full_output") (PStr []) = Some (PStr full_output)
        /\ Py.is_infix (lit "***") full_output = true).
Proof.
  unfold generate.
  destruct (generate_api prompt text) as [[status [data|]]|];
    [|destruct (negb (status =? 200)%Z); split; try reflexivity; intros H; discriminate H
     |split; [reflexivity|intros H; discriminate H]].
  destruct (Z.eqb_spec status 200) as [->|]; [|split; [reflexivity|intros H; discriminate H]].
  simpl.
  destruct (Py.get data (lit "full_output") (PStr [])) as [[]|] eqn:E;
    try (split; [reflexivity|intros H; discriminate H]).
  split.
  - intros Hn. exfalso. apply Hn. exists data, s. split; [reflexivity|exact E].
  - intros H. exists data, s. split; [reflexivity|]. split; [exact E|].
    exact (replace_double_star_infix (length s) s (le_n _) H).
Qed.

Definition api_stars (prompt text : pystr) : option (Z * option pyval) :=
  Some (200%Z, Some (PDict [(lit "full_output", PStr (lit "a***b"))])).

Definition api_down (prompt text : pystr) : option (Z * option pyval) := None.

Lemma generate_double_star_witness :
  generate api_down [] [] = []
  /\ generate api_stars [] [] = lit "a**b"
  /\ exists data full_output,
       api_stars [] [] = Some (200%Z, Some data)
       /\ Py.get data (lit "full_output") (PStr []) = Some (PStr full_output)
       /\ Py.is_infix (lit "***") full_output = true.
Proof.
  split.
  { apply (proj1 (generate_double_star api_down [] [])).
    intros [data [full_output [H _]]]. discriminate H. }
  split; [vm_compute; reflexivity|].
  apply (proj2 (generate_double_star api_stars [] [])). vm_compute. reflexivity.
Defined.

Lemma drop_space_idem (s : pystr) : drop_space (drop_space s) = drop_space s.
Proof.
  induction s as [|c r IH]; simpl; [reflexivity|].
  destruct (is_space c) eqn:E; [exact IH|simpl; rewrite E; reflexivity].
Qed.

Lemma drop_space_head (s : pystr) (c : N) (r : pystr) :
  drop_space s = c :: r -> is_space c = false.
Proof.
  induction s as [|d s IH]; simpl; [discriminate|].
  destruct (is_space d) eqn:E; [exact IH|intros H; injection H as -> _; exact E].
Qed.

Lemma drop_space_split (s : pystr) : exists w, s = w ++ drop_space s.
Proof.
  induction s as [|c r [w IH]]; simpl; [exists []; reflexivity|].
  destruct (is_space c); [exists (c :: w); simpl; rewrite <- IH; reflexivity|].
  exists []. reflexivity.
Qed.

(** [s.strip().strip() == s.strip()] *)
Lemma py_strip_idem (s : pystr) : py_strip (py_strip s) = py_strip s.
Proof.
  unfold py_strip. set (t := drop_space s). set (u := rev (drop_space (rev t))).
  assert (Hu : drop_space u = u).
  { destruct (drop_space_split (rev t)) as [w Hw].
    assert (Ht : t = u ++ rev w).
    { subst u. rewrite <- (rev_involutive t) at 1. rewrite Hw at 1.
      rewrite rev_app_distr. reflexivity. }
    destruct u as [|c r] eqn:Eu; [reflexivity|]. simpl.
    assert (Hc : is_space c = false) by (apply (drop_space_head s c (r ++ rev w)); exact Ht).
    rewrite Hc. reflexivity. }
  rewrite Hu. subst u. rewrite rev_involutive, drop_space_idem. reflexivity.
Qed.

Lemma claims_loop_ok (py_str : pyval -> pystr) (l : list pyval) (cs : list pystr) :
  claims_loop py_str l = Some cs -> Forall (fun c => c <> [] /\ py_strip c = c) cs.
Proof.
  revert cs. induction l as [|claim l IH]; intros cs; simpl.
  - intros H. injection H as <-. constructor.
  - unfold mbind, option_bind.
    destruct (Py.get claim (lit "claim") (PStr [])) as [c|]; [|discriminate].
    destruct (claims_loop py_str l) as [rest|]; [|discriminate].
    intros H. injection H as <-.
    specialize (IH rest eq_refl).
    destruct (py_strip (py_str c)) as [|x xs] eqn:E; simpl; [exact IH|].
    constructor; [|exact IH]. split; [discriminate|].
    rewrite <- E, py_strip_idem. reflexivity.
Qed.

(** Every claim returned by [detect_claims] is non-empty and has no
    surrounding whitespace, whatever the API answers or raises. *)
Theorem detect_claims_stripped (claim_detection_api : pystr -> option (Z * option pyval))
    (py_str : pyval -> pystr) (text : pystr) :
  Forall (fun c => c <> [] /\ py_strip c = c) (detect_claims claim_detection_api py_str text).
Proof.
  unfold detect_claims.
  destruct (claim_detection_api text) as [[status body]|]; [|constructor].
  destruct (400 <=? status)%Z; [constructor|].
  destruct body as [claims_data|]; [|constructor].
  destruct (Py.contains claims_data (lit "detectedClaims")) as [[]|]; try constructor.
  destruct claims_data; try constructor.
  destruct (Py.dict_get d (lit "detectedClaims")) as [v|]; [|constructor].
  destruct (Py.iter v) as [l|]; [|constructor].
  destruct (claims_loop py_str l) as [cs|] eqn:E; [|constructor].
  exact (claims_loop_ok py_str l cs E).
Qed.

End ClientSpec.

Module SuggestionsSpec.

Lemma dict_set_length {A} (d : list (pystr * A)) (k : pystr) (v : A) :
  length (dict_set d k v) <= S (length d).
Proof.
  induction d as [|[k' v'] d IH]; simpl; [lia|].
  destruct (pystr_eqb k k'); simpl; lia.
Qed.

Section WithServices.

Variable get_prompt : pystr -> pystr -> pystr -> pystr.
Variable generate : pystr -> pystr -> option pystr.
Variable rand_index : nat -> nat -> nat.

(** The buttons of [handle_claim_suggestions] are titled [Claim 1],
    [Claim 2], ... in the order of the claims read off the returned
    text, one per claim; when the generation raises, the text is the
    apology and there is no button and no table entry. *)
Theorem handle_claim_suggestions_titles (message_text context : pystr) :
  let '(buttons, btn_id_to_claim, response) :=
    Dispatch.handle_claim_suggestions get_prompt generate rand_index message_text context in
  map Dispatch.btn_title buttons
    = map (fun i => lit "Claim " ++ Dispatch.dec i) (seq 1 (length (Dispatch.extract_claims response)))
  /\ length btn_id_to_claim <= length buttons
  /\ (generate (get_prompt (lit "claim_suggestion") message_text context) message_text = None ->
      buttons = [] /\ btn_id_to_claim = [] /\ response = temp_issue).
Proof.
  unfold Dispatch.handle_claim_suggestions.
  destruct (generate (get_prompt (lit "claim_suggestion") message_text context) message_text)
    as [response|].
  - rewrite ProcessorsSpec.suggestion_buttons_eq. simpl app. split; [|split].
    + rewrite map_map. reflexivity.
    + rewrite length_map, length_seq.
      assert (Hf : forall (l : list (pystr * pystr)) m,
                 length (fold_left (fun d p => dict_set d (fst p) (snd p)) l m)
                 <= length m + length l).
      { induction l as [|p l IH]; intros m; simpl; [lia|].
        specialize (IH (dict_set m (fst p) (snd p))).
        pose proof (dict_set_length m (fst p) (snd p)). lia. }
      specialize (Hf (combine (map (Dispatch.random_id rand_index)
                                  (seq 1 (length (Dispatch.extract_claims response))))
                               (Dispatch.extract_claims response)) []).
      rewrite length_combine, length_map, length_seq, Nat.min_id in Hf. simpl in Hf. exact Hf.
    + intros H. discriminate H.
  - split; [vm_compute; reflexivity|]. split; [simpl; lia|]. intros _. auto.
Qed.

End WithServices.

End SuggestionsSpec.

Module FactCheckResponseSpec.

Import Processors FactCheckResponse.

Section WithServices.

Variable get_prompt : pystr -> pystr -> pystr -> pystr.
Variable generate : pystr -> pystr -> option pystr.
Variable fact_check : pystr -> option pyval.
Variable stance_detection : pyval -> option pyval.
Variable rand_index : nat -> nat -> nat.
Variable round2 : Q -> Q.
Variable py_str : pyval -> pystr.
Variable dict_body : Cleaner.cleaned -> pystr.
Variable convert_markdown_to_html : pystr -> pystr.
Variable platform_reply : sent -> option (option pystr).

Local Abbreviation respond :=
  (process_fact_check_response get_prompt generate fact_check stance_detection rand_index
     round2 py_str dict_body convert_markdown_to_html platform_reply).
Local Abbreviation reply :=
  (process_tracked_message convert_markdown_to_html platform_reply).

(** When the stance detection of the claim raises, the response is
    generated from the fact-check prompt with empty evidence and sent
    without buttons: a failed stance call does not lead to claim
    suggestions. A failed generation gives the apology. *)
Theorem fact_check_response_stance_failure (user_id message_text context claim platform : pystr) :
  stance_detection (PStr claim) = None ->
  respond user_id message_text context claim platform
  = catch
      (match generate (get_prompt (lit "fact_check") message_text context) [] with
       | None => throw
       | Some response => reply user_id response [] platform true
       end)
      (reply user_id error_checking [] platform true).
Proof.
  intros H. unfold process_fact_check_response, Dispatch.handle_fact_check_intent.
  cbn [Dispatch.url_evidence mbind option_bind Py.truthy Py.iter map]. rewrite H.
  reflexivity.
Qed.

(** When the stance detection succeeds but its result cleans to no
    evidence, the user gets the claim suggestions: their button ids are
    stored before the tracked reply carries the buttons. *)
Theorem fact_check_response_no_evidence (user_id message_text context claim platform : pystr)
    (result : pyval) :
  stance_detection (PStr claim) = Some result ->
  Cleaner.clean_facts round2 py_str result = [] ->
  respond user_id message_text context claim platform
  = catch
      (let '(buttons, btn_id_to_claim, response) :=
         Dispatch.handle_claim_suggestions get_prompt generate rand_index message_text context in
       _ <-- set_buttons btn_id_to_claim ;;
       reply user_id response buttons platform true)
      (reply user_id error_checking [] platform true).
Proof.
  intros H Hc. unfold process_fact_check_response, Dispatch.handle_fact_check_intent.
  cbn [Dispatch.url_evidence mbind option_bind Py.truthy Py.iter map]. rewrite H.
  cbn [Dispatch.gathered_evidence]. unfold Dispatch.clean_facts. rewrite Hc.
  reflexivity.
Qed.

End WithServices.

Definition prompt_of (kind message_text context : pystr) : pystr := kind.
Definition reply_ok (prompt evidence : pystr) : option pystr := Some (lit "ok").
Definition no_fact_check (url : pystr) : option pyval := None.
Definition stance_raises (claim : pyval) : option pyval := None.
Definition stance_none (claim : pyval) : option pyval := Some PNone.
Definition rand_zero (idx p : nat) : nat := 0.
Definition round_id (q : Q) : Q := q.
Definition str_empty (v : pyval) : pystr := [].
Definition body_empty (c : Cleaner.cleaned) : pystr := [].
Definition html_id (s : pystr) : pystr := s.
Definition reply_sent (m : sent) : option (option pystr) := Some (Some (lit "m1")).

Lemma fact_check_response_stance_failure_witness :
  stance_raises (PStr (lit "c")) = None
  /\ process_fact_check_response prompt_of reply_ok no_fact_check stance_raises rand_zero
       round_id str_empty body_empty html_id reply_sent (lit "u") (lit "hi") [] (lit "c")
       (lit "telegram")
     = catch
         (match reply_ok (prompt_of (lit "fact_check") (lit "hi") []) [] with
          | None => throw
          | Some response =>
              process_tracked_message html_id reply_sent (lit "u") response [] (lit "telegram") true
          end)
         (process_tracked_message html_id reply_sent (lit "u") error_checking []
            (lit "telegram") true).
Proof.
  split; [reflexivity|].
  apply (fact_check_response_stance_failure prompt_of reply_ok no_fact_check stance_raises
           rand_zero round_id str_empty body_empty html_id reply_sent
           (lit "u") (lit "hi") [] (lit "c") (lit "telegram")).
  reflexivity.
Defined.

Lemma fact_check_response_no_evidence_witness :
  stance_none (PStr (lit "c")) = Some PNone
  /\ Cleaner.clean_facts round_id str_empty PNone = []
  /\ process_fact_check_response prompt_of reply_ok no_fact_check stance_none rand_zero
       round_id str_empty body_empty html_id reply_sent (lit "u") (lit "hi") [] (lit "c")
       (lit "telegram")
     = catch
         (let '(buttons, btn_id_to_claim, response) :=
            Dispatch.handle_claim_suggestions prompt_of reply_ok rand_zero (lit "hi") [] in
          _ <-- set_buttons btn_id_to_claim ;;
          process_tracked_message html_id reply_sent (lit "u") response buttons
            (lit "telegram") true)
         (process_tracked_message html_id reply_sent (lit "u") error_checking []
            (lit "telegram") true).
Proof.
  split; [reflexivity|]. split; [vm_compute; reflexivity|].
  apply (fact_check_response_no_evidence prompt_of reply_ok no_fact_check stance_none
           rand_zero round_id str_empty body_empty html_id reply_sent
           (lit "u") (lit "hi") [] (lit "c") (lit "telegram") PNone).
  - reflexivity.
  - vm_compute. reflexivity.
Defined.

End FactCheckResponseSpec.

Module WhatsAppRatingSpec.

Import WhatsAppRating.

Section WithApi.

Variable api : post -> option pyval.

Local Abbreviation text_post phone_number message_id response :=
  (PostText phone_number (Outbound.send_whatsapp_message_body response) message_id).
Local Abbreviation list_post phone_number body message_id :=
  (PostList phone_number body (lit "Rate this response") (lit "Rate") (lit "Rating")
     rating_items message_id).

(** When [send_rating_message] returns normally, the response reached
    the API: either as the body of the accepted list message, or as an
    accepted text message (capped at 4096 characters). *)
Theorem send_rating_message_delivered (phone_number message_id response : pystr) (v : pyval) :
  snd (send_rating_message api phone_number message_id response) = Some v ->
  (In (list_post phone_number response message_id)
      (fst (send_rating_message api phone_number message_id response))
   /\ api (list_post phone_number response message_id) = Some v)
  \/ (In (text_post phone_number message_id response)
        (fst (send_rating_message api phone_number message_id response))
      /\ is_Some (api (text_post phone_number message_id response))).
Proof.
  unfold send_rating_message, send_whatsapp_message, send_list_message, send.
  destruct (MAX_LIST_MESSAGE_LENGTH <? length response).
  - destruct (api (text_post phone_number message_id response)) as [r1|] eqn:E1; simpl;
      [|discriminate].
    intros _. right. split; [left; reflexivity|]. eexists; reflexivity.
  - destruct (api (list_post phone_number response message_id)) as [r1|] eqn:E1; simpl.
    + intros H. injection H as <-. left. split; [left; reflexivity|reflexivity].
    + intros H. right. split; [right; left; reflexivity|]. rewrite H. eexists; reflexivity.
Qed.

(** A response over 1000 characters is posted as a text first; the
    list with the rating prompt follows only when the text was
    accepted, and its outcome is the result: a rejected list raises
    even though the text was delivered. *)
Theorem send_rating_message_long (phone_number message_id response : pystr) (r1 : pyval) :
  1000 < length response ->
  api (text_post phone_number message_id response) = Some r1 ->
  send_rating_message api phone_number message_id response
  = ([text_post phone_number message_id response;
      list_post phone_number rating_prompt message_id],
     api (list_post phone_number rating_prompt message_id)).
Proof.
  intros Hl H. unfold send_rating_message, send_whatsapp_message, send_list_message, send.
  replace (MAX_LIST_MESSAGE_LENGTH <? length response) with true
    by (symmetry; apply Nat.ltb_lt; exact Hl).
  rewrite H. reflexivity.
Qed.

(** A response of at most 1000 characters is the body of the list
    message; when the list is rejected, the same response is sent as a
    plain text, whose outcome is the result. *)
Theorem send_rating_message_fallback (phone_number message_id response : pystr) :
  length response <= 1000 ->
  api (list_post phone_number response message_id) = None ->
  send_rating_message api phone_number message_id response
  = ([list_post phone_number response message_id; text_post phone_number message_id response],
     api (text_post phone_number message_id response)).
Proof.
  intros Hl H. unfold send_rating_message, send_whatsapp_message, send_list_message, send.
  replace (MAX_LIST_MESSAGE_LENGTH <? length response) with false
    by (symmetry; apply Nat.ltb_ge; exact Hl).
  rewrite H. reflexivity.
Qed.

End WithApi.

(** An API that accepts text messages and rejects lists. *)
Definition api_text_only (p : post) : option pyval :=
  match p with
  | PostText _ _ _ => Some (PDict [])
  | PostList _ _ _ _ _ _ _ => None
  end.

Definition long_response : pystr := repeat 97%N 1001.

Lemma send_rating_message_delivered_witness :
  snd (send_rating_message api_text_only (lit "47") (lit "m1") (lit "ok")) = Some (PDict [])
  /\ ((In (PostList (lit "47") (lit "ok") (lit "Rate this response") (lit "Rate") (lit "Rating")
            rating_items (lit "m1"))
          (fst (send_rating_message api_text_only (lit "47") (lit "m1") (lit "ok")))
       /\ api_text_only (PostList (lit "47") (lit "ok") (lit "Rate this response") (lit "Rate")
                          (lit "Rating") rating_items (lit "m1")) = Some (PDict []))
      \/ (In (PostText (lit "47") (Outbound.send_whatsapp_message_body (lit "ok")) (lit "m1"))
            (fst (send_rating_message api_text_only (lit "47") (lit "m1") (lit "ok")))
          /\ is_Some (api_text_only
                        (PostText (lit "47") (Outbound.send_whatsapp_message_body (lit "ok"))
                           (lit "m1"))))).
Proof.
  split; [vm_compute; reflexivity|].
  apply (send_rating_message_delivered api_text_only (lit "47") (lit "m1") (lit "ok")).
  vm_compute. reflexivity.
Defined.

Lemma send_rating_message_long_witness :
  1000 < length long_response
  /\ api_text_only (PostText (lit "47") (Outbound.send_whatsapp_message_body long_response)
                     (lit "m1")) = Some (PDict [])
  /\ snd (send_rating_message api_text_only (lit "47") (lit "m1") long_response) = None
  /\ send_rating_message api_text_only (lit "47") (lit "m1") long_response
     = ([PostText (lit "47") (Outbound.send_whatsapp_message_body long_response) (lit "m1");
         PostList (lit "47") rating_prompt (lit "Rate this response") (lit "Rate") (lit "Rating")
           rating_items (lit "m1")],
        api_text_only (PostList (lit "47") rating_prompt (lit "Rate this response") (lit "Rate")
                         (lit "Rating") rating_items (lit "m1"))).
Proof.
  split; [vm_compute; lia|]. split; [reflexivity|]. split; [vm_compute; reflexivity|].
  apply (send_rating_message_long api_text_only (lit "47") (lit "m1") long_response (PDict [])).
  - vm_compute. lia.
  - reflexivity.
Defined.

Lemma send_rating_message_fallback_witness :
  length (lit "ok") <= 1000
  /\ send_rating_message api_text_only (lit "47") (lit "m1") (lit "ok")
     = ([PostList (lit "47") (lit "ok") (lit "Rate this response") (lit "Rate") (lit "Rating")
           rating_items (lit "m1");
         PostText (lit "47") (Outbound.send_whatsapp_message_body (lit "ok")) (lit "m1")],
        api_text_only (PostText (lit "47") (Outbound.send_whatsapp_message_body (lit "ok"))
                         (lit "m1"))).
Proof.
  split; [vm_compute; lia|].
  apply (send_rating_message_fallback api_text_only (lit "47") (lit "m1") (lit "ok")).
  - vm_compute. lia.
  - reflexivity.
Defined.

End WhatsAppRatingSpec.
